(** * pdp-genai: the decline-curve forecaster of [backend/pdp_forecast.py]

    A shallow embedding of [arps_decline], [fit_arps_decline],
    [forecast_well], [calculate_mpe] and [evaluate_forecast], and the
    properties of the specification that concern them.

    Reading conventions.
    - The Python code is duck-typed over its numbers.  The embedding is
      written once over an arithmetic interface [Numeric] and read twice:
      over the real numbers ([real_numeric]), which is the reading the
      mathematical properties of the decline model are about, and over IEEE
      binary64 ([binary64_numeric], on [SpecFloat]), which is what numpy
      computes and the only reading in which a division by zero has a
      non-finite result.
    - [scipy.optimize.curve_fit] and the C library's [pow] are not part of
      the repository; they are parameters of the development.
    - [np.mean] adds the elements of an array in the order of numpy's
      pairwise summation, which shows in binary64 and not over the reals.
    - Python objects live in a store: a DataFrame is reached through a
      reference, every indexing expression that builds a new DataFrame
      allocates one, and [print] appends to the standard output.
    - Integers are unbounded: the day offsets of a production history are
      far from the ends of int64. *)

From Stdlib Require Import ZArith String List Bool Lia.
From Stdlib Require Import Reals Lra.
From Stdlib Require Import SpecFloat DecimalString DecimalZ DecimalPos.
From Stdlib Require Import Sorted Permutation.
Import ListNotations.

Local Open Scope string_scope.
Local Open Scope list_scope.
Local Open Scope Z_scope.

(** ** Numbers *)

(** The arithmetic the code performs on its float values: the four
    operations, [**], the maximum behind [ndarray.max], the conversion of an
    integer, and the order the bounds of the fit are stated in. *)
Class Numeric (F : Type) : Type := {
  of_int : Z -> F;
  fadd : F -> F -> F;
  fsub : F -> F -> F;
  fmul : F -> F -> F;
  fdiv : F -> F -> F;
  fpow : F -> F -> F;
  fmax : F -> F -> F;
  fle : F -> F -> Prop
}.

(** The real-number reading.  [Rpower x y] is [exp (y * ln x)], which is
    [x ** y] for every positive base; the decline model only raises bases
    [1 + b*di*t >= 1] on its valid parameters. *)
Definition real_numeric : Numeric R := {|
  of_int := IZR;
  fadd := Rplus;
  fsub := Rminus;
  fmul := Rmult;
  fdiv := Rdiv;
  fpow := Rpower;
  fmax := Rmax;
  fle := Rle
|}.

(** The IEEE binary64 reading: precision 53, exponent bound 1024. *)
Definition prec : Z := 53.
Definition emax : Z := 1024.

Definition is_nan (x : spec_float) : bool :=
  match x with S754_nan => true | _ => false end.

(** [np.maximum] on doubles: a NaN operand is the result. *)
Definition b64_max (x y : spec_float) : spec_float :=
  if is_nan x then x
  else if is_nan y then y
  else if SFltb x y then y else x.

(** The IEEE operations, rounding to nearest even.  A division by zero is
    not an error for numpy: it gives an infinity or a NaN, and a warning
    that is not an exception.  [libm_pow] is the C library's [pow], which
    numpy calls for [**]. *)
Definition binary64_numeric (libm_pow : spec_float -> spec_float -> spec_float)
  : Numeric spec_float := {|
  of_int := fun z => binary_normalize prec emax z 0 false;
  fadd := SFadd prec emax;
  fsub := SFsub prec emax;
  fmul := SFmul prec emax;
  fdiv := SFdiv prec emax;
  fpow := libm_pow;
  fmax := b64_max;
  fle := fun x y => SFleb x y = true
|}.

(** A double is finite when it is neither an infinity nor a NaN. *)
Definition is_finite (x : spec_float) : bool :=
  match x with
  | S754_zero _ | S754_finite _ _ _ => true
  | S754_infinity _ | S754_nan => false
  end.

(** A zero of either sign. *)
Definition is_zero (x : spec_float) : bool :=
  match x with S754_zero _ => true | _ => false end.

(** An array holds a zero. *)
Definition has_zero (a : list spec_float) : Prop :=
  exists x, In x a /\ is_zero x = true.

(** ** Exceptions and the two monads *)

(** A Python exception: the name of its class and [str(e)]. *)
Record exn : Type := Exn { exn_class : string; exn_msg : string }.

(** A computation without effects that may raise. *)
Definition result (A : Type) : Type := (exn + A)%type.

Definition rret {A} (a : A) : result A := inr a.
Definition rraise {A} (e : exn) : result A := inl e.
Definition rbind {A B} (m : result A) (k : A -> result B) : result B :=
  match m with
  | inl e => inl e
  | inr a => k a
  end.

Notation "x <-? m ;; k" := (rbind m (fun x => k))
  (at level 61, m at next level, right associativity).

(** ** Data *)

Section Core.

Context {F : Type} {num : Numeric F}.

(** One record of the production table: the well, the production date (a
    pandas timestamp, in nanoseconds since the epoch) and the two volumes. *)
Record row : Type := Row {
  well_api : Z;
  prod_date : Z;
  oil : F;
  gas : F
}.

Definition DataFrame : Type := list row.

(** The interpreter's state the code can reach: the DataFrame objects and
    what has been printed. *)
Definition loc : Type := nat.

Record world : Type := World {
  heap : list DataFrame;
  stdout : list string
}.

(** A computation on the world that may raise; what was done before the
    raise stays done. *)
Definition M (A : Type) : Type := world -> result A * world.

Definition ret {A} (a : A) : M A := fun s => (inr a, s).
Definition raise {A} (e : exn) : M A := fun s => (inl e, s).
Definition bind {A B} (m : M A) (k : A -> M B) : M B :=
  fun s =>
    match m s with
    | (inl e, s') => (inl e, s')
    | (inr a, s') => k a s'
    end.
Definition lift {A} (r : result A) : M A := fun s => (r, s).

(** [try: body / except Exception as e: handler e]. *)
Definition try_except {A} (body : M A) (handler : exn -> M A) : M A :=
  fun s =>
    match body s with
    | (inl e, s') => handler e s'
    | (inr a, s') => (inr a, s')
    end.

End Core.

Arguments row F : clear implicits.
Arguments DataFrame F : clear implicits.
Arguments world F : clear implicits.
Arguments M F A : clear implicits.

Notation "x <- m ;; k" := (bind m (fun x => k))
  (at level 61, m at next level, right associativity).
Notation "' pat <- m ;; k" := (bind m (fun x => match x with pat => k end))
  (at level 61, pat pattern, m at next level, right associativity).

(** ** numpy and pandas primitives *)

Section Primitives.

Context {F : Type} {num : Numeric F}.

(** A float literal [n/d], correctly rounded: [0.1] is [literal 1 10]. *)
Definition literal (n d : Z) : F := fdiv (of_int n) (of_int d).

(** The ceiling of [a / b]. *)
Definition cdiv (a b : Z) : Z := - ((- a) / b).

(** [np.arange(start, stop, step)] on integers with a non-zero step:
    [ceil((stop - start) / step)] values, none when that is negative. *)
Definition arange (start stop step : Z) : list Z :=
  map (fun i => start + Z.of_nat i * step)
      (seq 0 (Z.to_nat (cdiv (stop - start) step))).

(** [a.max()]: numpy refuses an empty array. *)
Definition np_max (a : list F) : result F :=
  match a with
  | [] => rraise (Exn "ValueError"
            "zero-size array to reduction operation maximum which has no identity")
  | x :: xs => rret (fold_left fmax xs x)
  end.

(** An element-wise binary operation on two sequences of one length. *)
Fixpoint zip_with (op : F -> F -> F) (x y : list F) : list F :=
  match x, y with
  | a :: x', b :: y' => op a b :: zip_with op x' y'
  | _, _ => []
  end.

(** The sum of a contiguous float array, in the order numpy adds it
    (pairwise summation, [pairwise_sum] of numpy's add loop).

    Fewer than eight elements are added from left to right.  numpy starts
    that sum from [-0.0], which leaves the first element as it is. *)
Definition sum_block (a : list F) : F :=
  match a with
  | [] => of_int 0
  | x :: xs => fold_left fadd xs x
  end.

(** From 8 to 128 elements, eight accumulators [r[0..7]] start as the first
    eight elements; every further full block of eight is added to them,
    [r[j] += a[i + j]]. *)
Fixpoint accumulate (blocks : nat) (r a : list F) : list F :=
  match blocks with
  | O => r
  | S k => accumulate k (zip_with fadd r (firstn 8 a)) (skipn 8 a)
  end.

(** [((r[0] + r[1]) + (r[2] + r[3])) + ((r[4] + r[5]) + (r[6] + r[7]))]. *)
Definition sum_accumulators (r : list F) : F :=
  match r with
  | [r0; r1; r2; r3; r4; r5; r6; r7] =>
      fadd (fadd (fadd r0 r1) (fadd r2 r3)) (fadd (fadd r4 r5) (fadd r6 r7))
  | _ => of_int 0
  end.

(** The accumulators are added up, then the elements after the last full
    block one by one. *)
Definition sum_unrolled (a : list F) : F :=
  let n := length a in
  let full := (n - n mod 8)%nat in
  let r := accumulate (full / 8 - 1) (firstn 8 a) (skipn 8 (firstn full a)) in
  fold_left fadd (skipn full a) (sum_accumulators r).

(** Above 128 elements the array is cut in two, the first part a multiple of
    eight long, and the sums of the parts are added.  The recursion is on
    [fuel]; the length of the array is always enough of it. *)
Fixpoint pairwise_sum (fuel : nat) (a : list F) : F :=
  let n := length a in
  if (n <? 8)%nat then sum_block a
  else if (n <=? 128)%nat then sum_unrolled a
  else match fuel with
       | O => sum_unrolled a
       | S fuel' =>
           let n2 := (n / 2 - (n / 2) mod 8)%nat in
           fadd (pairwise_sum fuel' (firstn n2 a))
                (pairwise_sum fuel' (skipn n2 a))
       end.

(** [np.sum(a)]: the reduction starts from the identity [0.0] and adds the
    pairwise sum of the array to it. *)
Definition np_sum (a : list F) : F :=
  fadd (of_int 0) (pairwise_sum (length a) a).

(** [np.mean(a)]: the sum of the elements over their number. *)
Definition np_mean (a : list F) : F :=
  fdiv (np_sum a) (of_int (Z.of_nat (length a))).

(** [str(n)] of an integer. *)
Definition str_of_int (n : Z) : string := NilZero.string_of_int (Z.to_int n).

(** The message of numpy's [ValueError] for two one-dimensional operands
    whose shapes do not broadcast. *)
Definition broadcast_error (n m : nat) : exn :=
  Exn "ValueError"
    ("operands could not be broadcast together with shapes ("
       ++ str_of_int (Z.of_nat n) ++ ",) ("
       ++ str_of_int (Z.of_nat m) ++ ",) ")%string.

(** An element-wise binary operation on two one-dimensional arrays, with
    numpy's broadcasting: equal lengths, or one operand of length one. *)
Definition elementwise (op : F -> F -> F) (x y : list F) : result (list F) :=
  if Nat.eqb (length x) (length y) then rret (zip_with op x y)
  else match x, y with
       | [a], _ => rret (map (fun b => op a b) y)
       | _, [b] => rret (map (fun a => op a b) x)
       | _, _ => rraise (broadcast_error (length x) (length y))
       end.

(** [a[-1]]. *)
Definition index_last (a : list Z) : result Z :=
  match a with
  | [] => rraise (Exn "IndexError"
            "index -1 is out of bounds for axis 0 with size 0")
  | x :: xs => rret (last xs x)
  end.

(** [Series.min()] of a column of dates; on an empty column pandas answers
    NaT, which the subtraction that follows never reads: [0] stands for it. *)
Definition series_min (dates : list Z) : Z :=
  match dates with
  | [] => 0
  | d :: ds => fold_left Z.min ds d
  end.

(** [Timedelta.days] of a duration in nanoseconds: whole days, rounded down. *)
Definition ns_per_day : Z := 86400000000000.
Definition days (delta : Z) : Z := delta / ns_per_day.

(** [Series.unique()]: the distinct values, in order of first appearance. *)
Fixpoint unique (l : list Z) : list Z :=
  match l with
  | [] => []
  | x :: xs => x :: filter (fun y => negb (y =? x)) (unique xs)
  end.

(** [df[mask]]: the rows whose mask entry is true. *)
Definition boolean_index (mask : list bool) (df : DataFrame F) : DataFrame F :=
  map snd (filter fst (combine mask df)).

(** A bound of a Python slice on a sequence of length [n]: a negative index
    counts from the end, and either way it is clipped to [0..n]. *)
Definition slice_bound (n : Z) (i : option Z) (default : Z) : Z :=
  match i with
  | None => default
  | Some i => if i <? 0 then Z.max (n + i) 0 else Z.min i n
  end.

(** [l[start:stop]]. *)
Definition slice {A} (start stop : option Z) (l : list A) : list A :=
  let n := Z.of_nat (length l) in
  let lo := slice_bound n start 0 in
  let hi := slice_bound n stop n in
  firstn (Z.to_nat (hi - lo)) (skipn (Z.to_nat lo) l).

(** Operations on the store.  A reference to nothing cannot arise in
    Python; [deref] answers it with an error of its own. *)
Definition alloc (df : DataFrame F) : M F loc :=
  fun s => (inr (length (heap s)),
            {| heap := heap s ++ [df]; stdout := stdout s |}).

Definition deref (l : loc) : M F (DataFrame F) :=
  fun s => match nth_error (heap s) l with
           | Some df => (inr df, s)
           | None => (inl (Exn "ReferenceError" "no such object"), s)
           end.

Definition print (line : string) : M F unit :=
  fun s => (inr tt, {| heap := heap s; stdout := stdout s ++ [line] |}).

(** [df[name]]: a column of the DataFrame behind [l]. *)
Definition column {A} (l : loc) (field : row F -> A) : M F (list A) :=
  df <- deref l ;; ret (map field df).

(** [df.iloc[start:stop]]: a new DataFrame object over the selected rows. *)
Definition iloc (l : loc) (start stop : option Z) : M F loc :=
  df <- deref l ;; alloc (slice start stop df).

End Primitives.

(** ** The program *)

(** The parameters of a decline curve: [(qi, di, b)]. *)
Definition params (F : Type) : Type := (F * F * F)%type.

(** A bound of the fit: a number, or [np.inf] for none. *)
Inductive bound (F : Type) : Type :=
| Bounded (x : F)
| Unbounded.
Arguments Bounded {F} x.
Arguments Unbounded {F}.

Definition bounds (F : Type) : Type :=
  ((bound F * bound F * bound F) * (bound F * bound F * bound F))%type.

Section Program.

Context {F : Type} {num : Numeric F}.

(** [scipy.optimize.curve_fit(f, xdata, ydata, p0=p0, bounds=bounds)]: the
    fitted parameters, or the exception it raises. *)
Variable curve_fit :
  (F -> F -> F -> F -> F) -> list Z -> list F -> params F -> bounds F ->
  result (params F).

(** [arps_decline(t, qi, di, b)], on one time offset. *)
Definition arps_decline (t qi di b : F) : F :=
  fdiv qi (fpow (fadd (of_int 1) (fmul (fmul b di) t)) (fdiv (of_int 1) b)).

(** [arps_decline(t, *p)] on an array of integer offsets: element-wise. *)
Definition arps_decline_array (t : list Z) (p : params F) : list F :=
  let '(qi, di, b) := p in
  map (fun ti => arps_decline (of_int ti) qi di b) t.

Definition arps_bounds : bounds F :=
  ((Bounded (of_int 0), Bounded (of_int 0), Bounded (of_int 0)),
   (Unbounded, Bounded (of_int 1), Bounded (of_int 2))).

Definition fit_arps_decline (time : list Z) (production : list F)
  : result (params F) :=
  qi0 <-? np_max production ;;
  let p0 := (qi0, literal 1 10, literal 5 10) in
  curve_fit arps_decline time production p0 arps_bounds.

Definition forecast_well (well_data : loc) (forecast_months : Z)
  : M F (list F * list F) :=
  dates <- column well_data prod_date ;;
  dates' <- column well_data prod_date ;;
  let time := map (fun d => days (d - series_min dates')) dates in
  oil_production <- column well_data oil ;;
  gas_production <- column well_data gas ;;
  oil_params <- lift (fit_arps_decline time oil_production) ;;
  gas_params <- lift (fit_arps_decline time gas_production) ;;
  t_last <- lift (index_last time) ;;
  let forecast_time :=
    arange (t_last + 30) (t_last + 30 * (forecast_months + 1)) 30 in
  let oil_forecast := arps_decline_array forecast_time oil_params in
  let gas_forecast := arps_decline_array forecast_time gas_params in
  ret (oil_forecast, gas_forecast).

Definition calculate_mpe (actual forecast : list F) : result F :=
  diff <-? elementwise fsub forecast actual ;;
  ratio <-? elementwise fdiv diff actual ;;
  rret (fmul (np_mean ratio) (of_int 100)).

(** One entry of [results]: the dict with keys [well_api], [oil_mpe],
    [gas_mpe]. *)
Record evaluation : Type := Evaluation {
  ev_well_api : Z;
  oil_mpe : F;
  gas_mpe : F
}.

(** The body of the [try] of [evaluate_forecast] for one well, up to the
    dict it appends. *)
Definition score_well (df : loc) (well : Z) : M F evaluation :=
  apis <- column df well_api ;;
  rows <- deref df ;;
  well_data <- alloc (boolean_index (map (fun a => a =? well) apis) rows) ;;
  train_data <- iloc well_data None (Some (-12)) ;;
  test_data <- iloc well_data (Some (-12)) None ;;
  '(oil_forecast, gas_forecast) <- forecast_well train_data 12 ;;
  test_oil <- column test_data oil ;;
  o_mpe <- lift (calculate_mpe test_oil oil_forecast) ;;
  test_gas <- column test_data gas ;;
  g_mpe <- lift (calculate_mpe test_gas gas_forecast) ;;
  ret (Evaluation well o_mpe g_mpe).

(** The loop over the wells: [results] is the list built so far. *)
Fixpoint evaluate_loop (df : loc) (wells : list Z) (results : list evaluation)
  : M F (list evaluation) :=
  match wells with
  | [] => ret results
  | well :: rest =>
      results' <- try_except
        (ev <- score_well df well ;; ret (results ++ [ev]))
        (fun e =>
           _ <- print ("Error processing well " ++ str_of_int well
                       ++ ": " ++ exn_msg e)%string ;;
           ret results) ;;
      evaluate_loop df rest results'
  end.

Definition evaluate_forecast (df : loc) : M F (list evaluation) :=
  apis <- column df well_api ;;
  evaluate_loop df (unique apis) [].

End Program.

(** ** What the program computes from the rows it is given

    The outcomes of [forecast_well] and of the body of the loop as
    functions of the rows behind their arguments, and the vocabulary the
    properties are stated in. *)

Section Views.

Context {F : Type} {num : Numeric F}.

Variable curve_fit :
  (F -> F -> F -> F -> F) -> list Z -> list F -> params F -> bounds F ->
  result (params F).

(** The elapsed-day offsets of a window, from its own earliest date. *)
Definition window_time (w : DataFrame F) : list Z :=
  map (fun d => days (d - series_min (map prod_date w))) (map prod_date w).

(** The offsets the forecast is evaluated at. *)
Definition forecast_time (t_last forecast_months : Z) : list Z :=
  arange (t_last + 30) (t_last + 30 * (forecast_months + 1)) 30.

(** The outcome of [forecast_well] as a function of the rows behind its
    argument. *)
Definition forecast_of (w : DataFrame F) (forecast_months : Z)
  : result (list F * list F) :=
  oil_params <-? fit_arps_decline curve_fit (window_time w) (map oil w) ;;
  gas_params <-? fit_arps_decline curve_fit (window_time w) (map gas w) ;;
  t_last <-? index_last (window_time w) ;;
  rret (arps_decline_array (forecast_time t_last forecast_months) oil_params,
        arps_decline_array (forecast_time t_last forecast_months) gas_params).

(** The rows of one well, and the two parts [evaluate_forecast] splits them
    into. *)
Definition rows_of (df : DataFrame F) (well : Z) : DataFrame F :=
  filter (fun r => well_api r =? well) df.

Definition train_rows (wd : DataFrame F) : DataFrame F :=
  firstn (length wd - 12) wd.

Definition test_rows (wd : DataFrame F) : DataFrame F :=
  skipn (length wd - 12) wd.

(** The outcome of [score_well] as a function of the table. *)
Definition score_of (df : DataFrame F) (well : Z) : result (evaluation (F := F)) :=
  let wd := rows_of df well in
  fc <-? forecast_of (train_rows wd) 12 ;;
  o_mpe <-? calculate_mpe (map oil (test_rows wd)) (fst fc) ;;
  g_mpe <-? calculate_mpe (map gas (test_rows wd)) (snd fc) ;;
  rret (Evaluation well o_mpe g_mpe).

(** The objects [score_well] allocates: the well's rows and the two slices. *)
Definition scored_objects (df : DataFrame F) (well : Z) : list (DataFrame F) :=
  let wd := rows_of df well in [wd; train_rows wd; test_rows wd].

(** What one well adds to [results], and what it adds to the output. *)
Definition kept (df : DataFrame F) (well : Z) : list (evaluation (F := F)) :=
  match score_of df well with
  | inr ev => [ev]
  | inl _ => []
  end.

Definition logged (df : DataFrame F) (well : Z) : list string :=
  match score_of df well with
  | inr _ => []
  | inl e => [("Error processing well " ++ str_of_int well
               ++ ": " ++ exn_msg e)%string]
  end.

(** What [calculate_mpe] computes on two arrays of one length. *)
Definition percentage_errors (actual forecast : list F) : list F :=
  zip_with (fun f a => fdiv (fsub f a) a) forecast actual.

Definition mpe (actual forecast : list F) : F :=
  fmul (np_mean (percentage_errors actual forecast)) (of_int 100).





(** The number of distinct dates of a window. *)
Definition distinct_dates (w : DataFrame F) : nat :=
  length (unique (map prod_date w)).

End Views.

(** ** Vocabulary for sums

    [adds_up l v]: the number [v] is obtained from the elements of [l] by
    additions alone, every element used once, in some order and some
    grouping; the empty sum is [0]. *)

Section Sums.

Context {F : Type} {num : Numeric F}.

Inductive adds_up : list F -> F -> Prop :=
| adds_up_nil : adds_up [] (of_int 0)
| adds_up_one (x : F) : adds_up [x] x
| adds_up_app (l1 l2 : list F) (v1 v2 : F) :
    adds_up l1 v1 -> adds_up l2 v2 -> adds_up (l1 ++ l2) (fadd v1 v2)
| adds_up_perm (l l' : list F) (v : F) :
    Permutation l l' -> adds_up l v -> adds_up l' v.

(** Following the words of the specification: the relative errors
    [(forecast_i - actual_i) / actual_i] of a forecast against the actual
    values, point by point. *)
Fixpoint relative_errors (actual forecast : list F) : list F :=
  match actual, forecast with
  | a :: actual', f :: forecast' =>
      fdiv (fsub f a) a :: relative_errors actual' forecast'
  | _, _ => []
  end.

End Sums.

(** ** The rest of the program: data preparation and the web service *)

(** A body [jsonify] is given: an error message, the list of the wells, the
    history of a well with its forecast, or an adjusted forecast. *)
Inductive json (F : Type) : Type :=
| ErrorBody (error : string)
| WellsBody (wells : list Z)
| WellDataBody (dates : list Z)
    (oil_production gas_production oil_forecast gas_forecast : list F)
    (forecast_dates : list Z)
| ForecastBody (oil_forecast gas_forecast : list F) (forecast_dates : list Z).
Arguments ErrorBody {F} error.
Arguments WellsBody {F} wells.
Arguments WellDataBody {F} dates oil_production gas_production
  oil_forecast gas_forecast forecast_dates.
Arguments ForecastBody {F} oil_forecast gas_forecast forecast_dates.

(** What a view returns to Flask: the body and the status code. *)
Record response (F : Type) : Type := Response {
  body : json F;
  status : Z
}.
Arguments Response {F} body status.
Arguments body {F} r.
Arguments status {F} r.

(** One point of the scatter plots: the dict [plot_predicted_vs_actual]
    appends to [plot_data]. *)
Record plot_point (F : Type) : Type := PlotPoint {
  actual_oil : F;
  predicted_oil : F;
  actual_gas : F;
  predicted_gas : F;
  point_well : Z
}.
Arguments PlotPoint {F} actual_oil predicted_oil actual_gas predicted_gas
  point_well.
Arguments actual_oil {F} p.
Arguments predicted_oil {F} p.
Arguments actual_gas {F} p.
Arguments predicted_gas {F} p.
Arguments point_well {F} p.

Section Service.

Context {F : Type} {num : Numeric F}.

Variable curve_fit :
  (F -> F -> F -> F -> F) -> list Z -> list F -> params F -> bounds F ->
  result (params F).

(** [np.random.choice(a, size=n, replace=False)]: the sample the global
    generator of numpy draws at the one place the program calls it. *)
Variable random_choice : list Z -> nat -> list Z.

(** [df.sort_values('prod_date')]: pandas' default sort on one column,
    which is not stable. *)
Variable sort_by_date : DataFrame F -> DataFrame F.

(** [pd.date_range(start=start, periods=12, freq='M').tolist()]: the twelve
    month ends from [start] on, or the exception pandas raises. *)
Variable date_range : Z -> result (list Z).

(** A stable sort, by insertion: pandas sorts on several columns with a
    stable sort, and sorts the keys of a [groupby]. *)
Fixpoint insert_by {A} (leb : A -> A -> bool) (x : A) (l : list A) : list A :=
  match l with
  | [] => [x]
  | y :: l' => if leb x y then x :: l else y :: insert_by leb x l'
  end.

Definition stable_sort {A} (leb : A -> A -> bool) (l : list A) : list A :=
  fold_right (insert_by leb) [] l.

(** The order of [sort_values(['well_api', 'prod_date'])]. *)
Definition well_date_leb (r1 r2 : row F) : bool :=
  (well_api r1 <? well_api r2)
  || ((well_api r1 =? well_api r2) && (prod_date r1 <=? prod_date r2)).

(** [df.groupby('well_api').size()]: the wells in increasing order, each
    with the number of its rows. *)
Definition groupby_size (apis : list Z) : list (Z * nat) :=
  map (fun w => (w, count_occ Z.eq_dec apis w))
      (stable_sort Z.leb (unique apis)).

(** [Series.isin(values)]. *)
Definition isin (values : list Z) (a : Z) : bool :=
  existsb (fun v => a =? v) values.

(** [len(df)]. *)
Definition len (l : loc) : M F nat :=
  df <- deref l ;; ret (length df).

(** [preprocess_data(df)]: the wells with at least 24 records, ten of them
    drawn at random, and their rows sorted by well and date. *)
Definition preprocess_data (df : loc) : M F loc :=
  apis <- column df well_api ;;
  let well_counts := groupby_size apis in
  let valid_wells :=
    map fst (filter (fun wc => (24 <=? snd wc)%nat) well_counts) in
  let selected_wells :=
    random_choice valid_wells (Nat.min 10 (length valid_wells)) in
  apis' <- column df well_api ;;
  rows <- deref df ;;
  df_filtered <- alloc (boolean_index (map (isin selected_wells) apis') rows) ;;
  rows' <- deref df_filtered ;;
  alloc (stable_sort well_date_leb rows').

(** The points of the two scatter plots, as [plot_predicted_vs_actual]
    collects them in [plot_data] before it hands them to plotly: for one
    row of the evaluation results, and for all of them.  [iterrows] hands the
    well of a row over as a float; well numbers are far below 2^53, where
    that changes nothing. *)
Fixpoint zip4 {A B C D} (a : list A) (b : list B) (c : list C) (d : list D)
  : list (A * B * C * D) :=
  match a, b, c, d with
  | x :: a', y :: b', z :: c', w :: d' => (x, y, z, w) :: zip4 a' b' c' d'
  | _, _, _, _ => []
  end.

Definition plot_well (df_filtered : loc) (well : Z) : M F (list (plot_point F)) :=
  apis <- column df_filtered well_api ;;
  rows <- deref df_filtered ;;
  selected <- alloc (boolean_index (map (fun a => a =? well) apis) rows) ;;
  well_data <- iloc selected (Some (-12)) None ;;
  apis' <- column df_filtered well_api ;;
  rows' <- deref df_filtered ;;
  selected' <- alloc (boolean_index (map (fun a => a =? well) apis') rows') ;;
  train_data <- iloc selected' None (Some (-12)) ;;
  '(oil_forecast, gas_forecast) <- forecast_well curve_fit train_data 12 ;;
  actual_oils <- column well_data oil ;;
  actual_gases <- column well_data gas ;;
  ret (map (fun '(a_oil, p_oil, a_gas, p_gas) =>
              PlotPoint a_oil p_oil a_gas p_gas well)
           (zip4 actual_oils oil_forecast actual_gases gas_forecast)).

Fixpoint plot_data (df_filtered : loc)
    (evaluation_results : list (evaluation (F := F)))
    (points : list (plot_point F)) : M F (list (plot_point F)) :=
  match evaluation_results with
  | [] => ret points
  | ev :: rest =>
      new_points <- plot_well df_filtered (ev_well_api ev) ;;
      plot_data df_filtered rest (points ++ new_points)
  end.

(** ** The views of [app.py]

    [df_filtered] is the global table of the module, [well_api_arg] the
    part of the URL that names the well.  [traceback.print_exc()] writes to
    the standard error, which the world does not hold. *)

Definition get_wells (df_filtered : loc) : M F (response F) :=
  apis <- column df_filtered well_api ;;
  ret (Response (WellsBody (unique apis)) 200).

Definition get_well_data (df_filtered : loc) (well_api_arg : string)
  : M F (response F) :=
  try_except
    (apis <- column df_filtered well_api ;;
     rows <- deref df_filtered ;;
     well_data <- alloc (boolean_index
                           (map (fun a => String.eqb (str_of_int a) well_api_arg)
                                apis) rows) ;;
     _ <- print ("Fetching data for well API: " ++ well_api_arg)%string ;;
     n <- len well_data ;;
     _ <- print ("Number of records found: "
                 ++ str_of_int (Z.of_nat n))%string ;;
     n' <- len well_data ;;
     if (n' <? 24)%nat then
       n'' <- len well_data ;;
       let error_message :=
         ("Insufficient data for well " ++ well_api_arg ++ ". Only "
          ++ str_of_int (Z.of_nat n'') ++ " records found.")%string in
       _ <- print error_message ;;
       ret (Response (ErrorBody error_message) 400)
     else
       wd <- deref well_data ;;
       sorted <- alloc (sort_by_date wd) ;;
       last_24_months <- iloc sorted (Some (-24)) None ;;
       actual_data <- iloc last_24_months None (Some 12) ;;
       forecast_period <- iloc last_24_months (Some 12) None ;;
       '(oil_forecast, gas_forecast) <- forecast_well curve_fit actual_data 12 ;;
       dates <- column last_24_months prod_date ;;
       oil_production <- column last_24_months oil ;;
       gas_production <- column last_24_months gas ;;
       forecast_dates <- column forecast_period prod_date ;;
       ret (Response (WellDataBody dates oil_production gas_production
                        oil_forecast gas_forecast forecast_dates) 200))
    (fun e =>
       let error_message :=
         ("Error processing data for well " ++ well_api_arg ++ ": "
          ++ exn_msg e)%string in
       _ <- print error_message ;;
       _ <- print "Traceback:" ;;
       ret (Response (ErrorBody error_message) 500)).

(** [params[key]] on the value of [request.json]: [None] when the body is
    the JSON [null], a dict otherwise, given as the list of its items. *)
Definition subscript (params : option (list (string * F))) (key : string)
  : result F :=
  match params with
  | None => rraise (Exn "TypeError" "'NoneType' object is not subscriptable")
  | Some items =>
      match find (fun kv => String.eqb (fst kv) key) items with
      | Some kv => rret (snd kv)
      | None => rraise (Exn "KeyError" ("'" ++ key ++ "'")%string)
      end
  end.

(** [s.iloc[-1]]. *)
Definition iloc_last (a : list Z) : result Z :=
  match a with
  | [] => rraise (Exn "IndexError" "single positional indexer is out-of-bounds")
  | x :: xs => rret (last xs x)
  end.

(** [request_json] is the outcome of reading [request.json]: Flask raises
    when the request carries no JSON. *)
Definition update_forecast (df_filtered : loc) (well_api_arg : string)
    (request_json : result (option (list (string * F))))
  : M F (response F) :=
  try_except
    (params <- lift request_json ;;
     apis <- column df_filtered well_api ;;
     rows <- deref df_filtered ;;
     well_data <- alloc (boolean_index
                           (map (fun a => String.eqb (str_of_int a) well_api_arg)
                                apis) rows) ;;
     n <- len well_data ;;
     if (n <? 24)%nat then
       ret (Response (ErrorBody "Insufficient data for this well") 400)
     else
       train_data <- iloc well_data None (Some (-12)) ;;
       test_data <- iloc well_data (Some (-12)) None ;;
       '(oil_forecast, gas_forecast) <- forecast_well curve_fit train_data 12 ;;
       oil_percent <- lift (subscript params "oil_adjustment") ;;
       let oil_adjustment :=
         fadd (of_int 1) (fdiv oil_percent (of_int 100)) in
       gas_percent <- lift (subscript params "gas_adjustment") ;;
       let gas_adjustment :=
         fadd (of_int 1) (fdiv gas_percent (of_int 100)) in
       let adjusted_oil_forecast :=
         map (fun x => fmul x oil_adjustment) oil_forecast in
       let adjusted_gas_forecast :=
         map (fun x => fmul x gas_adjustment) gas_forecast in
       train_dates <- column train_data prod_date ;;
       last_date <- lift (iloc_last train_dates) ;;
       forecast_dates <- lift (date_range (last_date + 30 * ns_per_day)) ;;
       ret (Response (ForecastBody adjusted_oil_forecast adjusted_gas_forecast
                        forecast_dates) 200))
    (fun e => ret (Response (ErrorBody (exn_msg e)) 500)).

End Service.

(** ** Vocabulary for the properties of the rest of the program *)

Section ServiceViews.

Context {F : Type} {num : Numeric F}.

(** The same window, every date moved by [c] nanoseconds. *)
Definition shift_dates (c : Z) (w : DataFrame F) : DataFrame F :=
  map (fun r => Row (well_api r) (prod_date r + c) (oil r) (gas r)) w.

(** The contract of [np.random.choice(a, size=n, replace=False)] on an array
    of distinct values: [n] distinct values, all from [a]. *)
Definition draws_sample (random_choice : list Z -> nat -> list Z) : Prop :=
  forall a n,
    NoDup a -> (n <= length a)%nat ->
    NoDup (random_choice a n)
    /\ incl (random_choice a n) a
    /\ length (random_choice a n) = n.

(** The contract of [sort_values('prod_date')]: the same rows, in the order
    of their dates. *)
Definition sorts_by_date (sort_by_date : DataFrame F -> DataFrame F) : Prop :=
  forall df,
    Permutation (sort_by_date df) df
    /\ StronglySorted Z.le (map prod_date (sort_by_date df)).

(** The rows a view selects for the well named in the URL. *)
Definition rows_named (df : DataFrame F) (well_api_arg : string) : DataFrame F :=
  filter (fun r => String.eqb (str_of_int (well_api r)) well_api_arg) df.

(** In the order of [sort_values(['well_api', 'prod_date'])]. *)
Definition well_date_le (r1 r2 : row F) : Prop :=
  well_api r1 < well_api r2
  \/ (well_api r1 = well_api r2 /\ prod_date r1 <= prod_date r2).

(** The wells with at least 24 records. *)
Definition valid_wells_of (df : DataFrame F) : list Z :=
  filter (fun w => (24 <=? length (rows_of df w))%nat)
         (unique (map well_api df)).

(** The wells [preprocess_data] draws, and the table it builds, as
    functions of the rows of the table it is given. *)
Definition selected_wells_of (random_choice : list Z -> nat -> list Z)
    (df : DataFrame F) : list Z :=
  let valid_wells :=
    map fst (filter (fun wc => (24 <=? snd wc)%nat)
                    (groupby_size (map well_api df))) in
  random_choice valid_wells (Nat.min 10 (length valid_wells)).

Definition preprocessed (random_choice : list Z -> nat -> list Z)
    (df : DataFrame F) : DataFrame F :=
  stable_sort well_date_leb
    (filter (fun r => isin (selected_wells_of random_choice df) (well_api r))
            df).

(** The answer of [get_well_data] as a function of the rows of the global
    table. *)
Definition well_data_response
    (curve_fit : (F -> F -> F -> F -> F) -> list Z -> list F -> params F ->
                 bounds F -> result (params F))
    (sort_by_date : DataFrame F -> DataFrame F)
    (df : DataFrame F) (well_api_arg : string) : response F :=
  let wd := rows_named df well_api_arg in
  if (length wd <? 24)%nat then
    Response
      (ErrorBody ("Insufficient data for well " ++ well_api_arg ++ ". Only "
                  ++ str_of_int (Z.of_nat (length wd))
                  ++ " records found.")%string) 400
  else
    let last_24_months := slice (Some (-24)) None (sort_by_date wd) in
    match forecast_of curve_fit (slice None (Some 12) last_24_months) 12 with
    | inl e =>
        Response
          (ErrorBody ("Error processing data for well " ++ well_api_arg
                      ++ ": " ++ exn_msg e)%string) 500
    | inr (oil_forecast, gas_forecast) =>
        Response
          (WellDataBody (map prod_date last_24_months)
             (map oil last_24_months) (map gas last_24_months)
             oil_forecast gas_forecast
             (map prod_date (slice (Some 12) None last_24_months))) 200
    end.

(** The answer of [update_forecast], likewise. *)
Definition forecast_response
    (curve_fit : (F -> F -> F -> F -> F) -> list Z -> list F -> params F ->
                 bounds F -> result (params F))
    (date_range : Z -> result (list Z))
    (df : DataFrame F) (well_api_arg : string)
    (request_json : result (option (list (string * F)))) : response F :=
  let answer :=
    params <-? request_json ;;
    let wd := rows_named df well_api_arg in
    if (length wd <? 24)%nat then
      rret (Response (ErrorBody "Insufficient data for this well") 400)
    else
      fc <-? forecast_of curve_fit (train_rows wd) 12 ;;
      oil_percent <-? subscript params "oil_adjustment" ;;
      gas_percent <-? subscript params "gas_adjustment" ;;
      last_date <-? iloc_last (map prod_date (train_rows wd)) ;;
      forecast_dates <-? date_range (last_date + 30 * ns_per_day) ;;
      rret (Response
              (ForecastBody
                 (map (fun x => fmul x (fadd (of_int 1)
                                          (fdiv oil_percent (of_int 100))))
                      (fst fc))
                 (map (fun x => fmul x (fadd (of_int 1)
                                          (fdiv gas_percent (of_int 100))))
                      (snd fc))
                 forecast_dates) 200) in
  match answer with
  | inr r => r
  | inl e => Response (ErrorBody (exn_msg e)) 500
  end.

(** The points [plot_data] collects for one well, as a function of the
    table. *)
Definition points_of
    (curve_fit : (F -> F -> F -> F -> F) -> list Z -> list F -> params F ->
                 bounds F -> result (params F))
    (df : DataFrame F) (well : Z) : result (list (plot_point F)) :=
  let wd := rows_of df well in
  fc <-? forecast_of curve_fit (train_rows wd) 12 ;;
  rret (map (fun '(a_oil, p_oil, a_gas, p_gas) =>
               PlotPoint a_oil p_oil a_gas p_gas well)
            (zip4 (map oil (test_rows wd)) (fst fc)
                  (map gas (test_rows wd)) (snd fc))).

(** The table a computation returns a reference to, if it returns one. *)
Definition table_after (run : result loc * world F) : option (DataFrame F) :=
  match fst run with
  | inr l => nth_error (heap (snd run)) l
  | inl _ => None
  end.

End ServiceViews.

(** ** A sample run *)

(** An optimizer that stops where it starts: it returns the initial guess. *)
Definition keep_initial_guess {F : Type}
    (f : F -> F -> F -> F -> F) (xdata : list Z) (ydata : list F)
    (p0 : params F) (bnds : bounds F) : result (params F) :=
  inr p0.

(** [pow] on the one exponent the sample run raises to: with [b = 0.5] the
    exponent [1 / b] is [2], and [x ** 2] is [x * x]. *)
Definition pow_square (x y : spec_float) : spec_float :=
  if SFeqb y (binary_normalize prec emax 2 0 false)
  then SFmul prec emax x x
  else S754_nan.

Definition sample_numeric : Numeric spec_float := binary64_numeric pow_square.

(** An optimizer that finds no parameters. *)
Definition no_fit {F : Type}
    (f : F -> F -> F -> F -> F) (xdata : list Z) (ydata : list F)
    (p0 : params F) (bnds : bounds F) : result (params F) :=
  inl (Exn "RuntimeError"
         "Optimal parameters not found: The maximum number of function evaluations is exceeded.").


(** A row from a well, a day and two whole volumes. *)
Definition sample_row (well : Z) (r : Z * Z * Z) : row spec_float :=
  let '(day, o, g) := r in
  Row well (day * ns_per_day)
      (of_int (Numeric := sample_numeric) o)
      (of_int (Numeric := sample_numeric) g).

(** Well 1 has fourteen monthly records, with a zero gas volume and a zero
    oil volume among its last twelve; well 2 has three records. *)
Definition sample_table : DataFrame spec_float :=
  map (sample_row 1)
    [(0, 500, 900); (31, 470, 850); (59, 445, 800); (90, 420, 760);
     (120, 400, 720); (151, 380, 690); (181, 365, 660); (212, 350, 630);
     (243, 335, 600); (273, 320, 580); (304, 310, 560); (334, 300, 540);
     (365, 290, 0); (396, 0, 505)]
  ++ map (sample_row 2) [(0, 80, 10); (31, 70, 9); (59, 60, 8)].

Definition sample_world : world spec_float :=
  {| heap := [sample_table]; stdout := [] |}.

Definition sample_window : DataFrame spec_float :=
  map (sample_row 1) [(0, 500, 900); (31, 470, 850)].

Definition sample_oil_params : params spec_float :=
  (of_int (Numeric := sample_numeric) 500,
   literal (num := sample_numeric) 1 10,
   literal (num := sample_numeric) 5 10).

Definition sample_gas_params : params spec_float :=
  (of_int (Numeric := sample_numeric) 900,
   literal (num := sample_numeric) 1 10,
   literal (num := sample_numeric) 5 10).

Definition sample_forecast : list spec_float * list spec_float := Eval vm_compute in
    match forecast_of (num := sample_numeric) keep_initial_guess
            sample_window 12 with
    | inr fc => fc
    | inl _ => ([], [])
    end.

Definition sample_records : list (evaluation (F := spec_float)) := Eval vm_compute in
    match fst (evaluate_forecast (num := sample_numeric) keep_initial_guess
                 0%nat sample_world) with
    | inr recs => recs
    | inl _ => []
    end.

Definition sample_record : evaluation (F := spec_float) := Eval vm_compute in
    hd (Evaluation 0 S754_nan S754_nan) sample_records.

(** A window with a single record, hence a single date. *)
Definition single_row_window : DataFrame spec_float :=
  [sample_row 1 (0, 100, 200)].




(** ** A sample run of the rest of the program *)

(** The draw that takes the first wells offered. *)
Definition sample_choice (a : list Z) (n : nat) : list Z := firstn n a.

(** A sort on the dates. *)
Definition sample_sort {F : Type} (df : DataFrame F) : DataFrame F :=
  stable_sort (fun r1 r2 => prod_date r1 <=? prod_date r2) df.

(** Twelve dates, thirty days apart, from the start on: they stand for the
    month ends pandas computes. *)
Definition sample_date_range (start : Z) : result (list Z) :=
  inr (map (fun i => start + Z.of_nat i * 30 * ns_per_day) (seq 0 12)).

(** Well 7 has 24 records, one every 30 days, with volumes that decline;
    well 8 has three. *)
Definition sample_history : DataFrame spec_float :=
  map (fun i => sample_row 7 (Z.of_nat i * 30,
                              500 - 10 * Z.of_nat i,
                              900 - 20 * Z.of_nat i)) (seq 0 24)
  ++ map (sample_row 8) [(0, 80, 10); (30, 70, 9); (60, 60, 8)].

Definition sample_service_world : world spec_float :=
  {| heap := [sample_history]; stdout := [] |}.

Definition sample_prepared : DataFrame spec_float := Eval vm_compute in
    match table_after (preprocess_data sample_choice
                         0%nat sample_service_world) with
    | Some out => out
    | None => []
    end.

Definition sample_prepared_world : world spec_float :=
  {| heap := [sample_prepared]; stdout := [] |}.

Definition sample_well_data : response spec_float := Eval vm_compute in
    match fst (get_well_data (num := sample_numeric) keep_initial_guess
                 sample_sort 0%nat "7" sample_service_world) with
    | inr r => r
    | inl _ => Response (ErrorBody "") 0
    end.

(** A request that raises the oil forecast by ten percent and lowers the
    gas forecast by five. *)
Definition sample_request : result (option (list (string * spec_float))) :=
  inr (Some [("oil_adjustment", of_int (Numeric := sample_numeric) 10);
             ("gas_adjustment", of_int (Numeric := sample_numeric) (-5))]).

(** A request whose body is not JSON, with the exception Flask raises for
    it, and a request that names no oil adjustment. *)
Definition sample_unreadable_request
  : result (option (list (string * spec_float))) :=
  inl (Exn "UnsupportedMediaType"
         "415 Unsupported Media Type: Did not attempt to load JSON data because the request Content-Type was not 'application/json'.").

Definition sample_request_without_oil
  : result (option (list (string * spec_float))) :=
  inr (Some [("gas_adjustment", of_int (Numeric := sample_numeric) (-5))]).

Definition sample_update : response spec_float := Eval vm_compute in
    match fst (update_forecast (num := sample_numeric) keep_initial_guess
                 sample_date_range 0%nat "7" sample_request
                 sample_service_world) with
    | inr r => r
    | inl _ => Response (ErrorBody "") 0
    end.

(** The same history over the reals, with a request that adjusts nothing. *)
Definition real_row (well : Z) (r : Z * Z * Z) : row R :=
  let '(day, o, g) := r in
  Row well (day * ns_per_day) (IZR o) (IZR g).

Definition real_history : DataFrame R :=
  map (fun i => real_row 7 (Z.of_nat i * 30,
                            500 - 10 * Z.of_nat i,
                            900 - 20 * Z.of_nat i)) (seq 0 24).

Definition real_train : DataFrame R := firstn 12 real_history.

Definition real_forecast : list R * list R :=
  let t := forecast_time 330 12 in
  (arps_decline_array (num := real_numeric) t
     (fold_left Rmax (map oil (tl real_train)) 500%R,
      literal (num := real_numeric) 1 10, literal (num := real_numeric) 5 10),
   arps_decline_array (num := real_numeric) t
     (fold_left Rmax (map gas (tl real_train)) 900%R,
      literal (num := real_numeric) 1 10, literal (num := real_numeric) 5 10)).

(** * Properties *)

(** ** The primitives on small inputs *)

Example arange_one_year :
  arange (334 + 30) (334 + 30 * (12 + 1)) 30
  = [364; 394; 424; 454; 484; 514; 544; 574; 604; 634; 664; 694].
Proof. reflexivity. Qed.

Example arange_no_month : arange (334 + 30) (334 + 30 * (0 + 1)) 30 = [].
Proof. reflexivity. Qed.

Example slice_all_but_last_twelve :
  slice None (Some (-12)) (seq 0 14) = [0; 1]%nat.
Proof. reflexivity. Qed.

Example slice_last_twelve_of_five :
  slice (Some (-12)) None (seq 0 5) = [0; 1; 2; 3; 4]%nat.
Proof. reflexivity. Qed.

Example unique_keeps_first : unique [3; 1; 3; 2; 1] = [3; 1; 2].
Proof. reflexivity. Qed.

Example days_rounds_down : days (31 * ns_per_day + 5) = 31.
Proof. reflexivity. Qed.

(** Actual values 4 and 3 forecast as 3 and 3: the errors are -25% and 0%,
    their mean -12.5%. *)
Example calculate_mpe_sample :
  calculate_mpe (num := sample_numeric)
    (map (of_int (Numeric := sample_numeric)) [4; 3])
    (map (of_int (Numeric := sample_numeric)) [3; 3])
  = inr (fdiv (Numeric := sample_numeric)
           (of_int (Numeric := sample_numeric) (-25))
           (of_int (Numeric := sample_numeric) 2)).
Proof. vm_compute. reflexivity. Qed.

(** Shapes that do not broadcast are refused. *)
Example calculate_mpe_shapes :
  calculate_mpe (num := sample_numeric)
    (map (of_int (Numeric := sample_numeric)) [4; 3; 2])
    (map (of_int (Numeric := sample_numeric)) [3; 3])
  = inl (Exn "ValueError"
           "operands could not be broadcast together with shapes (2,) (3,) ").
Proof. vm_compute. reflexivity. Qed.

(** The order in which [np.sum] adds twelve values, the length of a test
    window: the first eight pairwise, the last four one by one. *)
Example np_sum_twelve {F} {num : Numeric F}
    (a0 a1 a2 a3 a4 a5 a6 a7 a8 a9 a10 a11 : F) :
  np_sum [a0; a1; a2; a3; a4; a5; a6; a7; a8; a9; a10; a11]
  = fadd (of_int 0)
      (fadd (fadd (fadd (fadd
         (fadd (fadd (fadd a0 a1) (fadd a2 a3))
               (fadd (fadd a4 a5) (fadd a6 a7)))
         a8) a9) a10) a11).
Proof. reflexivity. Qed.

(** ** Running the primitives *)

Section Steps.

Context {F : Type} {num : Numeric F}.

Lemma bind_ok {A B} (m : M F A) (k : A -> M F B) (s s' : world F) (a : A) :
  m s = (inr a, s') -> bind m k s = k a s'.
Proof. intros H. unfold bind. now rewrite H. Qed.

Lemma bind_raise {A B} (m : M F A) (k : A -> M F B) (s s' : world F) (e : exn) :
  m s = (inl e, s') -> bind m k s = (inl e, s').
Proof. intros H. unfold bind. now rewrite H. Qed.

Lemma deref_ok (s : world F) (l : loc) (df : DataFrame F) :
  nth_error (heap s) l = Some df -> deref l s = (inr df, s).
Proof. intros H. unfold deref. now rewrite H. Qed.

Lemma column_ok {A} (s : world F) (l : loc) (df : DataFrame F) (f : row F -> A) :
  nth_error (heap s) l = Some df -> column l f s = (inr (map f df), s).
Proof.
  intros H. unfold column. now rewrite (bind_ok _ _ _ _ _ (deref_ok _ _ _ H)).
Qed.

Lemma iloc_ok (s : world F) (l : loc) (df : DataFrame F) (start stop : option Z) :
  nth_error (heap s) l = Some df ->
  iloc l start stop s
  = (inr (length (heap s)),
     {| heap := heap s ++ [slice start stop df]; stdout := stdout s |}).
Proof.
  intros H. unfold iloc. now rewrite (bind_ok _ _ _ _ _ (deref_ok _ _ _ H)).
Qed.

Lemma nth_error_alloc (h : list (DataFrame F)) (x : DataFrame F) :
  nth_error (h ++ [x]) (length h) = Some x.
Proof.
  rewrite nth_error_app2 by apply Nat.le_refl.
  now rewrite Nat.sub_diag.
Qed.

Lemma nth_error_kept (h ext : list (DataFrame F)) (l : loc) (df : DataFrame F) :
  nth_error h l = Some df -> nth_error (h ++ ext) l = Some df.
Proof.
  intros H. rewrite nth_error_app1; [exact H|].
  apply nth_error_Some. now rewrite H.
Qed.

Lemma boolean_index_filter (p : Z -> bool) (df : DataFrame F) :
  boolean_index (map p (map well_api df)) df
  = filter (fun r => p (well_api r)) df.
Proof.
  unfold boolean_index.
  induction df as [|r df IH]; simpl; [reflexivity|].
  destruct (p (well_api r)); simpl; now rewrite IH.
Qed.

Lemma slice_train {A} (l : list A) :
  slice None (Some (-12)) l = firstn (length l - 12) l.
Proof.
  unfold slice, slice_bound. change (-12 <? 0) with true. cbv iota.
  change (Z.to_nat 0) with 0%nat. rewrite skipn_O. f_equal. lia.
Qed.

Lemma slice_test {A} (l : list A) :
  slice (Some (-12)) None l = skipn (length l - 12) l.
Proof.
  unfold slice, slice_bound. change (-12 <? 0) with true. cbv iota.
  replace (Z.to_nat (Z.max (Z.of_nat (length l) + -12) 0))
    with (length l - 12)%nat by lia.
  apply firstn_all2. rewrite length_skipn. lia.
Qed.

End Steps.

(** ** The sum of an array *)

Section Summing.

Context {F : Type} {num : Numeric F}.

Lemma pairwise_sum_unfold (fuel : nat) (a : list F) :
  pairwise_sum fuel a
  = if (length a <? 8)%nat then sum_block a
    else if (length a <=? 128)%nat then sum_unrolled a
    else match fuel with
         | O => sum_unrolled a
         | S fuel' =>
             let n2 := (length a / 2 - (length a / 2) mod 8)%nat in
             fadd (pairwise_sum fuel' (firstn n2 a))
                  (pairwise_sum fuel' (skipn n2 a))
         end.
Proof. now destruct fuel. Qed.

(** The recursion never runs out of fuel: any amount from the length of the
    array on gives the same sum. *)
Lemma pairwise_sum_fuel (fuel fuel' : nat) (a : list F) :
  (length a <= fuel)%nat -> (length a <= fuel')%nat ->
  pairwise_sum fuel a = pairwise_sum fuel' a.
Proof.
  revert fuel' a. induction fuel as [|fuel IH]; intros fuel' a H H'.
  - rewrite !pairwise_sum_unfold.
    destruct (length a <? 8)%nat eqn:E; [reflexivity|].
    apply Nat.ltb_ge in E. lia.
  - rewrite !pairwise_sum_unfold.
    destruct (length a <? 8)%nat eqn:E8; [reflexivity|].
    destruct (length a <=? 128)%nat eqn:E128; [reflexivity|].
    apply Nat.leb_gt in E128.
    destruct fuel' as [|fuel']; [lia|]. cbv zeta.
    assert (Hn2 : (0 < length a / 2 - (length a / 2) mod 8 < length a)%nat).
    { pose proof (Nat.mod_upper_bound (length a / 2) 8 ltac:(lia)).
      pose proof (Nat.Div0.div_lt_upper_bound (length a) 2 (length a)
                    ltac:(lia)).
      assert (64 <= length a / 2)%nat
        by (apply Nat.div_le_lower_bound; lia).
      lia. }
    f_equal; apply IH;
      rewrite ?length_firstn, ?length_skipn; lia.
Qed.

Lemma zip_with_length (op : F -> F -> F) (x y : list F) :
  length x = length y -> length (zip_with op x y) = length x.
Proof.
  revert y. induction x as [|a x IH]; intros [|b y] H; try discriminate;
    [reflexivity|].
  simpl. f_equal. apply IH. now injection H.
Qed.

Lemma adds_up_fold (xs l : list F) (v : F) :
  adds_up l v -> adds_up (l ++ xs) (fold_left fadd xs v).
Proof.
  revert l v. induction xs as [|x xs IH]; intros l v H; simpl.
  - now rewrite app_nil_r.
  - replace (l ++ x :: xs) with ((l ++ [x]) ++ xs)
      by now rewrite <- app_assoc.
    apply IH. apply adds_up_app; [exact H | constructor].
Qed.

Lemma adds_up_block (a : list F) : adds_up a (sum_block a).
Proof.
  destruct a as [|x xs]; [constructor|].
  apply (adds_up_fold xs [x] x). constructor.
Qed.

(** The accumulators while numpy runs over the blocks: each adds up a group
    of the elements read so far. *)
Lemma adds_up_zip (gs : list (list F)) (r c : list F) :
  Forall2 adds_up gs r -> length c = length r ->
  exists gs', Forall2 adds_up gs' (zip_with fadd r c)
              /\ Permutation (concat gs') (concat gs ++ c).
Proof.
  intros H. revert c.
  induction H as [|g v gs r Hg H IH]; intros [|x c] Hlen; try discriminate.
  - exists []. split; [constructor | reflexivity].
  - destruct (IH c) as [gs' [H' Hp]]; [now injection Hlen|].
    exists ((g ++ [x]) :: gs'). split.
    + simpl. constructor; [|exact H'].
      apply adds_up_app; [exact Hg | constructor].
    + simpl. rewrite Hp, <- !app_assoc. apply Permutation_app_head.
      simpl. apply Permutation_middle.
Qed.

Lemma adds_up_accumulate (k : nat) (gs : list (list F)) (r a : list F) :
  Forall2 adds_up gs r -> length r = 8%nat -> length a = (8 * k)%nat ->
  exists gs', Forall2 adds_up gs' (accumulate k r a)
              /\ Permutation (concat gs') (concat gs ++ a).
Proof.
  revert gs r a. induction k as [|k IH]; intros gs r a H Hr Ha.
  - destruct a; [|discriminate]. exists gs.
    split; [exact H | now rewrite app_nil_r].
  - cbn [accumulate].
    destruct (adds_up_zip gs r (firstn 8 a) H) as [gs1 [H1 Hp1]].
    { rewrite length_firstn. lia. }
    destruct (IH gs1 (zip_with fadd r (firstn 8 a)) (skipn 8 a) H1)
      as [gs2 [H2 Hp2]].
    { rewrite zip_with_length; [exact Hr|]. rewrite length_firstn. lia. }
    { rewrite length_skipn. lia. }
    exists gs2. split; [exact H2|].
    rewrite Hp2, Hp1, <- app_assoc. now rewrite firstn_skipn.
Qed.

Lemma accumulate_length (k : nat) (r a : list F) :
  length r = 8%nat -> length a = (8 * k)%nat ->
  length (accumulate k r a) = 8%nat.
Proof.
  revert r a. induction k as [|k IH]; intros r a Hr Ha; [exact Hr|].
  cbn [accumulate]. apply IH.
  - rewrite zip_with_length; [exact Hr|]. rewrite length_firstn. lia.
  - rewrite length_skipn. lia.
Qed.

Lemma adds_up_singletons (l : list F) :
  Forall2 adds_up (map (fun x => [x]) l) l
  /\ concat (map (fun x => [x]) l) = l.
Proof.
  induction l as [|x l [IH1 IH2]]; simpl; split;
    try constructor; try assumption; try constructor.
  now rewrite IH2.
Qed.

Lemma adds_up_accumulators (gs : list (list F)) (r : list F) :
  Forall2 adds_up gs r -> length r = 8%nat ->
  adds_up (concat gs) (sum_accumulators r).
Proof.
  intros H Hr.
  destruct r as [|r0 [|r1 [|r2 [|r3 [|r4 [|r5 [|r6 [|r7 [|? ?]]]]]]]]];
    try discriminate.
  repeat match goal with
         | H : Forall2 _ _ (_ :: _) |- _ => inversion H; subst; clear H
         | H : Forall2 _ _ [] |- _ => inversion H; subst; clear H
         end.
  cbn [concat sum_accumulators]. rewrite app_nil_r.
  rewrite !app_assoc. rewrite <- (app_assoc _ x3 x4).
  rewrite <- (app_assoc _ x1 x2). rewrite <- (app_assoc _ x5 x6).
  rewrite <- (app_assoc ((x ++ x0) ++ x1 ++ x2)).
  repeat apply adds_up_app; assumption.
Qed.

Lemma adds_up_unrolled (a : list F) :
  (8 <= length a)%nat -> adds_up a (sum_unrolled a).
Proof.
  intros Hn. unfold sum_unrolled.
  set (n := length a). set (full := (n - n mod 8)%nat).
  pose proof (Nat.div_mod_eq n 8) as Hdiv.
  pose proof (Nat.mod_upper_bound n 8 ltac:(lia)) as Hmod.
  assert (Hfull : full = (8 * (n / 8))%nat) by (unfold full; lia).
  assert (Hq : (full / 8 = n / 8)%nat).
  { rewrite Hfull, Nat.mul_comm. apply Nat.div_mul. lia. }
  assert (Hq1 : (1 <= n / 8)%nat) by (fold n in Hn; lia).
  destruct (adds_up_singletons (firstn 8 a)) as [H0 Hc0].
  destruct (adds_up_accumulate (full / 8 - 1) _ (firstn 8 a)
              (skipn 8 (firstn full a)) H0) as [gs [Hgs Hp]].
  { rewrite length_firstn. fold n. lia. }
  { rewrite length_skipn, length_firstn. fold n. lia. }
  rewrite Hc0 in Hp.
  replace (firstn 8 a) with (firstn 8 (firstn full a)) in Hp at 1
    by (rewrite firstn_firstn; f_equal; lia).
  rewrite firstn_skipn in Hp.
  rewrite <- (firstn_skipn full a) at 1.
  apply adds_up_fold. apply (adds_up_perm (concat gs)); [exact Hp|].
  apply adds_up_accumulators; [exact Hgs|].
  apply accumulate_length.
  - rewrite length_firstn. fold n. lia.
  - rewrite length_skipn, length_firstn. fold n. lia.
Qed.

Lemma adds_up_pairwise (fuel : nat) (a : list F) :
  adds_up a (pairwise_sum fuel a).
Proof.
  revert a. induction fuel as [|fuel IH]; intros a;
    rewrite pairwise_sum_unfold;
    (destruct (length a <? 8)%nat eqn:E8; [apply adds_up_block|]);
    apply Nat.ltb_ge in E8;
    (destruct (length a <=? 128)%nat; [now apply adds_up_unrolled|]).
  - now apply adds_up_unrolled.
  - cbv zeta.
    rewrite <- (firstn_skipn (length a / 2 - (length a / 2) mod 8) a) at 1.
    apply adds_up_app; apply IH.
Qed.

(** [np.sum] adds up the elements of its array: every one of them, once. *)
Lemma adds_up_sum (a : list F) : adds_up a (np_sum a).
Proof.
  apply (adds_up_app [] a); [constructor | apply adds_up_pairwise].
Qed.

End Summing.

Section RealSums.

Local Open Scope R_scope.

Lemma real_sum_app (l1 l2 : list R) :
  fold_right Rplus 0 (l1 ++ l2) = fold_right Rplus 0 l1 + fold_right Rplus 0 l2.
Proof. induction l1 as [|x l1 IH]; simpl; [ring|]. rewrite IH. ring. Qed.

Lemma real_sum_perm (l l' : list R) :
  Permutation l l' -> fold_right Rplus 0 l = fold_right Rplus 0 l'.
Proof.
  induction 1 as [|x l l' H IH|x y l|l l' l'' H1 IH1 H2 IH2]; simpl;
    [reflexivity | now rewrite IH | ring | now rewrite IH1].
Qed.

Lemma real_adds_up (l : list R) (v : R) :
  adds_up (num := real_numeric) l v -> v = fold_right Rplus 0 l.
Proof.
  induction 1 as [|x|l1 l2 v1 v2 H1 IH1 H2 IH2|l l' v Hp H IH].
  - reflexivity.
  - simpl. ring.
  - rewrite real_sum_app, <- IH1, <- IH2. reflexivity.
  - now rewrite <- (real_sum_perm l l' Hp).
Qed.

(** Over the real numbers the order of the additions does not show: the sum
    is the sum of the elements. *)
Lemma real_sum (a : list R) :
  np_sum (num := real_numeric) a = fold_right Rplus 0 a.
Proof. apply real_adds_up, adds_up_sum. Qed.

End RealSums.

(** ** Running the forecaster *)

Section Runs.

Context {F : Type} {num : Numeric F}.

Variable curve_fit :
  (F -> F -> F -> F -> F) -> list Z -> list F -> params F -> bounds F ->
  result (params F).

(** [forecast_well] reads the rows behind its argument and changes nothing:
    its outcome is [forecast_of] of those rows, in the same world. *)
Lemma forecast_well_run (s : world F) (l : loc) (w : DataFrame F) (m : Z) :
  nth_error (heap s) l = Some w ->
  forecast_well curve_fit l m s = (forecast_of curve_fit w m, s).
Proof.
  intros H.
  unfold forecast_well, forecast_of, column, bind, deref, lift, ret.
  repeat (rewrite H; cbv beta iota zeta). fold (window_time w).
  destruct (fit_arps_decline curve_fit (window_time w) (map oil w))
    as [e|po]; [reflexivity|].
  destruct (fit_arps_decline curve_fit (window_time w) (map gas w))
    as [e|pg]; [reflexivity|].
  destruct (index_last (window_time w)) as [e|tl]; reflexivity.
Qed.

Lemma forecast_well_dangling (s : world F) (l : loc) (m : Z) :
  nth_error (heap s) l = None ->
  forecast_well curve_fit l m s
  = (inl (Exn "ReferenceError" "no such object"), s).
Proof.
  intros H. unfold forecast_well, column, bind, deref. now rewrite H.
Qed.

End Runs.

(** ** Running the loop *)

Section LoopRuns.

Context {F : Type} {num : Numeric F}.

Variable curve_fit :
  (F -> F -> F -> F -> F) -> list Z -> list F -> params F -> bounds F ->
  result (params F).

(** The body of the loop, run where the table is: the outcome is
    [score_of], and the world has three objects more, also when it raised. *)
Lemma score_well_run (s : world F) (l : loc) (df : DataFrame F) (well : Z) :
  nth_error (heap s) l = Some df ->
  score_well curve_fit l well s
  = (score_of curve_fit df well,
     {| heap := heap s ++ scored_objects df well; stdout := stdout s |}).
Proof.
  intros H. unfold score_well, scored_objects.
  rewrite (bind_ok _ _ _ _ _ (column_ok _ _ _ _ H)).
  rewrite (bind_ok _ _ _ _ _ (deref_ok _ _ _ H)).
  rewrite (boolean_index_filter (fun a => a =? well)).
  fold (rows_of df well). set (wd := rows_of df well).
  unfold alloc at 1. unfold bind at 1. cbv beta iota.
  set (s1 := {| heap := heap s ++ [wd]; stdout := stdout s |}).
  assert (H1 : nth_error (heap s1) (length (heap s)) = Some wd)
    by apply nth_error_alloc.
  rewrite (bind_ok _ _ _ _ _ (iloc_ok _ _ _ _ _ H1)).
  rewrite slice_train. fold (train_rows wd).
  set (s2 := {| heap := heap s1 ++ [train_rows wd]; stdout := stdout s1 |}).
  assert (H2 : nth_error (heap s2) (length (heap s)) = Some wd)
    by (apply nth_error_kept; exact H1).
  rewrite (bind_ok _ _ _ _ _ (iloc_ok _ _ _ _ _ H2)).
  rewrite slice_test. fold (test_rows wd).
  set (s3 := {| heap := heap s2 ++ [test_rows wd]; stdout := stdout s2 |}).
  assert (H3 : nth_error (heap s3) (length (heap s1)) = Some (train_rows wd))
    by (apply nth_error_kept; apply nth_error_alloc).
  assert (H4 : nth_error (heap s3) (length (heap s2)) = Some (test_rows wd))
    by apply nth_error_alloc.
  assert (Hs3 : s3 = {| heap := heap s ++ [wd; train_rows wd; test_rows wd];
                        stdout := stdout s |}).
  { unfold s3, s2, s1. simpl. now rewrite <- !app_assoc. }
  unfold score_of. fold wd.
  unfold bind at 1. rewrite (forecast_well_run curve_fit _ _ _ _ H3).
  destruct (forecast_of curve_fit (train_rows wd) 12) as [e|[o g]];
    simpl rbind; [now rewrite Hs3|].
  rewrite (bind_ok _ _ _ _ _ (column_ok _ _ _ _ H4)).
  unfold lift at 1. unfold bind at 1. simpl fst. simpl snd.
  destruct (calculate_mpe (map oil (test_rows wd)) o) as [e|om];
    simpl rbind; [now rewrite Hs3|].
  rewrite (bind_ok _ _ _ _ _ (column_ok _ _ _ _ H4)).
  unfold lift at 1. unfold bind at 1.
  destruct (calculate_mpe (map gas (test_rows wd)) g) as [e|gm];
    simpl rbind; [now rewrite Hs3|].
  unfold ret, rret. now rewrite Hs3.
Qed.

(** The loop, run where the table is: it cannot raise, and it leaves behind
    the objects of every well it went through and one line per well it
    skipped. *)
Lemma evaluate_loop_run (df : DataFrame F) (l : loc) (wells : list Z) :
  forall (s : world F) (results : list evaluation),
    nth_error (heap s) l = Some df ->
    evaluate_loop curve_fit l wells results s
    = (inr (results ++ flat_map (kept curve_fit df) wells),
       {| heap := heap s ++ flat_map (scored_objects df) wells;
          stdout := stdout s ++ flat_map (logged curve_fit df) wells |}).
Proof.
  induction wells as [|well rest IH]; intros s results H.
  - simpl. unfold ret. rewrite !app_nil_r. now destruct s.
  - cbn [evaluate_loop flat_map].
    unfold bind at 1, try_except at 1, bind at 1.
    rewrite (score_well_run _ _ _ _ H).
    unfold kept at 1, logged at 1.
    destruct (score_of curve_fit df well) as [e|ev].
    + unfold bind at 1, print at 1, ret at 1.
      rewrite IH by (apply nth_error_kept; exact H).
      cbn [heap stdout]. now rewrite <- !app_assoc.
    + unfold ret at 1.
      rewrite IH by (apply nth_error_kept; exact H).
      cbn [heap stdout]. now rewrite <- !app_assoc.
Qed.

Lemma evaluate_forecast_run (s : world F) (l : loc) (df : DataFrame F) :
  nth_error (heap s) l = Some df ->
  evaluate_forecast curve_fit l s
  = (inr (flat_map (kept curve_fit df) (unique (map well_api df))),
     {| heap := heap s
                ++ flat_map (scored_objects df) (unique (map well_api df));
        stdout := stdout s
                ++ flat_map (logged curve_fit df) (unique (map well_api df)) |}).
Proof.
  intros H. unfold evaluate_forecast.
  rewrite (bind_ok _ _ _ _ _ (column_ok _ _ _ _ H)).
  now rewrite (evaluate_loop_run df l _ s [] H).
Qed.

End LoopRuns.

(** ** The forecaster *)

Section Forecasting.

Context {F : Type} {num : Numeric F}.

Variable curve_fit :
  (F -> F -> F -> F -> F) -> list Z -> list F -> params F -> bounds F ->
  result (params F).

Lemma cdiv_horizon (t m : Z) :
  cdiv (t + 30 * (m + 1) - (t + 30)) 30 = m.
Proof.
  unfold cdiv.
  replace (- (t + 30 * (m + 1) - (t + 30))) with ((- m) * 30) by lia.
  rewrite Z.div_mul by discriminate. lia.
Qed.

Lemma forecast_time_length (t m : Z) :
  length (forecast_time t m) = Z.to_nat m.
Proof.
  unfold forecast_time, arange.
  now rewrite length_map, length_seq, cdiv_horizon.
Qed.

Lemma nth_map_seq {A} (f : nat -> A) (n i : nat) (d : A) :
  (i < n)%nat -> nth i (map f (seq 0 n)) d = f i.
Proof.
  intros Hi.
  rewrite (nth_indep _ d (f 0%nat)) by now rewrite length_map, length_seq.
  rewrite (map_nth f). now rewrite seq_nth.
Qed.

Lemma forecast_time_nth (t m : Z) (i : nat) :
  (i < Z.to_nat m)%nat ->
  nth i (forecast_time t m) 0 = t + 30 + Z.of_nat i * 30.
Proof.
  intros Hi. unfold forecast_time, arange. rewrite cdiv_horizon.
  now rewrite nth_map_seq.
Qed.

Lemma arps_decline_array_length (t : list Z) (p : params F) :
  length (arps_decline_array t p) = length t.
Proof. destruct p as [[qi di] b]. apply length_map. Qed.

Lemma np_max_ok_nonempty (a : list F) (x : F) :
  np_max a = inr x -> a <> [].
Proof. destruct a; [discriminate | intros _; discriminate]. Qed.

Lemma fit_ok_nonempty (time : list Z) (production : list F) (p : params F) :
  fit_arps_decline curve_fit time production = inr p -> production <> [].
Proof.
  unfold fit_arps_decline. intros H.
  destruct (np_max production) as [e|x] eqn:E; [discriminate|].
  eapply np_max_ok_nonempty; eassumption.
Qed.

Lemma index_last_window (w : DataFrame F) :
  w <> [] -> exists t_last, index_last (window_time w) = inr t_last.
Proof.
  destruct w as [|r w]; [intros H; now elim H|intros _].
  unfold window_time. simpl map. eexists. reflexivity.
Qed.

(** What a successful forecast is made of. *)
Lemma forecast_of_ok (w : DataFrame F) (m : Z) (po pg : params F) :
  fit_arps_decline curve_fit (window_time w) (map oil w) = inr po ->
  fit_arps_decline curve_fit (window_time w) (map gas w) = inr pg ->
  exists t_last,
    index_last (window_time w) = inr t_last /\
    forecast_of curve_fit w m
    = inr (arps_decline_array (forecast_time t_last m) po,
           arps_decline_array (forecast_time t_last m) pg).
Proof.
  intros Ho Hg.
  assert (Hw : w <> []).
  { intros ->. apply fit_ok_nonempty in Ho. now apply Ho. }
  destruct (index_last_window w Hw) as [t_last Ht].
  exists t_last. split; [exact Ht|].
  unfold forecast_of. now rewrite Ho, Hg, Ht.
Qed.

Lemma forecast_of_inv (w : DataFrame F) (m : Z) (o g : list F) :
  forecast_of curve_fit w m = inr (o, g) ->
  exists po pg t_last,
    fit_arps_decline curve_fit (window_time w) (map oil w) = inr po /\
    fit_arps_decline curve_fit (window_time w) (map gas w) = inr pg /\
    index_last (window_time w) = inr t_last /\
    o = arps_decline_array (forecast_time t_last m) po /\
    g = arps_decline_array (forecast_time t_last m) pg.
Proof.
  unfold forecast_of. intros H.
  destruct (fit_arps_decline curve_fit (window_time w) (map oil w))
    as [e|po]; [discriminate|].
  destruct (fit_arps_decline curve_fit (window_time w) (map gas w))
    as [e|pg]; [discriminate|].
  destruct (index_last (window_time w)) as [e|t_last]; [discriminate|].
  simpl in H. injection H as <- <-.
  exists po, pg, t_last. repeat split; reflexivity.
Qed.

Lemma index_last_app (l : list Z) (x : Z) : index_last (l ++ [x]) = inr x.
Proof.
  destruct l as [|y l]; [reflexivity|].
  cbn [app index_last]. unfold rret. f_equal. apply last_last.
Qed.

Lemma arps_decline_array_values (t : list Z) (qi di b : F) :
  arps_decline_array t (qi, di, b)
  = map (fun ti =>
           fdiv qi (fpow (fadd (of_int 1) (fmul (fmul b di) (of_int ti)))
                         (fdiv (of_int 1) b))) t.
Proof. reflexivity. Qed.

(** C1, amended.  When both fits of a window return, with parameters
    [(qi, di, b)] for each commodity, and the horizon is
    [forecast_months = m >= 1], [forecast_well] returns two sequences of
    length [m]: the values [qi / (1 + b di t) ** (1 / b)] of the two fitted
    curves at [m] offsets [t], in the order of the offsets.  The first
    offset is the last historical offset, the whole days from the earliest
    date of the window to the date of its last record, plus 30; each next
    one is 30 days after the one before. *)
Theorem forecast_well_horizon
    (s : world F) (l : loc) (w : DataFrame F) (m : Z)
    (qi_oil di_oil b_oil qi_gas di_gas b_gas : F) :
  nth_error (heap s) l = Some w ->
  1 <= m ->
  fit_arps_decline curve_fit (window_time w) (map oil w)
  = inr (qi_oil, di_oil, b_oil) ->
  fit_arps_decline curve_fit (window_time w) (map gas w)
  = inr (qi_gas, di_gas, b_gas) ->
  exists (before : DataFrame F) (r_last : row F) (t_last : Z)
         (offsets : list Z) (oil_forecast gas_forecast : list F),
    w = before ++ [r_last] /\
    t_last = (prod_date r_last - series_min (map prod_date w)) / ns_per_day /\
    length offsets = Z.to_nat m /\
    nth 0 offsets 0 = t_last + 30 /\
    (forall i, (S i < length offsets)%nat ->
               nth (S i) offsets 0 = nth i offsets 0 + 30) /\
    fst (forecast_well curve_fit l m s) = inr (oil_forecast, gas_forecast) /\
    oil_forecast
    = map (fun t =>
             fdiv qi_oil
               (fpow (fadd (of_int 1) (fmul (fmul b_oil di_oil) (of_int t)))
                     (fdiv (of_int 1) b_oil))) offsets /\
    gas_forecast
    = map (fun t =>
             fdiv qi_gas
               (fpow (fadd (of_int 1) (fmul (fmul b_gas di_gas) (of_int t)))
                     (fdiv (of_int 1) b_gas))) offsets /\
    length oil_forecast = Z.to_nat m /\
    length gas_forecast = Z.to_nat m.
Proof.
  intros Hl Hm Ho Hg.
  destruct (forecast_of_ok w m _ _ Ho Hg) as [t_last [Ht Hf]].
  assert (Hw : w <> []).
  { intros ->. apply fit_ok_nonempty in Ho. now apply Ho. }
  destruct (exists_last Hw) as [before [r_last E]].
  assert (Ht' : t_last
                = (prod_date r_last - series_min (map prod_date w))
                  / ns_per_day).
  { unfold window_time in Ht.
    set (g := fun d => days (d - series_min (map prod_date w))) in Ht.
    rewrite E, !map_app in Ht. cbn [map] in Ht.
    rewrite index_last_app in Ht. injection Ht as <-. reflexivity. }
  exists before, r_last, t_last, (forecast_time t_last m),
    (arps_decline_array (forecast_time t_last m) (qi_oil, di_oil, b_oil)),
    (arps_decline_array (forecast_time t_last m) (qi_gas, di_gas, b_gas)).
  rewrite !arps_decline_array_length, forecast_time_length.
  repeat split; try assumption; try reflexivity.
  - rewrite forecast_time_nth by lia. simpl. lia.
  - intros i Hi. rewrite !forecast_time_nth by lia. lia.
  - now rewrite (forecast_well_run curve_fit s l w m Hl).
Qed.

(** C9. The core never changes a table it is given.  [forecast_well]
    leaves the whole world as it found it; [fit_arps_decline], run as a step
    of a computation, leaves the world as it found it; and after
    [evaluate_forecast] every object that existed before the call, the
    caller's table among them, holds the rows it held. *)
Theorem core_never_mutates_input
    (s : world F) (l : loc) (df : DataFrame F) (m : Z)
    (time : list Z) (production : list F) :
  nth_error (heap s) l = Some df ->
  snd (forecast_well curve_fit l m s) = s /\
  snd (lift (fit_arps_decline curve_fit time production) s) = s /\
  (forall (l' : loc) (df' : DataFrame F),
     nth_error (heap s) l' = Some df' ->
     nth_error (heap (snd (evaluate_forecast curve_fit l s))) l' = Some df').
Proof.
  intros H. split; [|split].
  - now rewrite (forecast_well_run curve_fit s l df m H).
  - reflexivity.
  - intros l' df' H'.
    rewrite (evaluate_forecast_run curve_fit s l df H). simpl.
    now apply nth_error_kept.
Qed.

End Forecasting.

(** ** Repeated calls *)

Section Repeating.

Context {F : Type} {num : Numeric F}.

(** What SciPy's [curve_fit] answers during a first and during a second
    call of [forecast_well]. *)
Variables curve_fit1 curve_fit2 :
  (F -> F -> F -> F -> F) -> list Z -> list F -> params F -> bounds F ->
  result (params F).


End Repeating.

(** ** The evaluator *)

Lemma unique_in (l : list Z) (x : Z) : In x (unique l) <-> In x l.
Proof.
  induction l as [|y l IH]; simpl; [tauto|].
  rewrite filter_In, IH, negb_true_iff, Z.eqb_neq.
  destruct (Z.eq_dec y x) as [->|Hne]; [tauto|].
  split; [tauto|]. intros [H|H]; [now left|]. right. split; congruence.
Qed.

Lemma unique_NoDup (l : list Z) : NoDup (unique l).
Proof.
  induction l as [|y l IH]; simpl; constructor.
  - rewrite filter_In, negb_true_iff, Z.eqb_neq. intros [_ H]. now apply H.
  - now apply NoDup_filter.
Qed.

Section Evaluating.

Context {F : Type} {num : Numeric F}.

Variable curve_fit :
  (F -> F -> F -> F -> F) -> list Z -> list F -> params F -> bounds F ->
  result (params F).

Lemma zip_with_errors (forecast actual : list F) :
  zip_with fdiv (zip_with fsub forecast actual) actual
  = percentage_errors actual forecast.
Proof.
  unfold percentage_errors. revert actual.
  induction forecast as [|f forecast IH]; intros [|a actual]; simpl;
    try reflexivity.
  now rewrite IH.
Qed.

Lemma calculate_mpe_same_length (actual forecast : list F) :
  length forecast = length actual ->
  calculate_mpe actual forecast = inr (mpe actual forecast).
Proof.
  intros H. unfold calculate_mpe, elementwise.
  rewrite H, Nat.eqb_refl. simpl rbind.
  rewrite zip_with_length by exact H. rewrite H, Nat.eqb_refl. simpl rbind.
  now rewrite zip_with_errors.
Qed.

Lemma train_test_split (wd : DataFrame F) :
  wd = train_rows wd ++ test_rows wd.
Proof. unfold train_rows, test_rows. now rewrite firstn_skipn. Qed.

Lemma test_rows_length (wd : DataFrame F) :
  train_rows wd <> [] -> length (test_rows wd) = 12%nat.
Proof.
  unfold train_rows, test_rows. intros H. rewrite length_skipn.
  destruct (Nat.le_gt_cases (length wd) 12) as [Hle|Hgt]; [|lia].
  exfalso. apply H.
  replace (length wd - 12)%nat with 0%nat by lia. reflexivity.
Qed.

Lemma forecast_of_window (w : DataFrame F) (m : Z) (o g : list F) :
  forecast_of curve_fit w m = inr (o, g) ->
  w <> [] /\ length o = Z.to_nat m /\ length g = Z.to_nat m.
Proof.
  intros H.
  destruct (forecast_of_inv curve_fit w m o g H)
    as (po & pg & t_last & Ho & Hg & Ht & -> & ->).
  rewrite !arps_decline_array_length, forecast_time_length.
  repeat split.
  intros ->. apply fit_ok_nonempty in Ho. now apply Ho.
Qed.

(** What a record of the result is made of. *)
Lemma score_of_inv (df : DataFrame F) (well : Z) (ev : evaluation) :
  score_of curve_fit df well = inr ev ->
  let wd := rows_of df well in
  ev_well_api ev = well /\
  length (test_rows wd) = 12%nat /\
  exists o g,
    forecast_of curve_fit (train_rows wd) 12 = inr (o, g) /\
    length o = 12%nat /\ length g = 12%nat /\
    oil_mpe ev = mpe (map oil (test_rows wd)) o /\
    gas_mpe ev = mpe (map gas (test_rows wd)) g.
Proof.
  intros H wd. unfold score_of in H. fold wd in H.
  destruct (forecast_of curve_fit (train_rows wd) 12) as [e|[o g]] eqn:Ef;
    [discriminate|].
  destruct (forecast_of_window _ _ _ _ Ef) as (Hne & Hlo & Hlg).
  change (Z.to_nat 12) with 12%nat in Hlo, Hlg.
  pose proof (test_rows_length wd Hne) as Ht.
  simpl in H.
  rewrite !calculate_mpe_same_length in H by now rewrite length_map, Ht.
  simpl in H. injection H as <-.
  repeat split; try assumption.
  exists o, g. repeat split; assumption.
Qed.

Lemma in_kept (df : DataFrame F) (wells : list Z) (ev : evaluation) :
  In ev (flat_map (kept curve_fit df) wells) <->
  exists well, In well wells /\ score_of curve_fit df well = inr ev.
Proof.
  rewrite in_flat_map. unfold kept. split.
  - intros [well [Hw Hin]]. exists well. split; [exact Hw|].
    destruct (score_of curve_fit df well) as [e|ev']; [destruct Hin|].
    destruct Hin as [->|[]]. reflexivity.
  - intros [well [Hw Hs]]. exists well. split; [exact Hw|].
    rewrite Hs. now left.
Qed.

Lemma score_of_well (df : DataFrame F) (well : Z) (ev : evaluation) :
  score_of curve_fit df well = inr ev -> ev_well_api ev = well.
Proof. intros H. now destruct (score_of_inv df well ev H). Qed.

Lemma kept_wells (df : DataFrame F) (wells : list Z) :
  map ev_well_api (flat_map (kept curve_fit df) wells)
  = filter (fun well => match score_of curve_fit df well with
                        | inr _ => true
                        | inl _ => false
                        end) wells.
Proof.
  induction wells as [|well wells IH]; simpl; [reflexivity|].
  rewrite map_app, IH. unfold kept at 1.
  destruct (score_of curve_fit df well) as [e|ev] eqn:E; [reflexivity|].
  simpl. now rewrite (score_of_well df well ev E).
Qed.

Lemma percentage_errors_relative (actual forecast : list F) :
  percentage_errors actual forecast = relative_errors actual forecast.
Proof.
  unfold percentage_errors. revert actual.
  induction forecast as [|f forecast IH]; intros [|a actual]; simpl;
    try reflexivity.
  now rewrite IH.
Qed.

(** C3. [evaluate_forecast] does not raise, whatever the wells of the table
    do.  Take any well of the table: if its processing, the body of the
    loop, raises, no record of the result is the well's; if it returns a
    record, that record is in the result.  The result holds nothing else,
    and at most one record of a well: the records are those of the wells
    whose processing does not raise, in the order in which the wells first
    appear in the table. *)
Theorem evaluate_forecast_isolates_failures
    (s : world F) (l : loc) (df : DataFrame F) :
  nth_error (heap s) l = Some df ->
  exists recs : list evaluation,
    fst (evaluate_forecast curve_fit l s) = inr recs /\
    (forall well e,
       In well (map well_api df) ->
       fst (score_well curve_fit l well s) = inl e ->
       forall ev, In ev recs -> ev_well_api ev <> well) /\
    (forall well ev,
       In well (map well_api df) ->
       fst (score_well curve_fit l well s) = inr ev ->
       In ev recs /\ ev_well_api ev = well) /\
    (forall ev,
       In ev recs ->
       exists well,
         In well (map well_api df) /\
         fst (score_well curve_fit l well s) = inr ev) /\
    NoDup (map ev_well_api recs) /\
    recs = flat_map
             (fun well => match fst (score_well curve_fit l well s) with
                          | inr ev => [ev]
                          | inl _ => []
                          end)
             (unique (map well_api df)).
Proof.
  intros H.
  exists (flat_map (kept curve_fit df) (unique (map well_api df))).
  split; [|split; [|split; [|split; [|split]]]].
  - now rewrite (evaluate_forecast_run curve_fit s l df H).
  - intros well e _ Hraise ev Hin Heq.
    rewrite (score_well_run curve_fit s l df well H) in Hraise.
    simpl in Hraise.
    apply in_kept in Hin. destruct Hin as [well' [_ Hs]].
    pose proof (score_of_inv df well' ev Hs) as [Hw _].
    rewrite Heq in Hw. subst well'. rewrite Hs in Hraise. discriminate.
  - intros well ev Hin Hok.
    rewrite (score_well_run curve_fit s l df well H) in Hok. simpl in Hok.
    split.
    + apply in_kept. exists well. split; [|exact Hok].
      exact (proj2 (unique_in _ _) Hin).
    + now destruct (score_of_inv df well ev Hok) as [Hw _].
  - intros ev Hin. apply in_kept in Hin. destruct Hin as [well [Hw Hs]].
    exists well. split; [exact (proj1 (unique_in _ _) Hw)|].
    now rewrite (score_well_run curve_fit s l df well H).
  - rewrite kept_wells. apply NoDup_filter, unique_NoDup.
  - apply flat_map_ext. intros well.
    now rewrite (score_well_run curve_fit s l df well H).
Qed.

(** C4. Every record [evaluate_forecast] returns was scored this way: the
    rows of its well are split into the last 12 (test) and all the rows
    before them (train), [forecast_well] is run on train with the default
    horizon, and each commodity's figure is the mean of the 12 relative
    errors [(forecast_i - actual_i) / actual_i] over the test points,
    times 100: the 12 errors added up, over 12, times 100. *)
Theorem evaluate_forecast_scores_by_mpe
    (s : world F) (l : loc) (df : DataFrame F)
    (recs : list evaluation) (ev : evaluation) :
  nth_error (heap s) l = Some df ->
  fst (evaluate_forecast curve_fit l s) = inr recs ->
  In ev recs ->
  let wd := filter (fun r => well_api r =? ev_well_api ev) df in
  exists (train test : DataFrame F) (oil_forecast gas_forecast : list F)
         (oil_sum gas_sum : F),
    wd = train ++ test /\
    length test = 12%nat /\
    (forall s' l', nth_error (heap s') l' = Some train ->
       fst (forecast_well curve_fit l' 12 s')
       = inr (oil_forecast, gas_forecast)) /\
    length (relative_errors (map oil test) oil_forecast) = 12%nat /\
    length (relative_errors (map gas test) gas_forecast) = 12%nat /\
    adds_up (relative_errors (map oil test) oil_forecast) oil_sum /\
    adds_up (relative_errors (map gas test) gas_forecast) gas_sum /\
    oil_mpe ev = fmul (fdiv oil_sum (of_int 12)) (of_int 100) /\
    gas_mpe ev = fmul (fdiv gas_sum (of_int 12)) (of_int 100).
Proof.
  intros H Hrun Hin wd.
  rewrite (evaluate_forecast_run curve_fit s l df H) in Hrun.
  simpl in Hrun. injection Hrun as <-.
  apply in_kept in Hin. destruct Hin as [well [_ Hs]].
  pose proof (score_of_inv df well ev Hs)
    as (Hw & Ht & o & g & Hf & Hlo & Hlg & Ho & Hg).
  subst well. change (rows_of df (ev_well_api ev)) with wd in Ht, Hf, Ho, Hg.
  assert (Eo : length (percentage_errors (map oil (test_rows wd)) o) = 12%nat).
  { unfold percentage_errors.
    rewrite zip_with_length; now rewrite ?length_map, ?Ht. }
  assert (Eg : length (percentage_errors (map gas (test_rows wd)) g) = 12%nat).
  { unfold percentage_errors.
    rewrite zip_with_length; now rewrite ?length_map, ?Ht. }
  exists (train_rows wd), (test_rows wd), o, g,
    (np_sum (percentage_errors (map oil (test_rows wd)) o)),
    (np_sum (percentage_errors (map gas (test_rows wd)) g)).
  rewrite <- !percentage_errors_relative.
  repeat split; try assumption; try apply adds_up_sum.
  - apply train_test_split.
  - intros s' l' H'.
    now rewrite (forecast_well_run curve_fit s' l' _ 12 H').
  - rewrite Ho. unfold mpe, np_mean. now rewrite Eo.
  - rewrite Hg. unfold mpe, np_mean. now rewrite Eg.
Qed.

End Evaluating.

(** ** The decline model, over the real numbers *)

Section DeclineModel.

Local Open Scope R_scope.

Lemma decline_unfold (t qi di b : R) :
  arps_decline (num := real_numeric) t qi di b
  = qi / Rpower (1 + b * di * t) (1 / b).
Proof. reflexivity. Qed.

Lemma Rpower_one_base (y : R) : Rpower 1 y = 1.
Proof. unfold Rpower. now rewrite ln_1, Rmult_0_r, exp_0. Qed.

Lemma Rpower_pos (x y : R) : 0 < Rpower x y.
Proof. unfold Rpower. apply exp_pos. Qed.

(** C5. For [qi >= 0], [b > 0] and [di] in [[0,1]], the decline model at
    [t = 0] is exactly [qi]. *)
Theorem arps_decline_at_zero (qi di b : R) :
  0 <= qi -> 0 < b -> 0 <= di <= 1 ->
  arps_decline (num := real_numeric) 0 qi di b = qi.
Proof.
  intros _ _ _. rewrite decline_unfold.
  replace (1 + b * di * 0) with 1 by ring.
  rewrite Rpower_one_base. field.
Qed.


End DeclineModel.

(** ** The curve fitter *)

Section Fitting.

Context {F : Type} {num : Numeric F}.

Variable curve_fit :
  (F -> F -> F -> F -> F) -> list Z -> list F -> params F -> bounds F ->
  result (params F).


End Fitting.

(** In the real reading [max(production)] is an element of the array that
    no element exceeds. *)
Lemma real_max_is_maximum (x : R) (xs : list R) :
  let top := fold_left (fmax (Numeric := real_numeric)) xs x in
  In top (x :: xs) /\ forall y, In y (x :: xs) -> (y <= top)%R.
Proof.
  simpl fmax. revert x. induction xs as [|a xs IH]; intros x; simpl.
  - split; [now left|]. intros y [<-|[]]. apply Rle_refl.
  - destruct (IH (Rmax x a)) as [Hin Hle]. simpl in Hin, Hle. split.
    + destruct Hin as [Hin|Hin]; [|now right; right].
      rewrite <- Hin. unfold Rmax. destruct (Rle_dec x a); auto.
    + intros y [<-|[<-|Hy]].
      * eapply Rle_trans; [apply Rmax_l | apply Hle; now left].
      * eapply Rle_trans; [apply Rmax_r | apply Hle; now left].
      * apply Hle. now right.
Qed.

(** ** Windows with fewer than two distinct dates *)

Section Degenerate.

Context {F : Type} {num : Numeric F}.

Variable curve_fit :
  (F -> F -> F -> F -> F) -> list Z -> list F -> params F -> bounds F ->
  result (params F).

(** C2, amended. [forecast_well] makes no check on the dates of its window
    and has no error of its own for a degenerate one.  On a window without
    rows it fails with numpy's [ValueError] for the maximum of an empty
    array, before any fit.  On every window with at least one row, however
    few distinct dates it has, it calls [curve_fit] for oil and then for
    gas from the initial guess and the bounds of the fitter: it fails with
    the exception [curve_fit] raises, if it raises one, and returns the
    forecast otherwise. *)
Theorem forecast_well_attempts_fit
    (s : world F) (l : loc) (w : DataFrame F) (m : Z) :
  nth_error (heap s) l = Some w ->
  (w = [] ->
   fst (forecast_well curve_fit l m s)
   = inl (Exn "ValueError"
            "zero-size array to reduction operation maximum which has no identity"))
  /\
  (w <> [] ->
   exists (oil_max gas_max : F) (t_last : Z),
     np_max (map oil w) = inr oil_max /\
     np_max (map gas w) = inr gas_max /\
     index_last (window_time w) = inr t_last /\
     fst (forecast_well curve_fit l m s)
     = (oil_params <-? curve_fit arps_decline (window_time w) (map oil w)
                         (oil_max, literal 1 10, literal 5 10) arps_bounds ;;
        gas_params <-? curve_fit arps_decline (window_time w) (map gas w)
                         (gas_max, literal 1 10, literal 5 10) arps_bounds ;;
        rret (arps_decline_array (forecast_time t_last m) oil_params,
              arps_decline_array (forecast_time t_last m) gas_params))).
Proof.
  intros H. rewrite (forecast_well_run curve_fit s l w m H). simpl fst.
  split.
  - intros ->. reflexivity.
  - intros Hne. destruct w as [|r w]; [now elim Hne|].
    destruct (index_last_window (r :: w) Hne) as [t_last Ht].
    exists (fold_left fmax (map oil w) (oil r)),
           (fold_left fmax (map gas w) (gas r)), t_last.
    repeat split; try assumption.
    unfold forecast_of, fit_arps_decline. rewrite Ht. simpl np_max.
    unfold rret at 1 2. simpl rbind at 1.
    destruct (curve_fit _ _ _ _ _) as [e|po]; [reflexivity|]. simpl rbind at 1.
    simpl rbind at 1.
    destruct (curve_fit _ _ _ _ _) as [e|pg]; reflexivity.
Qed.

End Degenerate.

(** ** A zero actual value, in binary64 *)

Section ZeroActual.

Variable libm_pow : spec_float -> spec_float -> spec_float.

Variable curve_fit :
  (spec_float -> spec_float -> spec_float -> spec_float -> spec_float) ->
  list Z -> list spec_float -> params spec_float -> bounds spec_float ->
  result (params spec_float).

Lemma div_by_zero_not_finite (x z : spec_float) :
  is_zero z = true -> is_finite (SFdiv prec emax x z) = false.
Proof. destruct z; try discriminate. intros _. now destruct x. Qed.

Lemma add_not_finite_l (x y : spec_float) :
  is_finite x = false -> is_finite (SFadd prec emax x y) = false.
Proof.
  destruct x as [| sx | |]; try discriminate; intros _; [|reflexivity].
  destruct y as [| sy | |]; try reflexivity. now destruct sx, sy.
Qed.

Lemma add_not_finite_r (x y : spec_float) :
  is_finite y = false -> is_finite (SFadd prec emax x y) = false.
Proof.
  destruct y as [| sy | |]; try discriminate; intros _.
  - destruct x as [| sx | |]; try reflexivity. now destruct sx, sy.
  - now destruct x.
Qed.

Lemma div_not_finite (x y : spec_float) :
  is_finite x = false -> is_finite (SFdiv prec emax x y) = false.
Proof.
  destruct x; try discriminate; intros _; [|reflexivity]. now destruct y.
Qed.

Lemma mul_not_finite (x y : spec_float) :
  is_finite x = false -> is_finite (SFmul prec emax x y) = false.
Proof.
  destruct x; try discriminate; intros _; [|reflexivity]. now destruct y.
Qed.

(** However the additions are ordered, one term that is not finite makes
    the sum not finite. *)
Lemma adds_up_not_finite (l : list spec_float) (v : spec_float) :
  adds_up (num := binary64_numeric libm_pow) l v ->
  (exists x, In x l /\ is_finite x = false) ->
  is_finite v = false.
Proof.
  induction 1 as [|x|l1 l2 v1 v2 H1 IH1 H2 IH2|l l' v Hp H IH];
    intros [y [Hin Hy]].
  - destruct Hin.
  - destruct Hin as [->|[]]. exact Hy.
  - apply in_app_or in Hin. destruct Hin as [Hin|Hin].
    + apply add_not_finite_l, IH1. now exists y.
    + apply add_not_finite_r, IH2. now exists y.
  - apply IH. exists y. split; [|exact Hy].
    apply (Permutation_in y (Permutation_sym Hp) Hin).
Qed.

Lemma sum_not_finite (a : list spec_float) :
  (exists x, In x a /\ is_finite x = false) ->
  is_finite (np_sum (num := binary64_numeric libm_pow) a) = false.
Proof. apply adds_up_not_finite, adds_up_sum. Qed.

Lemma errors_not_finite (actual forecast : list spec_float) :
  length forecast = length actual ->
  has_zero actual ->
  exists x,
    In x (percentage_errors (num := binary64_numeric libm_pow) actual forecast)
    /\ is_finite x = false.
Proof.
  unfold percentage_errors. revert actual.
  induction forecast as [|f forecast IH]; intros [|a actual] Hlen [z [Hin Hz]];
    try discriminate; [destruct Hin|].
  simpl. destruct Hin as [->|Hin].
  - eexists. split; [now left|]. now apply div_by_zero_not_finite.
  - destruct (IH actual) as [x [Hx Hfin]].
    + now injection Hlen.
    + now exists z.
    + exists x. split; [now right | exact Hfin].
Qed.

(** The figure of an array of actual values that holds a zero. *)
Lemma mpe_not_finite (actual forecast : list spec_float) :
  length forecast = length actual ->
  has_zero actual ->
  is_finite (mpe (num := binary64_numeric libm_pow) actual forecast) = false.
Proof.
  intros Hlen Hz. unfold mpe, np_mean.
  apply mul_not_finite, div_not_finite, sum_not_finite.
  now apply errors_not_finite.
Qed.

(** C10, amended.  Take a well of the table whose training rows were
    forecast and whose test rows hold a zero actual value.  [calculate_mpe] on the test values does not
    raise, for either commodity; its result for a commodity with a zero
    actual value is not finite (an infinity or a NaN); and the record of
    the well, with that figure in it, is in the result of
    [evaluate_forecast]. *)
Theorem zero_actual_yields_non_finite_record
    (s : world spec_float) (l : loc) (df : DataFrame spec_float) (well : Z)
    (oil_forecast gas_forecast : list spec_float)
    (recs : list evaluation) :
  nth_error (heap s) l = Some df ->
  In well (map well_api df) ->
  let test := test_rows (rows_of df well) in
  forecast_of (num := binary64_numeric libm_pow) curve_fit
    (train_rows (rows_of df well)) 12
  = inr (oil_forecast, gas_forecast) ->
  has_zero (map oil test) \/ has_zero (map gas test) ->
  fst (evaluate_forecast (num := binary64_numeric libm_pow) curve_fit l s)
  = inr recs ->
  exists ev : evaluation,
    In ev recs /\
    ev_well_api ev = well /\
    calculate_mpe (num := binary64_numeric libm_pow)
      (map oil test) oil_forecast = inr (oil_mpe ev) /\
    calculate_mpe (num := binary64_numeric libm_pow)
      (map gas test) gas_forecast = inr (gas_mpe ev) /\
    (has_zero (map oil test) -> is_finite (oil_mpe ev) = false) /\
    (has_zero (map gas test) -> is_finite (gas_mpe ev) = false).
Proof.
  intros H Hwell test Hf _ Hrun.
  rewrite (evaluate_forecast_run curve_fit s l df H) in Hrun.
  simpl in Hrun. injection Hrun as <-.
  destruct (forecast_of_window curve_fit _ _ _ _ Hf) as (Hne & Hlo & Hlg).
  change (Z.to_nat 12) with 12%nat in Hlo, Hlg.
  pose proof (test_rows_length _ Hne) as Ht. fold test in Ht.
  assert (Hlo' : length oil_forecast = length (map oil test))
    by now rewrite length_map, Ht.
  assert (Hlg' : length gas_forecast = length (map gas test))
    by now rewrite length_map, Ht.
  exists (Evaluation well
            (mpe (num := binary64_numeric libm_pow) (map oil test) oil_forecast)
            (mpe (num := binary64_numeric libm_pow) (map gas test) gas_forecast)).
  cbn [ev_well_api oil_mpe gas_mpe].
  rewrite !calculate_mpe_same_length by assumption.
  repeat split.
  - apply in_kept. exists well. split; [exact (proj2 (unique_in _ _) Hwell)|].
    unfold score_of. rewrite Hf. fold test. cbn [fst snd rbind].
    now rewrite !calculate_mpe_same_length by assumption.
  - intros Hz. now apply mpe_not_finite.
  - intros Hz. now apply mpe_not_finite.
Qed.

End ZeroActual.

(** * Further properties *)

(** ** The time offsets of a window *)

Section Offsets.

Context {F : Type} {num : Numeric F}.

Variable curve_fit :
  (F -> F -> F -> F -> F) -> list Z -> list F -> params F -> bounds F ->
  result (params F).

Lemma fold_min_shift (c : Z) (ds : list Z) (d : Z) :
  fold_left Z.min (map (fun x => x + c) ds) (d + c) = fold_left Z.min ds d + c.
Proof.
  revert d. induction ds as [|x ds IH]; intros d; simpl; [reflexivity|].
  rewrite Z.add_min_distr_r. apply IH.
Qed.

Lemma fold_min_le_init (ds : list Z) (d : Z) : fold_left Z.min ds d <= d.
Proof.
  revert d. induction ds as [|x ds IH]; intros d; simpl; [lia|].
  specialize (IH (Z.min d x)). lia.
Qed.

Lemma fold_min_le_in (ds : list Z) (d x : Z) :
  In x ds -> fold_left Z.min ds d <= x.
Proof.
  revert d. induction ds as [|y ds IH]; intros d Hin; [destruct Hin|].
  simpl. destruct Hin as [->|Hin].
  - pose proof (fold_min_le_init ds (Z.min d x)). lia.
  - now apply IH.
Qed.

Lemma series_min_le (dates : list Z) (x : Z) :
  In x dates -> series_min dates <= x.
Proof.
  destruct dates as [|d ds]; [intros []|]. simpl. intros [<-|Hin].
  - apply fold_min_le_init.
  - now apply fold_min_le_in.
Qed.

Lemma fold_min_sorted (ds : list Z) (d : Z) :
  Forall (Z.le d) ds -> fold_left Z.min ds d = d.
Proof.
  revert d. induction ds as [|x ds IH]; intros d H; simpl; [reflexivity|].
  inversion H as [|? ? Hx Hds]; subst.
  rewrite Z.min_l by exact Hx. now apply IH.
Qed.

Lemma days_nonneg (x : Z) : 0 <= x -> 0 <= days x.
Proof. intros H. unfold days, ns_per_day. apply Z.div_pos; lia. Qed.

Lemma days_monotone (x y : Z) : x <= y -> days x <= days y.
Proof. intros H. unfold days, ns_per_day. apply Z.div_le_mono; lia. Qed.

Lemma offsets_sorted (m0 : Z) (ds : list Z) :
  StronglySorted Z.le ds ->
  StronglySorted Z.le (map (fun d => days (d - m0)) ds).
Proof.
  induction 1 as [|d ds Hs IH Hd]; simpl; constructor; [exact IH|].
  apply Forall_forall. intros t Ht. apply in_map_iff in Ht.
  destruct Ht as [x [<- Hx]]. apply days_monotone.
  rewrite Forall_forall in Hd. specialize (Hd x Hx). lia.
Qed.

Lemma window_time_shift (c : Z) (w : DataFrame F) :
  window_time (shift_dates c w) = window_time w.
Proof.
  unfold window_time, shift_dates. rewrite !map_map. cbn [prod_date].
  apply map_ext_in. intros r Hr. f_equal.
  destruct w as [|r0 w]; [destruct Hr|]. clear Hr.
  cbn [map series_min prod_date].
  rewrite <- (map_map prod_date (fun x => x + c)).
  rewrite fold_min_shift. lia.
Qed.

(** X1. [forecast_well] measures time from the earliest date of the window
    it is given, not from any epoch: a window and the same window with
    every date moved by the same amount give the same outcome. *)
Theorem forecast_well_ignores_epoch
    (s1 s2 : world F) (l1 l2 : loc) (w : DataFrame F) (c m : Z) :
  nth_error (heap s1) l1 = Some w ->
  nth_error (heap s2) l2 = Some (shift_dates c w) ->
  fst (forecast_well curve_fit l2 m s2) = fst (forecast_well curve_fit l1 m s1).
Proof.
  intros H1 H2.
  rewrite (forecast_well_run curve_fit s1 l1 _ m H1).
  rewrite (forecast_well_run curve_fit s2 l2 _ m H2).
  simpl. unfold forecast_of. rewrite window_time_shift.
  unfold shift_dates. rewrite !map_map. reflexivity.
Qed.

(** X2. The time offsets [forecast_well] fits on are never negative; on a
    window whose rows are in the order of their dates they start at 0 and
    never decrease. *)
Theorem window_time_offsets (w : DataFrame F) :
  Forall (fun t => 0 <= t) (window_time w)
  /\ (StronglySorted Z.le (map prod_date w) ->
      StronglySorted Z.le (window_time w)
      /\ (w <> [] -> nth 0 (window_time w) 1 = 0)).
Proof.
  split.
  - unfold window_time. apply Forall_forall. intros t Ht.
    apply in_map_iff in Ht. destruct Ht as [d [<- Hd]].
    apply days_nonneg. pose proof (series_min_le _ _ Hd). lia.
  - intros Hs. split.
    + unfold window_time. now apply offsets_sorted.
    + intros Hne. destruct w as [|r w]; [now elim Hne|].
      unfold window_time. cbn [map series_min nth].
      inversion Hs as [|? ? _ Hd]; subst.
      rewrite fold_min_sorted by exact Hd.
      now rewrite Z.sub_diag.
Qed.

(** X3. With a horizon that is zero or negative [forecast_well] still fits
    the window, and returns two empty sequences. *)
Theorem forecast_well_empty_horizon
    (s : world F) (l : loc) (w : DataFrame F) (m : Z) (po pg : params F) :
  nth_error (heap s) l = Some w ->
  m <= 0 ->
  fit_arps_decline curve_fit (window_time w) (map oil w) = inr po ->
  fit_arps_decline curve_fit (window_time w) (map gas w) = inr pg ->
  fst (forecast_well curve_fit l m s) = inr ([], []).
Proof.
  intros H Hm Ho Hg.
  rewrite (forecast_well_run curve_fit s l w m H). simpl.
  destruct (forecast_of_ok curve_fit w m po pg Ho Hg) as [t_last [_ ->]].
  assert (E : forecast_time t_last m = []).
  { apply length_zero_iff_nil. rewrite forecast_time_length. lia. }
  rewrite E. now destruct po as [[? ?] ?], pg as [[? ?] ?].
Qed.

End Offsets.

(** ** The decline model and the error measure, over the real numbers *)

Section RealReading.

Local Open Scope R_scope.

(** X4. For [qi >= 0], [di] in [[0,1]], [b > 0] and a time [t >= 0] the
    decline model stays between [0] and the initial rate [qi]. *)
Theorem arps_decline_between_zero_and_qi (qi di b t : R) :
  0 <= qi -> 0 <= di <= 1 -> 0 < b -> 0 <= t ->
  0 <= arps_decline (num := real_numeric) t qi di b <= qi.
Proof.
  intros Hqi [Hdi0 Hdi1] Hb Ht. rewrite decline_unfold.
  set (p := Rpower (1 + b * di * t) (1 / b)).
  assert (Hp : 0 < p) by apply Rpower_pos.
  assert (Hp1 : 1 <= p).
  { unfold p. apply Rle_trans with (Rpower 1 (1 / b));
      [rewrite Rpower_one_base; lra|].
    apply Rle_Rpower_l.
    - apply Rlt_le. apply Rdiv_lt_0_compat; lra.
    - split; [lra|].
      assert (0 <= b * di * t).
      { apply Rmult_le_pos; [apply Rmult_le_pos|]; lra. }
      lra. }
  split.
  - apply Rmult_le_pos; [exact Hqi|]. apply Rlt_le. now apply Rinv_0_lt_compat.
  - apply (Rmult_le_reg_r p); [exact Hp|].
    unfold Rdiv. rewrite Rmult_assoc, Rinv_l by lra. nra.
Qed.

Lemma real_sum_cons (x : R) (a : list R) :
  np_sum (num := real_numeric) (x :: a) = x + np_sum (num := real_numeric) a.
Proof. now rewrite !real_sum. Qed.

Lemma real_sum_nonneg (a : list R) :
  Forall (fun x => 0 <= x) a -> 0 <= np_sum (num := real_numeric) a.
Proof.
  induction 1 as [|x a Hx Ha IH]; [unfold np_sum; simpl; lra|].
  rewrite real_sum_cons. lra.
Qed.

Lemma real_sum_constant (p : R) (a : list R) :
  Forall (fun x => x = p) a ->
  np_sum (num := real_numeric) a = INR (length a) * p.
Proof.
  induction 1 as [|x a Hx Ha IH]; [unfold np_sum; simpl; ring|].
  rewrite real_sum_cons, IH, Hx. cbn [length]. rewrite S_INR. ring.
Qed.

Lemma real_mean_count (a : list R) :
  np_mean (num := real_numeric) a
  = np_sum (num := real_numeric) a / INR (length a).
Proof. unfold np_mean. simpl. now rewrite <- INR_IZR_INZ. Qed.

Lemma real_mpe (actual forecast : list R) :
  mpe (num := real_numeric) actual forecast
  = np_sum (num := real_numeric)
      (percentage_errors (num := real_numeric) actual forecast)
    / INR (length (percentage_errors (num := real_numeric) actual forecast))
    * 100.
Proof. unfold mpe. now rewrite real_mean_count. Qed.

(** Over the real numbers the figure of [calculate_mpe] is the mean of the
    relative errors in the plain sense, their sum over their number, times
    100. *)
Lemma real_mpe_is_mean (actual forecast : list R) :
  length forecast = length actual ->
  calculate_mpe (num := real_numeric) actual forecast
  = inr (fold_right Rplus 0
           (relative_errors (num := real_numeric) actual forecast)
         / INR (length actual) * 100).
Proof.
  intros H. rewrite calculate_mpe_same_length by exact H.
  rewrite real_mpe, real_sum, percentage_errors_relative.
  do 3 f_equal. rewrite <- percentage_errors_relative.
  unfold percentage_errors. rewrite zip_with_length; congruence.
Qed.

Lemma percentage_errors_proportional (p : R) (actual : list R) :
  Forall (fun a => a <> 0) actual ->
  Forall (fun x => x = p)
    (percentage_errors (num := real_numeric) actual
       (map (fun a => (1 + p) * a) actual)).
Proof.
  unfold percentage_errors.
  induction 1 as [|a actual Ha Hactual IH]; simpl; constructor; [|exact IH].
  field. exact Ha.
Qed.

(** X5. A forecast that is off by the same fraction [p] at every point of a
    non-empty series without zeros has a mean percentage error of [100 p];
    a forecast that equals the actual values has none. *)
Theorem calculate_mpe_of_proportional_forecast (p : R) (actual : list R) :
  actual <> [] ->
  Forall (fun a => a <> 0) actual ->
  calculate_mpe (num := real_numeric) actual (map (fun a => (1 + p) * a) actual)
  = inr (p * 100)
  /\ calculate_mpe (num := real_numeric) actual actual = inr 0.
Proof.
  intros Hne Hnz.
  assert (Hn : INR (length actual) <> 0).
  { apply not_0_INR. destruct actual; [now elim Hne | discriminate]. }
  assert (Hp : forall q,
             mpe (num := real_numeric) actual (map (fun a => (1 + q) * a) actual)
             = q * 100).
  { intros q. unfold mpe. rewrite real_mean_count.
    rewrite (real_sum_constant q)
      by now apply percentage_errors_proportional.
    assert (E : length (percentage_errors (num := real_numeric) actual
                          (map (fun a => (1 + q) * a) actual))
                = length actual).
    { unfold percentage_errors. rewrite zip_with_length; now rewrite length_map. }
    rewrite E. simpl. field. exact Hn. }
  split.
  - rewrite calculate_mpe_same_length by now rewrite length_map.
    now rewrite Hp.
  - rewrite calculate_mpe_same_length by reflexivity.
    replace actual with (map (fun a => (1 + 0) * a) actual) at 2.
    + rewrite Hp. f_equal. ring.
    + rewrite <- (map_id actual) at 2. apply map_ext. intros a. ring.
Qed.

Lemma percentage_errors_nonneg (actual forecast : list R) :
  Forall2 (fun a f => 0 < a <= f) actual forecast ->
  Forall (fun x => 0 <= x)
    (percentage_errors (num := real_numeric) actual forecast).
Proof.
  unfold percentage_errors.
  induction 1 as [|a f actual forecast [Ha Hf] H IH]; simpl; constructor;
    [|exact IH].
  apply Rmult_le_pos; [lra|]. apply Rlt_le. now apply Rinv_0_lt_compat.
Qed.

Lemma percentage_errors_nonpos (actual forecast : list R) :
  Forall2 (fun a f => f <= a /\ 0 < a) actual forecast ->
  Forall (fun x => 0 <= - x)
    (percentage_errors (num := real_numeric) actual forecast).
Proof.
  unfold percentage_errors.
  induction 1 as [|a f actual forecast [Hf Ha] H IH]; simpl; constructor;
    [|exact IH].
  replace (- ((f - a) / a)) with ((a - f) * / a) by (field; lra).
  apply Rmult_le_pos; [lra|]. apply Rlt_le. now apply Rinv_0_lt_compat.
Qed.

Lemma real_sum_opp (a : list R) :
  np_sum (num := real_numeric) (map Ropp a)
  = - np_sum (num := real_numeric) a.
Proof.
  induction a as [|x a IH]; [unfold np_sum; simpl; ring|].
  cbn [map]. rewrite !real_sum_cons, IH. ring.
Qed.

Lemma INR_inv_nonneg (n : nat) : 0 <= / INR n.
Proof.
  destruct n as [|n]; [simpl; rewrite Rinv_0; lra|].
  apply Rlt_le, Rinv_0_lt_compat. apply lt_0_INR. apply Nat.lt_0_succ.
Qed.

(** X6. The sign of the mean percentage error tells the direction of the
    miss: against positive actual values, a forecast that is nowhere below
    them has an error that is not negative, and one that is nowhere above
    them an error that is not positive. *)
Theorem calculate_mpe_sign (actual forecast : list R) (e : R) :
  calculate_mpe (num := real_numeric) actual forecast = inr e ->
  (Forall2 (fun a f => 0 < a <= f) actual forecast -> 0 <= e)
  /\ (Forall2 (fun a f => f <= a /\ 0 < a) actual forecast -> e <= 0).
Proof.
  intros He. split; intros H.
  - rewrite calculate_mpe_same_length in He
      by (symmetry; eapply Forall2_length; eassumption).
    assert (E : mpe (num := real_numeric) actual forecast = e) by congruence.
    rewrite <- E, real_mpe.
    apply Rmult_le_pos; [|lra].
    apply Rmult_le_pos; [|apply INR_inv_nonneg].
    apply real_sum_nonneg. now apply percentage_errors_nonneg.
  - rewrite calculate_mpe_same_length in He
      by (symmetry; eapply Forall2_length; eassumption).
    assert (E : mpe (num := real_numeric) actual forecast = e) by congruence.
    rewrite <- E, real_mpe.
    assert (Hs : 0 <= - np_sum (num := real_numeric)
                         (percentage_errors (num := real_numeric)
                            actual forecast)).
    { rewrite <- real_sum_opp. apply real_sum_nonneg.
      apply Forall_map. now apply percentage_errors_nonpos. }
    pose proof (INR_inv_nonneg
                  (length (percentage_errors (num := real_numeric)
                             actual forecast))) as Hi.
    unfold Rdiv. nra.
Qed.

End RealReading.

(** ** The shapes [calculate_mpe] accepts *)

Section Shapes.

Context {F : Type} {num : Numeric F}.

Lemma elementwise_ok (op : F -> F -> F) (x y : list F) :
  length x = length y \/ length x = 1%nat \/ length y = 1%nat ->
  exists z, elementwise op x y = inr z
            /\ (length z = length y \/ length y = 1%nat).
Proof.
  intros H. unfold elementwise.
  destruct (Nat.eqb (length x) (length y)) eqn:E.
  - apply Nat.eqb_eq in E. eexists. split; [reflexivity|].
    left. rewrite zip_with_length by exact E. exact E.
  - apply Nat.eqb_neq in E.
    destruct H as [H|[H|H]]; [now elim E| |].
    + destruct x as [|a [|? ?]]; try discriminate.
      eexists. split; [reflexivity|]. left. apply length_map.
    + destruct y as [|b [|? ?]]; try discriminate.
      destruct x as [|a [|a' x]]; eexists; (split; [reflexivity|]);
        right; reflexivity.
Qed.

Lemma elementwise_raises (op : F -> F -> F) (x y : list F) :
  length x <> length y -> length x <> 1%nat -> length y <> 1%nat ->
  elementwise op x y = inl (broadcast_error (length x) (length y)).
Proof.
  intros Hxy Hx Hy. unfold elementwise.
  apply Nat.eqb_neq in Hxy. rewrite Hxy.
  destruct x as [|a [|a' x]]; [| now elim Hx |];
    destruct y as [|b [|b' y]]; try reflexivity; now elim Hy.
Qed.

(** X7. [calculate_mpe] returns a figure when the two arrays have the same
    length or one of them has length one, and raises numpy's [ValueError]
    otherwise, whose message names the two shapes, the forecast's first:
    [operands could not be broadcast together with shapes (n,) (m,) ]. *)
Theorem calculate_mpe_shapes_accepted (actual forecast : list F) :
  (length forecast = length actual
   \/ length forecast = 1%nat \/ length actual = 1%nat ->
   exists e, calculate_mpe actual forecast = inr e)
  /\ (length forecast <> length actual ->
      length forecast <> 1%nat -> length actual <> 1%nat ->
      calculate_mpe actual forecast
      = inl (Exn "ValueError"
               ("operands could not be broadcast together with shapes ("
                  ++ str_of_int (Z.of_nat (length forecast)) ++ ",) ("
                  ++ str_of_int (Z.of_nat (length actual)) ++ ",) ")%string)).
Proof.
  split.
  - intros H. unfold calculate_mpe.
    destruct (elementwise_ok fsub forecast actual H) as [diff [-> Hlen]].
    simpl rbind.
    destruct (elementwise_ok fdiv diff actual) as [ratio [-> _]].
    + destruct Hlen as [Hlen|Hlen]; [now left | now right; right].
    + simpl. eexists. reflexivity.
  - intros H1 H2 H3. unfold calculate_mpe.
    now rewrite elementwise_raises.
Qed.

End Shapes.

(** ** More on the evaluator *)

Section EvaluatorMore.

Context {F : Type} {num : Numeric F}.

Variable curve_fit :
  (F -> F -> F -> F -> F) -> list Z -> list F -> params F -> bounds F ->
  result (params F).

Lemma kept_or_logged (df : DataFrame F) (wells : list Z) :
  (length (flat_map (kept curve_fit df) wells)
   + length (flat_map (logged curve_fit df) wells))%nat
  = length wells.
Proof.
  induction wells as [|well wells IH]; simpl; [reflexivity|].
  rewrite !length_app, <- IH. unfold kept, logged.
  destruct (score_of curve_fit df well); simpl; lia.
Qed.

Lemma rows_of_in (df : DataFrame F) (well : Z) :
  rows_of df well <> [] -> In well (map well_api df).
Proof.
  unfold rows_of. intros H.
  destruct (filter (fun r => well_api r =? well) df) as [|r rs] eqn:E;
    [now elim H|].
  assert (Hr : In r (filter (fun r => well_api r =? well) df))
    by (rewrite E; now left).
  apply filter_In in Hr. destruct Hr as [Hr Hw]. apply Z.eqb_eq in Hw.
  subst well. now apply in_map.
Qed.

Lemma train_rows_nonempty (wd : DataFrame F) :
  train_rows wd <> [] -> (13 <= length wd)%nat.
Proof.
  unfold train_rows. intros H.
  destruct (Nat.le_gt_cases 13 (length wd)) as [Hle|Hgt]; [exact Hle|].
  exfalso. apply H. replace (length wd - 12)%nat with 0%nat by lia.
  reflexivity.
Qed.

Lemma train_rows_short (wd : DataFrame F) :
  (length wd <= 12)%nat -> train_rows wd = [].
Proof.
  unfold train_rows. intros H.
  replace (length wd - 12)%nat with 0%nat by lia. reflexivity.
Qed.

(** X8. [evaluate_forecast] returns at most one record per well, and only
    for wells of the table with at least 13 records: one to fit on and
    twelve to score against. *)
Theorem evaluate_forecast_one_record_per_well
    (s : world F) (l : loc) (df : DataFrame F) (recs : list evaluation) :
  nth_error (heap s) l = Some df ->
  fst (evaluate_forecast curve_fit l s) = inr recs ->
  NoDup (map ev_well_api recs)
  /\ forall ev, In ev recs ->
       In (ev_well_api ev) (map well_api df)
       /\ (13 <= length (rows_of df (ev_well_api ev)))%nat.
Proof.
  intros H Hrun.
  rewrite (evaluate_forecast_run curve_fit s l df H) in Hrun.
  simpl in Hrun. injection Hrun as <-. split.
  - rewrite kept_wells. apply NoDup_filter, unique_NoDup.
  - intros ev Hin. apply in_kept in Hin. destruct Hin as [well [Hw Hs]].
    pose proof (score_of_inv curve_fit df well ev Hs)
      as (Hev & _ & o & g & Hf & _).
    rewrite Hev. split; [exact (proj1 (unique_in _ _) Hw)|].
    apply train_rows_nonempty.
    now destruct (forecast_of_window curve_fit _ _ _ _ Hf).
Qed.

(** X9. Every well of the table is accounted for: [evaluate_forecast] only
    adds lines to the output, and the records it returns and the lines it
    prints are together as many as the table has wells. *)
Theorem evaluate_forecast_scores_or_reports
    (s : world F) (l : loc) (df : DataFrame F) (recs : list evaluation) :
  nth_error (heap s) l = Some df ->
  fst (evaluate_forecast curve_fit l s) = inr recs ->
  exists lines : list string,
    stdout (snd (evaluate_forecast curve_fit l s)) = stdout s ++ lines
    /\ (length recs + length lines)%nat = length (unique (map well_api df)).
Proof.
  intros H Hrun.
  rewrite (evaluate_forecast_run curve_fit s l df H) in Hrun |- *.
  simpl in Hrun. injection Hrun as <-.
  eexists. split; [reflexivity|]. apply kept_or_logged.
Qed.

Lemma score_of_short (df : DataFrame F) (well : Z) :
  (length (rows_of df well) <= 12)%nat ->
  score_of curve_fit df well
  = inl (Exn "ValueError"
           "zero-size array to reduction operation maximum which has no identity").
Proof.
  intros H. unfold score_of. now rewrite (train_rows_short _ H).
Qed.

(** X10. A well with 12 records or fewer is never scored: whatever
    [curve_fit] would do, no fit is attempted, the well has no record in
    the result, and the line that reports it carries numpy's message for
    the maximum of an empty array. *)
Theorem evaluate_forecast_skips_short_wells
    (s : world F) (l : loc) (df : DataFrame F) (well : Z)
    (recs : list evaluation) :
  nth_error (heap s) l = Some df ->
  In well (map well_api df) ->
  (length (rows_of df well) <= 12)%nat ->
  fst (evaluate_forecast curve_fit l s) = inr recs ->
  (forall ev, In ev recs -> ev_well_api ev <> well)
  /\ In ("Error processing well " ++ str_of_int well
         ++ ": zero-size array to reduction operation maximum which has no identity")%string
        (stdout (snd (evaluate_forecast curve_fit l s))).
Proof.
  intros H Hwell Hshort Hrun.
  rewrite (evaluate_forecast_run curve_fit s l df H) in Hrun |- *.
  simpl in Hrun. injection Hrun as <-.
  pose proof (score_of_short df well Hshort) as Hs. split.
  - intros ev Hin Heq. apply in_kept in Hin.
    destruct Hin as [well' [_ Hs']].
    rewrite <- (score_of_well curve_fit df well' ev Hs') in Hs'.
    rewrite Heq, Hs in Hs'. discriminate.
  - cbn [snd stdout]. apply in_or_app. right.
    apply in_flat_map. exists well.
    split; [exact (proj2 (unique_in _ _) Hwell)|].
    unfold logged. rewrite Hs. now left.
Qed.

(** X11. Wells are scored independently: the record of a well depends on
    the rows of that well only.  Two tables that hold the same rows for a
    well give it the same record, or both give it none. *)
Theorem evaluate_forecast_scores_wells_independently
    (s1 s2 : world F) (l1 l2 : loc) (df1 df2 : DataFrame F) (well : Z)
    (recs1 recs2 : list evaluation) :
  nth_error (heap s1) l1 = Some df1 ->
  nth_error (heap s2) l2 = Some df2 ->
  rows_of df1 well = rows_of df2 well ->
  fst (evaluate_forecast curve_fit l1 s1) = inr recs1 ->
  fst (evaluate_forecast curve_fit l2 s2) = inr recs2 ->
  forall ev, ev_well_api ev = well -> (In ev recs1 <-> In ev recs2).
Proof.
  intros H1 H2 Hrows Hrun1 Hrun2 ev Hev.
  rewrite (evaluate_forecast_run curve_fit s1 l1 df1 H1) in Hrun1.
  rewrite (evaluate_forecast_run curve_fit s2 l2 df2 H2) in Hrun2.
  simpl in Hrun1, Hrun2. injection Hrun1 as <-. injection Hrun2 as <-.
  assert (Hscore : score_of curve_fit df1 well = score_of curve_fit df2 well)
    by (unfold score_of; now rewrite Hrows).
  assert (Hside : forall dfa dfb,
             rows_of dfa well = rows_of dfb well ->
             score_of curve_fit dfa well = score_of curve_fit dfb well ->
             In ev (flat_map (kept curve_fit dfa) (unique (map well_api dfa))) ->
             In ev (flat_map (kept curve_fit dfb) (unique (map well_api dfb)))).
  { intros dfa dfb Hr Hsc Hin. apply in_kept in Hin.
    destruct Hin as [well' [_ Hs]].
    pose proof (score_of_well curve_fit dfa well' ev Hs) as Hw'.
    rewrite Hev in Hw'. subst well'.
    apply in_kept. exists well. split; [|now rewrite <- Hsc].
    apply (proj2 (unique_in _ _)), rows_of_in. rewrite <- Hr. intros Hnil.
    pose proof (score_of_inv curve_fit dfa well ev Hs) as (_ & Ht & _).
    rewrite Hnil in Ht. discriminate. }
  split; apply Hside; auto.
Qed.

End EvaluatorMore.

(** ** Sorting *)

Section Sorting.

Context {A : Type}.

Variable leb : A -> A -> bool.

Hypothesis leb_total : forall x y, leb x y = true \/ leb y x = true.

Hypothesis leb_trans :
  forall x y z, leb x y = true -> leb y z = true -> leb x z = true.

Lemma insert_by_perm (x : A) (l : list A) :
  Permutation (insert_by leb x l) (x :: l).
Proof.
  induction l as [|y l IH]; simpl; [apply Permutation_refl|].
  destruct (leb x y); [apply Permutation_refl|].
  eapply perm_trans; [apply perm_skip, IH | apply perm_swap].
Qed.

Lemma stable_sort_perm (l : list A) : Permutation (stable_sort leb l) l.
Proof.
  induction l as [|x l IH]; simpl; [apply perm_nil|].
  eapply perm_trans; [apply insert_by_perm | apply perm_skip, IH].
Qed.

Lemma insert_by_sorted (x : A) (l : list A) :
  StronglySorted (fun a b => leb a b = true) l ->
  StronglySorted (fun a b => leb a b = true) (insert_by leb x l).
Proof.
  induction 1 as [|y l Hs IH Hy]; simpl.
  - constructor; constructor.
  - destruct (leb x y) eqn:E.
    + constructor; [now constructor|]. constructor; [exact E|].
      rewrite Forall_forall in Hy |- *. intros z Hz.
      apply (leb_trans x y z E). now apply Hy.
    + constructor; [exact IH|].
      rewrite Forall_forall in Hy |- *. intros z Hz.
      apply (Permutation_in _ (insert_by_perm x l)) in Hz.
      destruct Hz as [<-|Hz]; [|now apply Hy].
      destruct (leb_total x y) as [H|H]; [congruence | exact H].
Qed.

Lemma stable_sort_sorted (l : list A) :
  StronglySorted (fun a b => leb a b = true) (stable_sort leb l).
Proof.
  induction l as [|x l IH]; simpl; [constructor|].
  now apply insert_by_sorted.
Qed.

End Sorting.

Lemma strongly_sorted_weaken {A} (R R' : A -> A -> Prop) (l : list A) :
  (forall x y, R x y -> R' x y) ->
  StronglySorted R l -> StronglySorted R' l.
Proof.
  intros Himp. induction 1 as [|x l Hs IH Hx]; constructor; [exact IH|].
  eapply Forall_impl; [|exact Hx]. intros y. apply Himp.
Qed.

Lemma filter_perm {A} (p : A -> bool) (l l' : list A) :
  Permutation l l' -> Permutation (filter p l) (filter p l').
Proof.
  induction 1 as [|x l l' H IH|x y l|l l' l'' H1 IH1 H2 IH2]; simpl.
  - apply perm_nil.
  - destruct (p x); [now apply perm_skip | exact IH].
  - destruct (p x), (p y); try apply Permutation_refl. apply perm_swap.
  - eapply perm_trans; eassumption.
Qed.

(** ** Preparing the table *)

Section Preparing.

Context {F : Type} {num : Numeric F}.

Variable random_choice : list Z -> nat -> list Z.

Lemma well_date_leb_total (r1 r2 : row F) :
  well_date_leb r1 r2 = true \/ well_date_leb r2 r1 = true.
Proof.
  unfold well_date_leb.
  rewrite !orb_true_iff, !andb_true_iff, !Z.ltb_lt, !Z.eqb_eq, !Z.leb_le. lia.
Qed.

Lemma well_date_leb_trans (r1 r2 r3 : row F) :
  well_date_leb r1 r2 = true -> well_date_leb r2 r3 = true ->
  well_date_leb r1 r3 = true.
Proof.
  unfold well_date_leb.
  rewrite !orb_true_iff, !andb_true_iff, !Z.ltb_lt, !Z.eqb_eq, !Z.leb_le. lia.
Qed.

Lemma well_date_leb_le (r1 r2 : row F) :
  well_date_leb r1 r2 = true <-> well_date_le r1 r2.
Proof.
  unfold well_date_leb, well_date_le.
  now rewrite !orb_true_iff, !andb_true_iff, !Z.ltb_lt, !Z.eqb_eq, !Z.leb_le.
Qed.

Lemma count_rows (df : DataFrame F) (w : Z) :
  count_occ Z.eq_dec (map well_api df) w = length (rows_of df w).
Proof.
  unfold rows_of. induction df as [|r df IH]; simpl; [reflexivity|].
  destruct (Z.eq_dec (well_api r) w) as [E|E].
  - apply Z.eqb_eq in E. rewrite E. simpl. now rewrite IH.
  - apply Z.eqb_neq in E. now rewrite E.
Qed.

Lemma filter_on_second {A B} (f : A -> B) (p : B -> bool) (ws : list A) :
  map fst (filter (fun wc => p (snd wc)) (map (fun w => (w, f w)) ws))
  = filter (fun w => p (f w)) ws.
Proof.
  induction ws as [|w ws IH]; [reflexivity|].
  cbn [map filter fst snd]. destruct (p (f w)); cbn [map fst]; now rewrite IH.
Qed.

(** The wells the sample is drawn from. *)
Lemma valid_wells_code (df : DataFrame F) :
  map fst (filter (fun wc => (24 <=? snd wc)%nat)
                  (groupby_size (map well_api df)))
  = filter (fun w => (24 <=? length (rows_of df w))%nat)
           (stable_sort Z.leb (unique (map well_api df))).
Proof.
  unfold groupby_size.
  rewrite (filter_on_second (count_occ Z.eq_dec (map well_api df))
             (fun n => (24 <=? n)%nat)).
  apply filter_ext. intros w. now rewrite count_rows.
Qed.

Lemma valid_wells_perm (df : DataFrame F) :
  Permutation
    (map fst (filter (fun wc => (24 <=? snd wc)%nat)
                     (groupby_size (map well_api df))))
    (valid_wells_of df).
Proof.
  rewrite valid_wells_code. unfold valid_wells_of.
  apply filter_perm, stable_sort_perm.
Qed.

Lemma valid_wells_in (df : DataFrame F) (w : Z) :
  In w (valid_wells_of df) <->
  In w (map well_api df) /\ (24 <= length (rows_of df w))%nat.
Proof.
  unfold valid_wells_of. rewrite filter_In, unique_in, Nat.leb_le. tauto.
Qed.

Lemma valid_wells_NoDup (df : DataFrame F) : NoDup (valid_wells_of df).
Proof. unfold valid_wells_of. apply NoDup_filter, unique_NoDup. Qed.

(** What the contract of the draw gives for the wells selected. *)
Lemma selected_wells_sample (df : DataFrame F) :
  draws_sample random_choice ->
  NoDup (selected_wells_of random_choice df)
  /\ incl (selected_wells_of random_choice df) (valid_wells_of df)
  /\ length (selected_wells_of random_choice df)
     = Nat.min 10 (length (valid_wells_of df)).
Proof.
  intros Hdraw. unfold selected_wells_of.
  pose proof (valid_wells_perm df) as Hperm.
  set (valid := map fst _) in *.
  destruct (Hdraw valid (Nat.min 10 (length valid))) as (Hnd & Hincl & Hlen).
  - apply (Permutation_NoDup (Permutation_sym Hperm)), valid_wells_NoDup.
  - apply Nat.le_min_r.
  - split; [exact Hnd|]. split.
    + intros w Hw. apply (Permutation_in _ Hperm). now apply Hincl.
    + rewrite Hlen. now rewrite (Permutation_length Hperm).
Qed.

Lemma isin_in (values : list Z) (a : Z) :
  isin values a = true <-> In a values.
Proof.
  unfold isin. rewrite existsb_exists. split.
  - intros [v [Hv E]]. apply Z.eqb_eq in E. now subst.
  - intros H. exists a. split; [exact H | apply Z.eqb_refl].
Qed.

Lemma rows_of_filter (p : Z -> bool) (df : DataFrame F) (w : Z) :
  rows_of (filter (fun r => p (well_api r)) df) w
  = if p w then rows_of df w else [].
Proof.
  unfold rows_of. induction df as [|r df IH]; simpl; [now destruct (p w)|].
  destruct (well_api r =? w) eqn:E.
  - assert (Hw : well_api r = w) by now apply Z.eqb_eq.
    destruct (p (well_api r)) eqn:Ep; simpl; rewrite ?E, IH;
      rewrite <- Hw, Ep; reflexivity.
  - destruct (p (well_api r)) eqn:Ep; simpl; rewrite ?E; exact IH.
Qed.

Lemma rows_of_preprocessed (df : DataFrame F) (w : Z) :
  Permutation (rows_of (preprocessed random_choice df) w)
    (if isin (selected_wells_of random_choice df) w
     then rows_of df w else []).
Proof.
  unfold preprocessed.
  rewrite <- (rows_of_filter (isin (selected_wells_of random_choice df))).
  unfold rows_of at 1 2. apply filter_perm, stable_sort_perm.
Qed.

Lemma preprocessed_wells (df : DataFrame F) (w : Z) :
  draws_sample random_choice ->
  In w (map well_api (preprocessed random_choice df))
  <-> In w (selected_wells_of random_choice df).
Proof.
  intros Hdraw.
  destruct (selected_wells_sample df Hdraw) as (_ & Hincl & _).
  unfold preprocessed. split.
  - intros H. apply in_map_iff in H. destruct H as [r [<- Hr]].
    apply (Permutation_in _ (stable_sort_perm _ _)) in Hr.
    apply filter_In in Hr. now apply isin_in.
  - intros H. pose proof (Hincl w H) as Hv.
    apply valid_wells_in in Hv. destruct Hv as [Hw _].
    apply in_map_iff in Hw. destruct Hw as [r [<- Hr]].
    apply in_map. apply (Permutation_in _ (Permutation_sym (stable_sort_perm _ _))).
    apply filter_In. split; [exact Hr | now apply isin_in].
Qed.

(** [preprocess_data] reads its table twice, and adds two objects to the
    store: the rows of the wells drawn, and those rows sorted. *)
Lemma preprocess_data_run (s : world F) (l : loc) (df : DataFrame F) :
  nth_error (heap s) l = Some df ->
  preprocess_data random_choice l s
  = (inr (S (length (heap s))),
     {| heap := heap s
                ++ [filter (fun r => isin (selected_wells_of random_choice df)
                                          (well_api r)) df;
                    preprocessed random_choice df];
        stdout := stdout s |}).
Proof.
  intros H. unfold preprocess_data.
  rewrite (bind_ok _ _ _ _ _ (column_ok _ _ _ _ H)).
  rewrite (bind_ok _ _ _ _ _ (column_ok _ _ _ _ H)).
  rewrite (bind_ok _ _ _ _ _ (deref_ok _ _ _ H)).
  fold (selected_wells_of random_choice df).
  rewrite (boolean_index_filter (isin (selected_wells_of random_choice df))).
  unfold alloc at 1. unfold bind at 1.
  set (sel := filter _ df).
  set (s1 := {| heap := heap s ++ [sel]; stdout := stdout s |}).
  assert (H1 : nth_error (heap s1) (length (heap s)) = Some sel)
    by apply nth_error_alloc.
  rewrite (bind_ok _ _ _ _ _ (deref_ok _ _ _ H1)).
  unfold alloc. unfold s1. cbn [heap stdout].
  rewrite length_app, <- app_assoc. simpl. rewrite Nat.add_1_r.
  reflexivity.
Qed.

Lemma preprocess_data_table (s : world F) (l : loc) (df : DataFrame F) :
  nth_error (heap s) l = Some df ->
  table_after (preprocess_data random_choice l s)
  = Some (preprocessed random_choice df).
Proof.
  intros H. rewrite (preprocess_data_run s l df H).
  unfold table_after. cbn [fst snd heap].
  replace (S (length (heap s))) with (length (heap s) + 1)%nat by lia.
  rewrite nth_error_app2 by lia.
  replace (length (heap s) + 1 - length (heap s))%nat with 1%nat by lia.
  reflexivity.
Qed.

Lemma preprocessed_whole_wells (df : DataFrame F) (w : Z) :
  draws_sample random_choice ->
  In w (map well_api (preprocessed random_choice df)) ->
  Permutation (rows_of (preprocessed random_choice df) w) (rows_of df w)
  /\ (24 <= length (rows_of (preprocessed random_choice df) w))%nat.
Proof.
  intros Hdraw Hw. apply (preprocessed_wells df w Hdraw) in Hw.
  pose proof (rows_of_preprocessed df w) as Hperm.
  rewrite (proj2 (isin_in _ _) Hw) in Hperm.
  split; [exact Hperm|].
  rewrite (Permutation_length Hperm).
  destruct (selected_wells_sample df Hdraw) as (_ & Hincl & _).
  exact (proj2 (proj1 (valid_wells_in df w) (Hincl w Hw))).
Qed.

(** X12. [preprocess_data] always returns a table, and every well in it is
    there with all the records the given table has for it, which are at
    least 24. *)
Theorem preprocess_data_keeps_whole_wells
    (s : world F) (l : loc) (df : DataFrame F) :
  nth_error (heap s) l = Some df ->
  draws_sample random_choice ->
  exists out : DataFrame F,
    table_after (preprocess_data random_choice l s) = Some out
    /\ forall w, In w (map well_api out) ->
         Permutation (rows_of out w) (rows_of df w)
         /\ (24 <= length (rows_of out w))%nat.
Proof.
  intros H Hdraw. exists (preprocessed random_choice df).
  split; [now apply preprocess_data_table|].
  intros w Hw. now apply preprocessed_whole_wells.
Qed.

(** X13. The table [preprocess_data] returns holds at most ten wells:
    ten when the given table has ten or more wells with at least 24
    records, and all such wells otherwise. *)
Theorem preprocess_data_keeps_ten_wells
    (s : world F) (l : loc) (df out : DataFrame F) :
  nth_error (heap s) l = Some df ->
  draws_sample random_choice ->
  table_after (preprocess_data random_choice l s) = Some out ->
  length (unique (map well_api out)) = Nat.min 10 (length (valid_wells_of df))
  /\ incl (unique (map well_api out)) (valid_wells_of df).
Proof.
  intros H Hdraw Hout.
  rewrite (preprocess_data_table s l df H) in Hout. injection Hout as <-.
  destruct (selected_wells_sample df Hdraw) as (Hnd & Hincl & Hlen).
  assert (Hperm : Permutation
                    (unique (map well_api (preprocessed random_choice df)))
                    (selected_wells_of random_choice df)).
  { apply NoDup_Permutation; [apply unique_NoDup | exact Hnd |].
    intros w. rewrite unique_in. now apply preprocessed_wells. }
  split.
  - now rewrite (Permutation_length Hperm).
  - intros w Hw. apply Hincl. now apply (Permutation_in _ Hperm).
Qed.

(** X14. The table [preprocess_data] returns is sorted by well and, within
    a well, by date. *)
Theorem preprocess_data_sorts_by_well_and_date
    (s : world F) (l : loc) (df out : DataFrame F) :
  nth_error (heap s) l = Some df ->
  table_after (preprocess_data random_choice l s) = Some out ->
  StronglySorted well_date_le out.
Proof.
  intros H Hout.
  rewrite (preprocess_data_table s l df H) in Hout. injection Hout as <-.
  unfold preprocessed.
  eapply strongly_sorted_weaken;
    [| apply (stable_sort_sorted well_date_leb
                well_date_leb_total well_date_leb_trans)].
  intros r1 r2. apply well_date_leb_le.
Qed.

(** X15. [preprocess_data] does not touch the table it is given, nor any
    other object: it returns a new table, and every row of it is a row of
    the given one. *)
Theorem preprocess_data_returns_a_new_table
    (s : world F) (l : loc) (df out : DataFrame F) :
  nth_error (heap s) l = Some df ->
  table_after (preprocess_data random_choice l s) = Some out ->
  (forall l0 df0, nth_error (heap s) l0 = Some df0 ->
     nth_error (heap (snd (preprocess_data random_choice l s))) l0 = Some df0)
  /\ (exists l', fst (preprocess_data random_choice l s) = inr l'
                 /\ nth_error (heap s) l' = None)
  /\ incl out df.
Proof.
  intros H Hout.
  rewrite (preprocess_data_table s l df H) in Hout. injection Hout as <-.
  rewrite (preprocess_data_run s l df H). cbn [fst snd heap].
  split; [|split].
  - intros l0 df0 H0. now apply nth_error_kept.
  - eexists. split; [reflexivity|]. apply nth_error_None. lia.
  - intros r Hr. unfold preprocessed in Hr.
    apply (Permutation_in _ (stable_sort_perm _ _)) in Hr.
    now apply filter_In in Hr.
Qed.

End Preparing.

(** ** Stepping through a computation *)

Section Stepping.

Context {F : Type} {num : Numeric F}.

Lemma run_ret {A} (a : A) (s : world F) : ret a s = (inr a, s).
Proof. reflexivity. Qed.

Lemma run_alloc {A} (x : DataFrame F) (k : loc -> M F A)
    (h : list (DataFrame F)) (o : list string) :
  bind (alloc x) k {| heap := h; stdout := o |}
  = k (length h) {| heap := h ++ [x]; stdout := o |}.
Proof. reflexivity. Qed.

Lemma run_print {A} (line : string) (k : unit -> M F A)
    (h : list (DataFrame F)) (o : list string) :
  bind (print line) k {| heap := h; stdout := o |}
  = k tt {| heap := h; stdout := o ++ [line] |}.
Proof. reflexivity. Qed.

Lemma run_deref {A} (l : loc) (df : DataFrame F) (k : DataFrame F -> M F A)
    (h : list (DataFrame F)) (o : list string) :
  nth_error h l = Some df ->
  bind (deref l) k {| heap := h; stdout := o |}
  = k df {| heap := h; stdout := o |}.
Proof. intros H. unfold bind, deref. cbn [heap]. now rewrite H. Qed.

Lemma run_column {A B} (l : loc) (df : DataFrame F) (f : row F -> B)
    (k : list B -> M F A) (h : list (DataFrame F)) (o : list string) :
  nth_error h l = Some df ->
  bind (column l f) k {| heap := h; stdout := o |}
  = k (map f df) {| heap := h; stdout := o |}.
Proof. intros H. unfold column, bind, deref, ret. cbn [heap]. now rewrite H. Qed.

Lemma run_len {A} (l : loc) (df : DataFrame F) (k : nat -> M F A)
    (h : list (DataFrame F)) (o : list string) :
  nth_error h l = Some df ->
  bind (len l) k {| heap := h; stdout := o |}
  = k (length df) {| heap := h; stdout := o |}.
Proof. intros H. unfold len, bind, deref, ret. cbn [heap]. now rewrite H. Qed.

Lemma run_iloc {A} (l : loc) (df : DataFrame F) (start stop : option Z)
    (k : loc -> M F A) (h : list (DataFrame F)) (o : list string) :
  nth_error h l = Some df ->
  bind (iloc l start stop) k {| heap := h; stdout := o |}
  = k (length h) {| heap := h ++ [slice start stop df]; stdout := o |}.
Proof.
  intros H. unfold iloc, bind, deref, alloc. cbn [heap stdout]. now rewrite H.
Qed.

Lemma run_lift {A B} (r : result B) (k : B -> M F A) (s : world F) :
  bind (lift r) k s
  = match r with
    | inl e => (inl e, s)
    | inr b => k b s
    end.
Proof. unfold bind, lift. now destruct r. Qed.

End Stepping.

Ltac lookup :=
  first [ eassumption
        | apply nth_error_alloc
        | apply nth_error_kept; lookup ].

Ltac step :=
  first [ rewrite run_alloc
        | rewrite run_print
        | erewrite run_deref by lookup
        | erewrite run_column by lookup
        | erewrite run_len by lookup
        | erewrite run_iloc by lookup ];
  cbv beta.

(** ** The views of the service *)

Section WellData.

Context {F : Type} {num : Numeric F}.

Variable curve_fit :
  (F -> F -> F -> F -> F) -> list Z -> list F -> params F -> bounds F ->
  result (params F).

Variable sort_by_date : DataFrame F -> DataFrame F.

Variable date_range : Z -> result (list Z).

Lemma run_forecast_well {A} (l : loc) (w : DataFrame F) (m : Z)
    (k : list F * list F -> M F A) (h : list (DataFrame F)) (o : list string) :
  nth_error h l = Some w ->
  bind (forecast_well curve_fit l m) k {| heap := h; stdout := o |}
  = match forecast_of curve_fit w m with
    | inl e => (inl e, {| heap := h; stdout := o |})
    | inr fc => k fc {| heap := h; stdout := o |}
    end.
Proof.
  intros H. unfold bind at 1.
  rewrite (forecast_well_run curve_fit {| heap := h; stdout := o |} l w m H).
  now destruct (forecast_of curve_fit w m).
Qed.

(** [get_well_data] always answers: its answer is [well_data_response] of
    the rows of the table, and all it does to the world is to add objects
    and lines. *)
Lemma get_well_data_run (s : world F) (l : loc) (df : DataFrame F)
    (well_api_arg : string) :
  nth_error (heap s) l = Some df ->
  exists objects lines,
    get_well_data curve_fit sort_by_date l well_api_arg s
    = (inr (well_data_response curve_fit sort_by_date df well_api_arg),
       {| heap := heap s ++ objects; stdout := stdout s ++ lines |}).
Proof.
  destruct s as [h o]. cbn [heap stdout]. intros H.
  unfold get_well_data, try_except, well_data_response.
  step. step.
  rewrite (boolean_index_filter
             (fun a => String.eqb (str_of_int a) well_api_arg)).
  fold (rows_named df well_api_arg). set (wd := rows_named df well_api_arg).
  step. step. step. step. step.
  destruct (length wd <? 24)%nat.
  - step. step. rewrite run_ret.
    eexists [_], [_; _; _]. rewrite <- !app_assoc. reflexivity.
  - step. step. step. step. step.
    erewrite run_forecast_well by lookup.
    destruct (forecast_of curve_fit _ 12) as [e|[oil_forecast gas_forecast]].
    + step. step. rewrite run_ret.
      eexists [_; _; _; _; _], [_; _; _; _]. rewrite <- !app_assoc.
      reflexivity.
    + step. step. step. step. rewrite run_ret.
      eexists [_; _; _; _; _], [_; _]. rewrite <- !app_assoc.
      reflexivity.
Qed.

Lemma slice_last_24 {A} (x : list A) :
  slice (Some (-24)) None x = skipn (length x - 24) x.
Proof.
  unfold slice, slice_bound. change (-24 <? 0) with true. cbv iota.
  replace (Z.to_nat (Z.max (Z.of_nat (length x) + -24) 0))
    with (length x - 24)%nat by lia.
  apply firstn_all2. rewrite length_skipn. lia.
Qed.

Lemma slice_first_12 {A} (x : list A) :
  slice None (Some 12) x = firstn 12 x.
Proof.
  unfold slice, slice_bound. change (12 <? 0) with false. cbv iota.
  change (Z.to_nat 0) with 0%nat. rewrite skipn_O.
  destruct (Nat.le_gt_cases 12 (length x)) as [Hle|Hgt].
  - f_equal. lia.
  - rewrite !firstn_all2 by lia. reflexivity.
Qed.

Lemma slice_from_12 {A} (x : list A) :
  slice (Some 12) None x = skipn 12 x.
Proof.
  unfold slice, slice_bound. change (12 <? 0) with false. cbv iota.
  destruct (Nat.le_gt_cases 12 (length x)) as [Hle|Hgt].
  - replace (Z.to_nat (Z.min 12 (Z.of_nat (length x)))) with 12%nat by lia.
    apply firstn_all2. rewrite length_skipn. lia.
  - replace (Z.to_nat (Z.min 12 (Z.of_nat (length x))))
      with (length x) by lia.
    rewrite !skipn_all2 by lia. apply firstn_nil.
Qed.

(** On a window with rows a forecast fails only when [curve_fit] raises,
    and with its exception. *)
Lemma forecast_of_raises (w : DataFrame F) (m : Z) (e : exn) :
  w <> [] ->
  forecast_of curve_fit w m = inl e ->
  exists time production p0,
    curve_fit arps_decline time production p0 arps_bounds = inl e.
Proof.
  intros Hne. destruct w as [|r w]; [now elim Hne|].
  destruct (index_last_window (r :: w) Hne) as [t_last Ht].
  unfold forecast_of, fit_arps_decline. rewrite Ht. simpl np_max.
  unfold rret at 1 2. simpl rbind at 1.
  destruct (curve_fit _ _ _ _ _) as [e1|po] eqn:E1.
  - simpl. intros H. injection H as H. subst e1. eauto.
  - simpl rbind at 1. simpl rbind at 1.
    destruct (curve_fit _ _ (gas r :: _) _ _) as [e2|pg] eqn:E2.
    + simpl. intros H. injection H as H. subst e2. eauto.
    + discriminate.
Qed.

Lemma sorted_length (df : DataFrame F) :
  sorts_by_date sort_by_date -> length (sort_by_date df) = length df.
Proof. intros Hsort. apply Permutation_length, Hsort. Qed.

Lemma strongly_sorted_app {A} (R : A -> A -> Prop) (l1 l2 : list A) :
  StronglySorted R (l1 ++ l2) ->
  StronglySorted R l2 /\ forall x y, In x l1 -> In y l2 -> R x y.
Proof.
  induction l1 as [|a l1 IH]; simpl; intros H.
  - split; [exact H | intros x y []].
  - inversion H as [|? ? Hs Ha]; subst. destruct (IH Hs) as [H2 Hxy].
    split; [exact H2|]. intros x y [<-|Hx] Hy.
    + rewrite Forall_forall in Ha. apply Ha, in_or_app. now right.
    + now apply Hxy.
Qed.

(** X16. [get_well_data] never fails: it answers 400, with the count in the
    message, when the table has fewer than 24 records for the well named,
    and otherwise 200, or 500 with the message of the exception [curve_fit]
    raised on the twelve records fitted. *)
Theorem get_well_data_always_answers
    (s : world F) (l : loc) (df : DataFrame F) (well_api_arg : string) :
  nth_error (heap s) l = Some df ->
  sorts_by_date sort_by_date ->
  exists r : response F,
    fst (get_well_data curve_fit sort_by_date l well_api_arg s) = inr r
    /\ ((length (rows_named df well_api_arg) < 24)%nat ->
        status r = 400
        /\ body r
           = ErrorBody
               ("Insufficient data for well " ++ well_api_arg ++ ". Only "
                ++ str_of_int (Z.of_nat (length (rows_named df well_api_arg)))
                ++ " records found.")%string)
    /\ ((24 <= length (rows_named df well_api_arg))%nat ->
        status r = 200
        \/ (status r = 500
            /\ exists e time production p0,
                 curve_fit arps_decline time production p0 arps_bounds = inl e
                 /\ body r
                    = ErrorBody
                        ("Error processing data for well " ++ well_api_arg
                         ++ ": " ++ exn_msg e)%string)).
Proof.
  intros H Hsort.
  destruct (get_well_data_run s l df well_api_arg H) as (objs & lines & ->).
  eexists. split; [reflexivity|]. unfold well_data_response.
  set (wd := rows_named df well_api_arg). split.
  - intros Hlt. apply Nat.ltb_lt in Hlt. rewrite Hlt. now split.
  - intros Hge. apply Nat.ltb_ge in Hge. rewrite Hge.
    destruct (forecast_of curve_fit _ 12) as [e|[o g]] eqn:Ef; [|now left].
    right. split; [reflexivity|].
    apply forecast_of_raises in Ef.
    + destruct Ef as (time & production & p0 & Ef). eauto 6.
    + rewrite slice_first_12, slice_last_24. intros Hnil.
      apply (f_equal (@length _)) in Hnil.
      rewrite length_firstn, length_skipn, sorted_length in Hnil
        by exact Hsort.
      apply Nat.ltb_ge in Hge. cbn [length] in Hnil. lia.
Qed.

(** X17. A 200 answer of [get_well_data] holds the 24 latest records of the
    well in the order of their dates, and one forecast value per commodity
    for each of the last twelve of them: the forecast dates are the dates
    of those twelve records. *)
Theorem get_well_data_answer_shape
    (s : world F) (l : loc) (df : DataFrame F) (well_api_arg : string)
    (r : response F) :
  nth_error (heap s) l = Some df ->
  sorts_by_date sort_by_date ->
  fst (get_well_data curve_fit sort_by_date l well_api_arg s) = inr r ->
  status r = 200 ->
  exists dates oil_production gas_production oil_forecast gas_forecast
         forecast_dates,
    body r = WellDataBody dates oil_production gas_production
               oil_forecast gas_forecast forecast_dates
    /\ length dates = 24%nat
    /\ length oil_production = 24%nat
    /\ length gas_production = 24%nat
    /\ length oil_forecast = 12%nat
    /\ length gas_forecast = 12%nat
    /\ forecast_dates = skipn 12 dates
    /\ StronglySorted Z.le dates
    /\ (forall d, In d (map prod_date (rows_named df well_api_arg)) ->
          In d dates \/ d <= nth 0 dates 0).
Proof.
  intros H Hsort Hrun Hstatus.
  destruct (get_well_data_run s l df well_api_arg H) as (objs & lines & E).
  rewrite E in Hrun. simpl in Hrun. injection Hrun as <-.
  unfold well_data_response in *.
  set (wd := rows_named df well_api_arg) in *.
  destruct (length wd <? 24)%nat eqn:Hlen; [discriminate|].
  apply Nat.ltb_ge in Hlen.
  destruct (forecast_of curve_fit _ 12) as [e|[o g]] eqn:Ef; [discriminate|].
  destruct (forecast_of_window curve_fit _ _ _ _ Ef) as (_ & Hlo & Hlg).
  destruct (Hsort wd) as [Hperm Hsorted].
  pose proof (sorted_length wd Hsort) as Hsl.
  set (last24 := slice (Some (-24)) None (sort_by_date wd)) in *.
  assert (Hl24 : length last24 = 24%nat).
  { unfold last24. rewrite slice_last_24, length_skipn. lia. }
  assert (Hsplit : sort_by_date wd
                   = firstn (length (sort_by_date wd) - 24) (sort_by_date wd)
                     ++ last24).
  { unfold last24. rewrite slice_last_24. now rewrite firstn_skipn. }
  rewrite Hsplit, map_app in Hsorted.
  apply strongly_sorted_app in Hsorted. destruct Hsorted as [Hs24 Hbefore].
  do 6 eexists. split; [reflexivity|].
  rewrite !length_map, Hl24. repeat split; try assumption.
  - rewrite slice_from_12. now rewrite skipn_map.
  - intros d Hd.
    assert (Hd' : In d (map prod_date (sort_by_date wd))).
    { apply in_map_iff in Hd. destruct Hd as [x [<- Hx]]. apply in_map.
      apply (Permutation_in _ (Permutation_sym Hperm)). exact Hx. }
    rewrite Hsplit, map_app in Hd'. apply in_app_or in Hd'.
    destruct Hd' as [Hd'|Hd']; [right | now left].
    apply Hbefore; [exact Hd'|].
    destruct last24 as [|r0 rest]; [discriminate|]. now left.
Qed.

End WellData.

Lemma to_int_proper (z : Z) :
  Z.to_int z <> Decimal.Pos Decimal.Nil /\ Z.to_int z <> Decimal.Neg Decimal.Nil.
Proof.
  destruct z; simpl; split; try discriminate.
  - intros [= H]. now apply (DecimalPos.Unsigned.to_uint_nonnil p).
  - intros [= H]. now apply (DecimalPos.Unsigned.to_uint_nonnil p).
Qed.

(** [str] tells integers apart. *)
Lemma str_of_int_injective (a b : Z) : str_of_int a = str_of_int b -> a = b.
Proof.
  unfold str_of_int. intros H.
  destruct (to_int_proper a) as [Ha1 Ha2], (to_int_proper b) as [Hb1 Hb2].
  pose proof (NilZero.isi _ Ha1 Ha2) as Ia.
  pose proof (NilZero.isi _ Hb1 Hb2) as Ib.
  rewrite H, Ib in Ia. injection Ia as Ia.
  rewrite <- (DecimalZ.of_to a), <- (DecimalZ.of_to b). now rewrite Ia.
Qed.

Section Listing.

Context {F : Type} {num : Numeric F}.

Variable curve_fit :
  (F -> F -> F -> F -> F) -> list Z -> list F -> params F -> bounds F ->
  result (params F).

Variable random_choice : list Z -> nat -> list Z.

Variable sort_by_date : DataFrame F -> DataFrame F.

Variable date_range : Z -> result (list Z).

Lemma rows_named_str (df : DataFrame F) (w : Z) :
  rows_named df (str_of_int w) = rows_of df w.
Proof.
  unfold rows_named, rows_of. apply filter_ext. intros r.
  destruct (well_api r =? w) eqn:E.
  - apply Z.eqb_eq in E. rewrite E. apply String.eqb_refl.
  - apply String.eqb_neq. intros H. apply str_of_int_injective in H.
    apply Z.eqb_neq in E. now apply E.
Qed.

(** X18. The service never refuses a well it lists for want of data: on
    the table [preprocess_data] returns, every well [get_wells] lists has
    its 24 records, and [get_well_data] does not answer 400 for it. *)
Theorem listed_wells_have_enough_data
    (s s' : world F) (l l' : loc) (df out : DataFrame F) :
  nth_error (heap s) l = Some df ->
  draws_sample random_choice ->
  table_after (preprocess_data random_choice l s) = Some out ->
  nth_error (heap s') l' = Some out ->
  exists wells : list Z,
    fst (get_wells l' s') = inr (Response (WellsBody wells) 200)
    /\ forall w, In w wells ->
         exists r : response F,
           fst (get_well_data curve_fit sort_by_date l' (str_of_int w) s')
           = inr r
           /\ status r <> 400.
Proof.
  intros H Hdraw Hout H'.
  rewrite (preprocess_data_table random_choice s l df H) in Hout.
  injection Hout as <-.
  exists (unique (map well_api (preprocessed random_choice df))). split.
  - unfold get_wells. now rewrite (bind_ok _ _ _ _ _ (column_ok _ _ _ _ H')).
  - intros w Hw. apply (proj1 (unique_in _ _)) in Hw.
    destruct (preprocessed_whole_wells random_choice df w Hdraw Hw)
      as [_ Hlen].
    destruct (get_well_data_run curve_fit sort_by_date s' l' _
                (str_of_int w) H') as (objs & lines & ->).
    eexists. split; [reflexivity|].
    unfold well_data_response. rewrite rows_named_str.
    apply Nat.ltb_ge in Hlen. rewrite Hlen.
    now destruct (forecast_of curve_fit _ 12) as [e|[o g]].
Qed.

(** [update_forecast] always answers: its answer is [forecast_response] of
    the rows of the table, and all it does to the world is to add objects. *)
Lemma update_forecast_run (s : world F) (l : loc) (df : DataFrame F)
    (well_api_arg : string)
    (request_json : result (option (list (string * F)))) :
  nth_error (heap s) l = Some df ->
  exists objects,
    update_forecast curve_fit date_range l well_api_arg request_json s
    = (inr (forecast_response curve_fit date_range df well_api_arg
              request_json),
       {| heap := heap s ++ objects; stdout := stdout s |}).
Proof.
  destruct s as [h o]. cbn [heap stdout]. intros H.
  unfold update_forecast, try_except, forecast_response.
  rewrite run_lift. destruct request_json as [e|params]; cbn [rbind].
  { rewrite run_ret. exists []. now rewrite app_nil_r. }
  step. step.
  rewrite (boolean_index_filter
             (fun a => String.eqb (str_of_int a) well_api_arg)).
  fold (rows_named df well_api_arg). set (wd := rows_named df well_api_arg).
  step. step.
  destruct (length wd <? 24)%nat.
  { rewrite run_ret. now exists [wd]. }
  step. step. rewrite slice_train. fold (train_rows wd).
  erewrite run_forecast_well by lookup.
  destruct (forecast_of curve_fit (train_rows wd) 12)
    as [e|[oil_forecast gas_forecast]]; cbn [rbind fst snd].
  { rewrite run_ret. eexists [_; _; _]. now rewrite <- !app_assoc. }
  rewrite run_lift.
  destruct (subscript params "oil_adjustment") as [e|oil_percent];
    cbn [rbind].
  { rewrite run_ret. eexists [_; _; _]. now rewrite <- !app_assoc. }
  rewrite run_lift.
  destruct (subscript params "gas_adjustment") as [e|gas_percent];
    cbn [rbind].
  { rewrite run_ret. eexists [_; _; _]. now rewrite <- !app_assoc. }
  step. rewrite run_lift.
  destruct (iloc_last (map prod_date (train_rows wd))) as [e|last_date];
    cbn [rbind].
  { rewrite run_ret. eexists [_; _; _]. now rewrite <- !app_assoc. }
  rewrite run_lift.
  destruct (date_range (last_date + 30 * ns_per_day)) as [e|forecast_dates];
    cbn [rbind].
  { rewrite run_ret. eexists [_; _; _]. now rewrite <- !app_assoc. }
  rewrite run_ret. eexists [_; _; _]. now rewrite <- !app_assoc.
Qed.

End Listing.

Section UpdateForecast.

Context {F : Type} {num : Numeric F}.

Variable curve_fit :
  (F -> F -> F -> F -> F) -> list Z -> list F -> params F -> bounds F ->
  result (params F).

Variable date_range : Z -> result (list Z).

(** X19. [update_forecast] never fails, and checks in this order: a request
    whose JSON cannot be read is answered 500 with the message of Flask's
    exception, whatever the well; then a well with fewer than 24 records
    is answered 400; and when the forecast has been made, a request without
    the key [oil_adjustment] is answered 500 with the message of the
    [KeyError], which is the key in quotes. *)
Theorem update_forecast_always_answers
    (s : world F) (l : loc) (df : DataFrame F) (well_api_arg : string)
    (request_json : result (option (list (string * F)))) :
  nth_error (heap s) l = Some df ->
  exists r : response F,
    fst (update_forecast curve_fit date_range l well_api_arg request_json s)
    = inr r
    /\ (forall e, request_json = inl e ->
          status r = 500 /\ body r = ErrorBody (exn_msg e))
    /\ (forall params, request_json = inr params ->
          (length (rows_named df well_api_arg) < 24)%nat ->
          status r = 400
          /\ body r = ErrorBody "Insufficient data for this well")
    /\ (forall items fc, request_json = inr (Some items) ->
          (24 <= length (rows_named df well_api_arg))%nat ->
          forecast_of curve_fit (train_rows (rows_named df well_api_arg)) 12
          = inr fc ->
          find (fun kv => String.eqb (fst kv) "oil_adjustment") items = None ->
          status r = 500 /\ body r = ErrorBody "'oil_adjustment'").
Proof.
  intros H.
  destruct (update_forecast_run curve_fit date_range s l df well_api_arg
              request_json H) as (objs & ->).
  eexists. split; [reflexivity|]. unfold forecast_response.
  split; [|split].
  - intros e ->. now split.
  - intros params -> Hlt. apply Nat.ltb_lt in Hlt. cbn [rbind].
    rewrite Hlt. now split.
  - intros items fc -> Hge Hf Hfind. apply Nat.ltb_ge in Hge. cbn [rbind].
    assert (Hs : subscript (Some items) "oil_adjustment"
                 = inl (Exn "KeyError" "'oil_adjustment'"))
      by (unfold subscript; now rewrite Hfind).
    rewrite Hge, Hf. cbn [rbind]. rewrite Hs. cbn [rbind]. now split.
Qed.

(** X20. A 200 answer of [update_forecast] holds twelve values per
    commodity and the dates [date_range] gives from 30 days after the last
    record of all but the last twelve records of the well. *)
Theorem update_forecast_answer_shape
    (s : world F) (l : loc) (df : DataFrame F) (well_api_arg : string)
    (request_json : result (option (list (string * F)))) (r : response F) :
  nth_error (heap s) l = Some df ->
  fst (update_forecast curve_fit date_range l well_api_arg request_json s)
  = inr r ->
  status r = 200 ->
  exists oil_forecast gas_forecast forecast_dates last_date,
    body r = ForecastBody oil_forecast gas_forecast forecast_dates
    /\ length oil_forecast = 12%nat
    /\ length gas_forecast = 12%nat
    /\ (24 <= length (rows_named df well_api_arg))%nat
    /\ iloc_last (map prod_date (train_rows (rows_named df well_api_arg)))
       = inr last_date
    /\ date_range (last_date + 30 * ns_per_day) = inr forecast_dates.
Proof.
  intros H Hrun Hstatus.
  destruct (update_forecast_run curve_fit date_range s l df well_api_arg
              request_json H) as (objs & E).
  rewrite E in Hrun. simpl in Hrun. injection Hrun as <-.
  unfold forecast_response in *.
  destruct request_json as [e|params]; [discriminate|]. cbn [rbind] in *.
  set (wd := rows_named df well_api_arg) in *.
  destruct (length wd <? 24)%nat eqn:Hlen; [discriminate|].
  apply Nat.ltb_ge in Hlen.
  destruct (forecast_of curve_fit (train_rows wd) 12) as [e|[o g]] eqn:Ef;
    [discriminate|].
  destruct (forecast_of_window curve_fit _ _ _ _ Ef) as (_ & Hlo & Hlg).
  cbn [rbind fst snd] in *.
  destruct (subscript params "oil_adjustment") as [e|po]; [discriminate|].
  cbn [rbind] in *.
  destruct (subscript params "gas_adjustment") as [e|pg]; [discriminate|].
  cbn [rbind] in *.
  destruct (iloc_last (map prod_date (train_rows wd))) as [e|last_date];
    [discriminate|].
  cbn [rbind] in *.
  destruct (date_range (last_date + 30 * ns_per_day)) as [e|dates] eqn:Ed;
    [discriminate|].
  cbn [rbind] in *.
  do 4 eexists. split; [reflexivity|].
  rewrite !length_map. repeat split; try assumption.
Qed.

End UpdateForecast.

Section UpdateForecastReal.

Local Open Scope R_scope.

Variable curve_fit :
  (R -> R -> R -> R -> R) -> list Z -> list R -> params R -> bounds R ->
  result (params R).

Variable date_range : Z -> result (list Z).

(** X21. Adjustments of zero percent change nothing: [update_forecast] then
    answers with the very forecast [forecast_well] makes from all but the
    last twelve records of the well. *)
Theorem update_forecast_zero_adjustment
    (s : world R) (l : loc) (df : DataFrame R) (well_api_arg : string)
    (items : list (string * R)) (oil_forecast gas_forecast : list R)
    (last_date : Z) (forecast_dates : list Z) :
  nth_error (heap s) l = Some df ->
  (24 <= length (rows_named df well_api_arg))%nat ->
  forecast_of (num := real_numeric) curve_fit
    (train_rows (rows_named df well_api_arg)) 12
  = inr (oil_forecast, gas_forecast) ->
  subscript (Some items) "oil_adjustment" = inr 0 ->
  subscript (Some items) "gas_adjustment" = inr 0 ->
  iloc_last (map prod_date (train_rows (rows_named df well_api_arg)))
  = inr last_date ->
  date_range (last_date + 30 * ns_per_day)%Z = inr forecast_dates ->
  fst (update_forecast (num := real_numeric) curve_fit date_range l
         well_api_arg (inr (Some items)) s)
  = inr (Response (ForecastBody oil_forecast gas_forecast forecast_dates) 200).
Proof.
  intros H Hge Hf Ho Hg Hlast Hdates.
  destruct (update_forecast_run (num := real_numeric) curve_fit date_range
              s l df well_api_arg (inr (Some items)) H) as (objs & ->).
  cbn [fst]. f_equal. unfold forecast_response. cbn [rbind].
  apply Nat.ltb_ge in Hge. rewrite Hge, Hf. cbn [rbind].
  rewrite Ho. cbn [rbind]. rewrite Hg. cbn [rbind].
  rewrite Hlast. cbn [rbind]. rewrite Hdates. cbn [rbind fst snd].
  assert (Hid : forall xs : list R,
             map (fun x => fmul (Numeric := real_numeric) x
                             (fadd (Numeric := real_numeric)
                                (of_int (Numeric := real_numeric) 1)
                                (fdiv (Numeric := real_numeric) 0
                                   (of_int (Numeric := real_numeric) 100))))
                 xs = xs).
  { intros xs. rewrite <- (map_id xs) at 2. apply map_ext. intros x.
    simpl. field. }
  now rewrite !Hid.
Qed.

End UpdateForecastReal.

(** ** The two views of a well side by side *)

Lemma sorted_permutation_unique {A} (key : A -> Z) (l1 : list A) :
  forall l2 : list A,
    Permutation l1 l2 ->
    StronglySorted Z.le (map key l1) ->
    StronglySorted Z.lt (map key l2) ->
    l1 = l2.
Proof.
  induction l1 as [|x l1 IH]; intros l2 Hperm Hs1 Hs2.
  - now apply Permutation_nil in Hperm.
  - destruct l2 as [|y l2].
    { apply Permutation_sym, Permutation_nil in Hperm. discriminate. }
    simpl in Hs1, Hs2.
    inversion Hs1 as [|? ? Hs1' Hx]; subst.
    inversion Hs2 as [|? ? Hs2' Hy]; subst.
    rewrite Forall_forall in Hx, Hy.
    assert (Hxy : x = y).
    { assert (Hyin : In y (x :: l1))
        by (apply (Permutation_in _ (Permutation_sym Hperm)); now left).
      assert (Hxin : In x (y :: l2))
        by (apply (Permutation_in _ Hperm); now left).
      destruct Hxin as [->|Hxin]; [reflexivity|].
      destruct Hyin as [->|Hyin]; [reflexivity|].
      pose proof (Hx _ (in_map key _ _ Hyin)).
      pose proof (Hy _ (in_map key _ _ Hxin)). lia. }
    subst y. f_equal. apply IH; try assumption.
    now apply Permutation_cons_inv in Hperm.
Qed.

Section SideBySide.

Context {F : Type} {num : Numeric F}.

Variable curve_fit :
  (F -> F -> F -> F -> F) -> list Z -> list F -> params F -> bounds F ->
  result (params F).

Variable sort_by_date : DataFrame F -> DataFrame F.

Variable date_range : Z -> result (list Z).

Lemma sort_by_date_fixed (wd : DataFrame F) :
  sorts_by_date sort_by_date ->
  StronglySorted Z.lt (map prod_date wd) ->
  sort_by_date wd = wd.
Proof.
  intros Hsort Hwd. destruct (Hsort wd) as [Hperm Hsorted].
  now apply (sorted_permutation_unique prod_date).
Qed.

(** X22. For a well with exactly 24 records, in the order of their dates
    and no two on the same date, the two views forecast from the same
    twelve records: the values [update_forecast] answers with are those of
    [get_well_data], each multiplied by one plus the adjustment over 100. *)
Theorem views_agree_on_24_records
    (s : world F) (l : loc) (df : DataFrame F) (well_api_arg : string)
    (params : option (list (string * F))) (r1 r2 : response F) :
  nth_error (heap s) l = Some df ->
  sorts_by_date sort_by_date ->
  length (rows_named df well_api_arg) = 24%nat ->
  StronglySorted Z.lt (map prod_date (rows_named df well_api_arg)) ->
  fst (get_well_data curve_fit sort_by_date l well_api_arg s) = inr r1 ->
  fst (update_forecast curve_fit date_range l well_api_arg (inr params) s)
  = inr r2 ->
  status r2 = 200 ->
  exists dates oil_production gas_production oil_forecast gas_forecast
         forecast_dates oil_percent gas_percent forecast_dates',
    body r1 = WellDataBody dates oil_production gas_production
                oil_forecast gas_forecast forecast_dates
    /\ subscript params "oil_adjustment" = inr oil_percent
    /\ subscript params "gas_adjustment" = inr gas_percent
    /\ body r2
       = ForecastBody
           (map (fun x => fmul x (fadd (of_int 1)
                                    (fdiv oil_percent (of_int 100))))
                oil_forecast)
           (map (fun x => fmul x (fadd (of_int 1)
                                    (fdiv gas_percent (of_int 100))))
                gas_forecast)
           forecast_dates'.
Proof.
  intros H Hsort Hlen Hstrict Hrun1 Hrun2 Hstatus.
  destruct (get_well_data_run curve_fit sort_by_date s l df well_api_arg H)
    as (objs1 & lines1 & E1).
  destruct (update_forecast_run curve_fit date_range s l df well_api_arg
              (inr params) H) as (objs2 & E2).
  rewrite E1 in Hrun1. rewrite E2 in Hrun2. simpl in Hrun1, Hrun2.
  injection Hrun1 as <-. injection Hrun2 as <-.
  unfold well_data_response, forecast_response in *. cbn [rbind] in *.
  set (wd := rows_named df well_api_arg) in *.
  rewrite Hlen in *. change (24 <? 24)%nat with false in *. cbv iota in *.
  rewrite (sort_by_date_fixed wd Hsort Hstrict) in *.
  assert (Hfit : slice None (Some 12) (slice (Some (-24)) None wd)
                 = train_rows wd).
  { rewrite slice_first_12, slice_last_24. unfold train_rows.
    rewrite Hlen. reflexivity. }
  rewrite Hfit.
  destruct (forecast_of curve_fit (train_rows wd) 12) as [e|[o g]];
    [discriminate|].
  cbn [rbind fst snd] in *.
  destruct (subscript params "oil_adjustment") as [e|po]; [discriminate|].
  cbn [rbind] in *.
  destruct (subscript params "gas_adjustment") as [e|pg]; [discriminate|].
  cbn [rbind] in *.
  destruct (iloc_last (map prod_date (train_rows wd))) as [e|last_date];
    [discriminate|].
  cbn [rbind] in *.
  destruct (date_range (last_date + 30 * ns_per_day)) as [e|dates];
    [discriminate|].
  cbn [rbind] in *.
  do 9 eexists. repeat split; reflexivity.
Qed.

End SideBySide.

(** ** The points of the scatter plots *)

Section PlotData.

Context {F : Type} {num : Numeric F}.

Variable curve_fit :
  (F -> F -> F -> F -> F) -> list Z -> list F -> params F -> bounds F ->
  result (params F).

Lemma zip4_length {A B C D} (a : list A) (b : list B) (c : list C)
    (d : list D) (n : nat) :
  length a = n -> length b = n -> length c = n -> length d = n ->
  length (zip4 a b c d) = n.
Proof.
  revert a b c d. induction n as [|n IH]; intros a b c d Ha Hb Hc Hd;
    destruct a, b, c, d; try discriminate; [reflexivity|].
  simpl. f_equal. apply IH; simpl in *; lia.
Qed.

(** [plot_well] selects the rows of the well twice, slices each selection,
    and forecasts: its outcome is [points_of], and the world has four
    objects more. *)
Lemma plot_well_run (s : world F) (l : loc) (df : DataFrame F) (well : Z) :
  nth_error (heap s) l = Some df ->
  exists objects,
    plot_well curve_fit l well s
    = (points_of curve_fit df well,
       {| heap := heap s ++ objects; stdout := stdout s |}).
Proof.
  destruct s as [h o]. cbn [heap stdout]. intros H.
  unfold plot_well, points_of.
  step. step. rewrite (boolean_index_filter (fun a => a =? well)).
  fold (rows_of df well). set (wd := rows_of df well).
  step. step. step. step.
  rewrite (boolean_index_filter (fun a => a =? well)).
  fold (rows_of df well). fold wd.
  step. step.
  rewrite slice_train, slice_test. fold (train_rows wd) (test_rows wd).
  erewrite run_forecast_well by lookup.
  destruct (forecast_of curve_fit (train_rows wd) 12)
    as [e|[oil_forecast gas_forecast]]; cbn [rbind fst snd].
  { eexists [_; _; _; _]. now rewrite <- !app_assoc. }
  step. step. rewrite run_ret.
  eexists [_; _; _; _]. now rewrite <- !app_assoc.
Qed.

Lemma plot_data_run (l : loc) (df : DataFrame F)
    (recs : list (evaluation (F := F))) :
  forall (points : list (plot_point F)) (s : world F),
    nth_error (heap s) l = Some df ->
    (forall ev, In ev recs ->
       exists p, points_of curve_fit df (ev_well_api ev) = inr p) ->
    exists objects,
      plot_data curve_fit l recs points s
      = (inr (points
              ++ flat_map (fun ev =>
                             match points_of curve_fit df (ev_well_api ev) with
                             | inr p => p
                             | inl _ => []
                             end) recs),
         {| heap := heap s ++ objects; stdout := stdout s |}).
Proof.
  induction recs as [|ev recs IH]; intros points s H Hall.
  - exists []. simpl. unfold ret. rewrite !app_nil_r. now destruct s.
  - cbn [plot_data flat_map].
    destruct (plot_well_run s l df (ev_well_api ev) H) as (objs & E).
    destruct (Hall ev (or_introl eq_refl)) as [p Hp].
    rewrite Hp in E |- *. rewrite (bind_ok _ _ _ _ _ E).
    destruct (IH (points ++ p)
                {| heap := heap s ++ objs; stdout := stdout s |})
      as (objs' & E').
    + now apply nth_error_kept.
    + intros ev' Hin. apply Hall. now right.
    + rewrite E'. exists (objs ++ objs'). cbn [heap stdout].
      now rewrite <- !app_assoc.
Qed.

Lemma points_of_scored (df : DataFrame F) (well : Z) (ev : evaluation) :
  score_of curve_fit df well = inr ev ->
  exists p, points_of curve_fit df well = inr p
            /\ length p = 12%nat
            /\ map point_well p = repeat well 12.
Proof.
  intros Hs.
  pose proof (score_of_inv curve_fit df well ev Hs)
    as (_ & Ht & o & g & Hf & Hlo & Hlg & _).
  unfold points_of. rewrite Hf. cbn [rbind fst snd].
  eexists. split; [reflexivity|].
  assert (Hz : length (zip4 (map oil (test_rows (rows_of df well))) o
                         (map gas (test_rows (rows_of df well))) g)
               = 12%nat)
    by (apply zip4_length; now rewrite ?length_map).
  split; [now rewrite length_map|].
  rewrite map_map.
  revert Hz. generalize (zip4 (map oil (test_rows (rows_of df well))) o
                           (map gas (test_rows (rows_of df well))) g).
  intros z Hz.
  do 13 (destruct z as [|[[[? ?] ?] ?] z]; try discriminate).
  reflexivity.
Qed.

(** X23. The scatter plots can be drawn for whatever [evaluate_forecast]
    scored: on the same table, collecting the points for the records it
    returned never raises, and gives twelve points per record, in the
    order of the records and each under the well of its record. *)
Theorem plot_data_after_evaluation
    (s0 s : world F) (l0 l : loc) (df : DataFrame F)
    (recs : list evaluation) :
  nth_error (heap s0) l0 = Some df ->
  nth_error (heap s) l = Some df ->
  fst (evaluate_forecast curve_fit l0 s0) = inr recs ->
  exists points : list (plot_point F),
    fst (plot_data curve_fit l recs [] s) = inr points
    /\ length points = (12 * length recs)%nat
    /\ map point_well points
       = flat_map (fun ev => repeat (ev_well_api ev) 12) recs.
Proof.
  intros H0 H Hrun.
  rewrite (evaluate_forecast_run curve_fit s0 l0 df H0) in Hrun.
  simpl in Hrun. injection Hrun as <-.
  set (recs := flat_map (kept curve_fit df) (unique (map well_api df))).
  assert (Hall : forall ev, In ev recs ->
            exists p, points_of curve_fit df (ev_well_api ev) = inr p
                      /\ length p = 12%nat
                      /\ map point_well p = repeat (ev_well_api ev) 12).
  { intros ev Hin. apply in_kept in Hin. destruct Hin as [well [_ Hs]].
    rewrite (score_of_well curve_fit df well ev Hs).
    now apply (points_of_scored df well ev). }
  destruct (plot_data_run l df recs [] s H) as (objs & E).
  { intros ev Hin. destruct (Hall ev Hin) as (p & Hp & _). now exists p. }
  rewrite E. cbn [fst app]. eexists. split; [reflexivity|].
  clear E. induction recs as [|ev recs' IH]; [now split|].
  destruct (Hall ev (or_introl eq_refl)) as (p & Hp & Hlen & Hwells).
  destruct IH as [IHlen IHwells].
  { intros ev' Hin. apply Hall. now right. }
  cbn [flat_map]. rewrite Hp, length_app, map_app, Hlen, Hwells, IHlen, IHwells.
  split; [cbn [length]; lia | reflexivity].
Qed.

End PlotData.

(** ** What the views leave alone *)

Section ViewsFrame.

Context {F : Type} {num : Numeric F}.

Variable curve_fit :
  (F -> F -> F -> F -> F) -> list Z -> list F -> params F -> bounds F ->
  result (params F).

Variable sort_by_date : DataFrame F -> DataFrame F.

Variable date_range : Z -> result (list Z).

(** X24. The views never change the global table, nor any object that
    exists when they are called: [get_well_data] adds objects and lines of
    output, [update_forecast] adds objects and prints nothing. *)
Theorem views_leave_the_table_alone
    (s : world F) (l : loc) (df : DataFrame F) (well_api_arg : string)
    (request_json : result (option (list (string * F))))
    (l0 : loc) (df0 : DataFrame F) :
  nth_error (heap s) l = Some df ->
  nth_error (heap s) l0 = Some df0 ->
  nth_error
    (heap (snd (get_well_data curve_fit sort_by_date l well_api_arg s))) l0
  = Some df0
  /\ nth_error
       (heap (snd (update_forecast curve_fit date_range l well_api_arg
                     request_json s))) l0
     = Some df0
  /\ stdout (snd (update_forecast curve_fit date_range l well_api_arg
                    request_json s))
     = stdout s.
Proof.
  intros H H0.
  destruct (get_well_data_run curve_fit sort_by_date s l df well_api_arg H)
    as (objs1 & lines1 & ->).
  destruct (update_forecast_run curve_fit date_range s l df well_api_arg
              request_json H) as (objs2 & ->).
  cbn [snd heap stdout]. repeat split; now apply nth_error_kept.
Qed.

End ViewsFrame.

(** ** The sample sort and the sample draw keep the contracts *)

Lemma date_leb_total {F} (r1 r2 : row F) :
  (prod_date r1 <=? prod_date r2) = true
  \/ (prod_date r2 <=? prod_date r1) = true.
Proof. rewrite !Z.leb_le. lia. Qed.

Lemma date_leb_trans {F} (r1 r2 r3 : row F) :
  (prod_date r1 <=? prod_date r2) = true ->
  (prod_date r2 <=? prod_date r3) = true ->
  (prod_date r1 <=? prod_date r3) = true.
Proof. rewrite !Z.leb_le. lia. Qed.

Lemma strongly_sorted_map {A B} (R : A -> A -> Prop) (R' : B -> B -> Prop)
    (f : A -> B) (l : list A) :
  (forall x y, R x y -> R' (f x) (f y)) ->
  StronglySorted R l -> StronglySorted R' (map f l).
Proof.
  intros Himp. induction 1 as [|x l Hs IH Hx]; simpl; constructor;
    [exact IH|].
  apply Forall_forall. intros y Hy. apply in_map_iff in Hy.
  destruct Hy as [z [<- Hz]]. rewrite Forall_forall in Hx.
  now apply Himp, Hx.
Qed.

Lemma sample_sort_sorts {F} : sorts_by_date (F := F) sample_sort.
Proof.
  intros df. unfold sample_sort. split.
  - apply stable_sort_perm.
  - eapply strongly_sorted_map;
      [| apply (stable_sort_sorted _ date_leb_total date_leb_trans)].
    intros r1 r2 H. now apply Z.leb_le.
Qed.

Lemma firstn_in {A} (n : nat) (l : list A) (x : A) :
  In x (firstn n l) -> In x l.
Proof.
  intros H. rewrite <- (firstn_skipn n l). apply in_or_app. now left.
Qed.

Lemma firstn_NoDup {A} (n : nat) (l : list A) :
  NoDup l -> NoDup (firstn n l).
Proof.
  revert n. induction l as [|x l IH]; intros [|n] H; simpl;
    try constructor.
  - inversion H as [|? ? Hx Hl]; subst. intros Hin. apply Hx.
    now apply firstn_in in Hin.
  - inversion H; subst. now apply IH.
Qed.

Lemma sample_choice_draws : draws_sample sample_choice.
Proof.
  intros a n Hnd Hn. unfold sample_choice. split; [|split].
  - now apply firstn_NoDup.
  - intros x. apply firstn_in.
  - now apply firstn_length_le.
Qed.

(** ** The sample optimizer over the reals *)



(** ** Instances of the theorems on the sample run *)

Lemma forecast_well_horizon_witness :
  exists (before : DataFrame spec_float) (r_last : row spec_float)
         (t_last : Z) (offsets : list Z)
         (oil_forecast gas_forecast : list spec_float),
    sample_window = before ++ [r_last] /\
    t_last = (prod_date r_last - series_min (map prod_date sample_window))
             / ns_per_day /\
    length offsets = Z.to_nat 12 /\
    nth 0 offsets 0 = t_last + 30 /\
    (forall i, (S i < length offsets)%nat ->
               nth (S i) offsets 0 = nth i offsets 0 + 30) /\
    fst (forecast_well (num := sample_numeric) keep_initial_guess 0%nat 12
           {| heap := [sample_window]; stdout := [] |})
    = inr (oil_forecast, gas_forecast) /\
    oil_forecast
    = map (fun t =>
             fdiv (Numeric := sample_numeric)
               (of_int (Numeric := sample_numeric) 500)
               (fpow (Numeric := sample_numeric)
                  (fadd (Numeric := sample_numeric)
                     (of_int (Numeric := sample_numeric) 1)
                     (fmul (Numeric := sample_numeric)
                        (fmul (Numeric := sample_numeric)
                           (literal (num := sample_numeric) 5 10)
                           (literal (num := sample_numeric) 1 10))
                        (of_int (Numeric := sample_numeric) t)))
                  (fdiv (Numeric := sample_numeric)
                     (of_int (Numeric := sample_numeric) 1)
                     (literal (num := sample_numeric) 5 10)))) offsets /\
    gas_forecast
    = map (fun t =>
             fdiv (Numeric := sample_numeric)
               (of_int (Numeric := sample_numeric) 900)
               (fpow (Numeric := sample_numeric)
                  (fadd (Numeric := sample_numeric)
                     (of_int (Numeric := sample_numeric) 1)
                     (fmul (Numeric := sample_numeric)
                        (fmul (Numeric := sample_numeric)
                           (literal (num := sample_numeric) 5 10)
                           (literal (num := sample_numeric) 1 10))
                        (of_int (Numeric := sample_numeric) t)))
                  (fdiv (Numeric := sample_numeric)
                     (of_int (Numeric := sample_numeric) 1)
                     (literal (num := sample_numeric) 5 10)))) offsets /\
    length oil_forecast = Z.to_nat 12 /\
    length gas_forecast = Z.to_nat 12.
Proof.
  apply (forecast_well_horizon (num := sample_numeric) keep_initial_guess
           {| heap := [sample_window]; stdout := [] |} 0%nat sample_window 12).
  - reflexivity.
  - lia.
  - vm_compute. reflexivity.
  - vm_compute. reflexivity.
Defined.

(** C1, as stated, fails: not every window is forecast.  On a window
    without records [forecast_well] raises numpy's [ValueError], whatever
    the optimizer, and on a window whose fit finds no parameters it raises
    the optimizer's error; either way no sequence is returned. *)
Lemma forecast_well_no_forecast_counterexample :
  1 <= 12
  /\ (forall curve_fit,
        fst (forecast_well (num := sample_numeric) curve_fit 0%nat 12
               {| heap := [[]]; stdout := [] |})
        = inl (Exn "ValueError"
                 "zero-size array to reduction operation maximum which has no identity"))
  /\ fst (forecast_well (num := sample_numeric) no_fit 0%nat 12
            {| heap := [sample_window]; stdout := [] |})
     = inl (Exn "RuntimeError"
              "Optimal parameters not found: The maximum number of function evaluations is exceeded.").
Proof.
  split; [lia|]. split.
  - intros curve_fit. reflexivity.
  - vm_compute. reflexivity.
Qed.


(** The premise of C8 is needed: when the optimizer answers a second call
    otherwise than the first, so does [forecast_well]. *)
Lemma forecast_well_follows_optimizer :
  fst (forecast_well (num := sample_numeric) keep_initial_guess 0%nat 12
         {| heap := [sample_window]; stdout := [] |})
  <> fst (forecast_well (num := sample_numeric) no_fit 0%nat 12
            {| heap := [sample_window]; stdout := [] |}).
Proof. vm_compute. discriminate. Qed.

Lemma core_never_mutates_input_witness :
  snd (forecast_well (num := sample_numeric) keep_initial_guess 0%nat 12
         sample_world) = sample_world /\
  snd (lift (fit_arps_decline (num := sample_numeric) keep_initial_guess
               [0; 31] [S754_zero false; S754_zero false]) sample_world)
  = sample_world /\
  (forall (l' : loc) (df' : DataFrame spec_float),
     nth_error (heap sample_world) l' = Some df' ->
     nth_error
       (heap (snd (evaluate_forecast (num := sample_numeric)
                     keep_initial_guess 0%nat sample_world))) l'
     = Some df').
Proof.
  apply (core_never_mutates_input (num := sample_numeric) keep_initial_guess
           sample_world 0%nat sample_table).
  reflexivity.
Defined.

Lemma evaluate_forecast_isolates_failures_witness :
  exists recs : list evaluation,
    fst (evaluate_forecast (num := sample_numeric) keep_initial_guess 0%nat
           sample_world) = inr recs /\
    (forall well e,
       In well (map well_api sample_table) ->
       fst (score_well (num := sample_numeric) keep_initial_guess 0%nat well
              sample_world) = inl e ->
       forall ev, In ev recs -> ev_well_api ev <> well) /\
    (forall well ev,
       In well (map well_api sample_table) ->
       fst (score_well (num := sample_numeric) keep_initial_guess 0%nat well
              sample_world) = inr ev ->
       In ev recs /\ ev_well_api ev = well) /\
    (forall ev,
       In ev recs ->
       exists well,
         In well (map well_api sample_table) /\
         fst (score_well (num := sample_numeric) keep_initial_guess 0%nat well
                sample_world) = inr ev) /\
    NoDup (map ev_well_api recs) /\
    recs = flat_map
             (fun well =>
                match fst (score_well (num := sample_numeric)
                             keep_initial_guess 0%nat well sample_world) with
                | inr ev => [ev]
                | inl _ => []
                end)
             (unique (map well_api sample_table)).
Proof.
  apply (evaluate_forecast_isolates_failures (num := sample_numeric)
           keep_initial_guess sample_world 0%nat sample_table).
  reflexivity.
Defined.

Lemma evaluate_forecast_scores_by_mpe_witness :
  let wd := filter (fun r => well_api r =? ev_well_api sample_record)
              sample_table in
  exists (train test : DataFrame spec_float)
         (oil_forecast gas_forecast : list spec_float)
         (oil_sum gas_sum : spec_float),
    wd = train ++ test /\
    length test = 12%nat /\
    (forall s' l', nth_error (heap s') l' = Some train ->
       fst (forecast_well (num := sample_numeric) keep_initial_guess l' 12 s')
       = inr (oil_forecast, gas_forecast)) /\
    length (relative_errors (num := sample_numeric)
              (map oil test) oil_forecast) = 12%nat /\
    length (relative_errors (num := sample_numeric)
              (map gas test) gas_forecast) = 12%nat /\
    adds_up (num := sample_numeric)
      (relative_errors (num := sample_numeric) (map oil test) oil_forecast)
      oil_sum /\
    adds_up (num := sample_numeric)
      (relative_errors (num := sample_numeric) (map gas test) gas_forecast)
      gas_sum /\
    oil_mpe sample_record
    = fmul (Numeric := sample_numeric)
        (fdiv (Numeric := sample_numeric) oil_sum
           (of_int (Numeric := sample_numeric) 12))
        (of_int (Numeric := sample_numeric) 100) /\
    gas_mpe sample_record
    = fmul (Numeric := sample_numeric)
        (fdiv (Numeric := sample_numeric) gas_sum
           (of_int (Numeric := sample_numeric) 12))
        (of_int (Numeric := sample_numeric) 100).
Proof.
  apply (evaluate_forecast_scores_by_mpe (num := sample_numeric)
           keep_initial_guess sample_world 0%nat sample_table
           sample_records sample_record).
  - reflexivity.
  - vm_compute. reflexivity.
  - vm_compute. left. reflexivity.
Defined.

Lemma arps_decline_at_zero_witness :
  arps_decline (num := real_numeric) 0%R 1000%R (8 / 100)%R (8 / 10)%R
  = 1000%R.
Proof.
  apply (arps_decline_at_zero 1000 (8 / 100) (8 / 10)); lra.
Defined.



Lemma forecast_well_attempts_fit_witness :
  (single_row_window = [] ->
   fst (forecast_well (num := sample_numeric) keep_initial_guess 0%nat 12
          {| heap := [single_row_window]; stdout := [] |})
   = inl (Exn "ValueError"
            "zero-size array to reduction operation maximum which has no identity"))
  /\
  (single_row_window <> [] ->
   exists (oil_max gas_max : spec_float) (t_last : Z),
     np_max (num := sample_numeric) (map oil single_row_window) = inr oil_max /\
     np_max (num := sample_numeric) (map gas single_row_window) = inr gas_max /\
     index_last (window_time single_row_window) = inr t_last /\
     fst (forecast_well (num := sample_numeric) keep_initial_guess 0%nat 12
            {| heap := [single_row_window]; stdout := [] |})
     = (oil_params <-? keep_initial_guess (arps_decline (num := sample_numeric))
                         (window_time single_row_window)
                         (map oil single_row_window)
                         (oil_max, literal (num := sample_numeric) 1 10,
                          literal (num := sample_numeric) 5 10)
                         (arps_bounds (num := sample_numeric)) ;;
        gas_params <-? keep_initial_guess (arps_decline (num := sample_numeric))
                         (window_time single_row_window)
                         (map gas single_row_window)
                         (gas_max, literal (num := sample_numeric) 1 10,
                          literal (num := sample_numeric) 5 10)
                         (arps_bounds (num := sample_numeric)) ;;
        rret (arps_decline_array (num := sample_numeric)
                (forecast_time t_last 12) oil_params,
              arps_decline_array (num := sample_numeric)
                (forecast_time t_last 12) gas_params))).
Proof.
  apply (forecast_well_attempts_fit (num := sample_numeric) keep_initial_guess
           {| heap := [single_row_window]; stdout := [] |} 0%nat
           single_row_window 12).
  reflexivity.
Defined.

(** C2, as stated, fails.  A window with a single record has one distinct
    date, and [forecast_well] fits it and returns twelve values for each
    commodity; a window without records has none, and the error is numpy's
    [ValueError]. Neither outcome is an [InsufficientDataError]. *)
Lemma forecast_well_single_date_counterexample :
  ((distinct_dates single_row_window < 2)%nat /\
   exists oil_forecast gas_forecast,
     fst (forecast_well (num := sample_numeric) keep_initial_guess 0%nat 12
            {| heap := [single_row_window]; stdout := [] |})
     = inr (oil_forecast, gas_forecast) /\
     length oil_forecast = 12%nat /\ length gas_forecast = 12%nat)
  /\
  ((distinct_dates (F := spec_float) [] < 2)%nat /\
   exists e,
     fst (forecast_well (num := sample_numeric) keep_initial_guess 0%nat 12
            {| heap := [[]]; stdout := [] |}) = inl e /\
     exn_class e = "ValueError" /\
     exn_class e <> "InsufficientDataError").
Proof.
  split; split.
  - vm_compute. lia.
  - eexists. eexists. split; [vm_compute; reflexivity|]. split; reflexivity.
  - vm_compute. lia.
  - eexists. split; [vm_compute; reflexivity|]. split; [reflexivity|].
    discriminate.
Qed.

Lemma zero_actual_yields_non_finite_record_witness :
  let test := test_rows (rows_of sample_table 1) in
  exists ev : evaluation,
    In ev sample_records /\
    ev_well_api ev = 1 /\
    calculate_mpe (num := sample_numeric) (map oil test) (fst sample_forecast)
    = inr (oil_mpe ev) /\
    calculate_mpe (num := sample_numeric) (map gas test) (snd sample_forecast)
    = inr (gas_mpe ev) /\
    (has_zero (map oil test) -> is_finite (oil_mpe ev) = false) /\
    (has_zero (map gas test) -> is_finite (gas_mpe ev) = false).
Proof.
  apply (zero_actual_yields_non_finite_record pow_square keep_initial_guess
           sample_world 0%nat sample_table 1
           (fst sample_forecast) (snd sample_forecast) sample_records).
  - reflexivity.
  - vm_compute. left. reflexivity.
  - vm_compute. reflexivity.
  - left. exists (S754_zero false). split; [|reflexivity].
    vm_compute. do 11 right. left. reflexivity.
  - vm_compute. reflexivity.
Defined.

(** C10, as stated, fails: a zero in the test window does not make sure that
    the well has a record.  A well with twelve records or fewer has no
    training rows; its forecast raises before [calculate_mpe] is reached,
    whatever the optimizer, and the well is skipped with a line on the
    output. *)
Lemma zero_actual_well_skipped_counterexample :
  let table := map (sample_row 3) [(0, 0, 10); (31, 70, 0); (59, 60, 8)] in
  has_zero (map oil (test_rows (rows_of table 3)))
  /\ has_zero (map gas (test_rows (rows_of table 3)))
  /\ forall curve_fit,
       evaluate_forecast (num := sample_numeric) curve_fit 0%nat
         {| heap := [table]; stdout := [] |}
       = (inr [],
          {| heap := [table; table; []; table];
             stdout := ["Error processing well 3: zero-size array to reduction operation maximum which has no identity"] |}).
Proof.
  split; [|split].
  - exists (S754_zero false). split; [left|]; reflexivity.
  - exists (S754_zero false). split; [right; left|]; reflexivity.
  - intros curve_fit. reflexivity.
Qed.

(** ** Instances of the further properties on the sample runs *)

Lemma forecast_well_ignores_epoch_witness :
  fst (forecast_well (num := sample_numeric) keep_initial_guess 0%nat 12
         {| heap := [shift_dates (365 * ns_per_day) sample_window];
            stdout := [] |})
  = fst (forecast_well (num := sample_numeric) keep_initial_guess 0%nat 12
           {| heap := [sample_window]; stdout := [] |}).
Proof.
  apply (forecast_well_ignores_epoch (num := sample_numeric)
           keep_initial_guess
           {| heap := [sample_window]; stdout := [] |}
           {| heap := [shift_dates (365 * ns_per_day) sample_window];
              stdout := [] |}
           0%nat 0%nat sample_window (365 * ns_per_day) 12);
    reflexivity.
Defined.

Lemma forecast_well_empty_horizon_witness :
  fst (forecast_well (num := sample_numeric) keep_initial_guess 0%nat 0
         {| heap := [sample_window]; stdout := [] |})
  = inr ([], []).
Proof.
  apply (forecast_well_empty_horizon (num := sample_numeric)
           keep_initial_guess {| heap := [sample_window]; stdout := [] |}
           0%nat sample_window 0 sample_oil_params sample_gas_params).
  - reflexivity.
  - lia.
  - vm_compute. reflexivity.
  - vm_compute. reflexivity.
Defined.

Lemma arps_decline_between_zero_and_qi_witness :
  (0 <= arps_decline (num := real_numeric) 30 1000 (8 / 100) (8 / 10)
   <= 1000)%R.
Proof.
  apply (arps_decline_between_zero_and_qi 1000 (8 / 100) (8 / 10) 30); lra.
Defined.

Lemma calculate_mpe_of_proportional_forecast_witness :
  calculate_mpe (num := real_numeric) [4; 2]%R
    (map (fun a => (1 + 1 / 4) * a)%R [4; 2]%R)
  = inr (1 / 4 * 100)%R
  /\ calculate_mpe (num := real_numeric) [4; 2]%R [4; 2]%R = inr 0%R.
Proof.
  apply (calculate_mpe_of_proportional_forecast (1 / 4) [4; 2]%R).
  - discriminate.
  - repeat constructor; lra.
Defined.

Lemma calculate_mpe_sign_witness :
  (Forall2 (fun a f => 0 < a <= f)%R [4; 2]%R [5; 2]%R ->
   (0 <= mpe (num := real_numeric) [4; 2] [5; 2])%R)
  /\ (Forall2 (fun a f => f <= a /\ 0 < a)%R [4; 2]%R [5; 2]%R ->
      (mpe (num := real_numeric) [4; 2] [5; 2] <= 0)%R).
Proof.
  apply (calculate_mpe_sign [4; 2]%R [5; 2]%R
           (mpe (num := real_numeric) [4; 2]%R [5; 2]%R)).
  reflexivity.
Defined.

Lemma evaluate_forecast_one_record_per_well_witness :
  NoDup (map ev_well_api sample_records)
  /\ forall ev, In ev sample_records ->
       In (ev_well_api ev) (map well_api sample_table)
       /\ (13 <= length (rows_of sample_table (ev_well_api ev)))%nat.
Proof.
  apply (evaluate_forecast_one_record_per_well (num := sample_numeric)
           keep_initial_guess sample_world 0%nat sample_table sample_records).
  - reflexivity.
  - vm_compute. reflexivity.
Defined.

Lemma evaluate_forecast_scores_or_reports_witness :
  exists lines : list string,
    stdout (snd (evaluate_forecast (num := sample_numeric) keep_initial_guess
                   0%nat sample_world))
    = stdout sample_world ++ lines
    /\ (length sample_records + length lines)%nat
       = length (unique (map well_api sample_table)).
Proof.
  apply (evaluate_forecast_scores_or_reports (num := sample_numeric)
           keep_initial_guess sample_world 0%nat sample_table sample_records).
  - reflexivity.
  - vm_compute. reflexivity.
Defined.

Lemma evaluate_forecast_skips_short_wells_witness :
  (forall ev, In ev sample_records -> ev_well_api ev <> 2)
  /\ In ("Error processing well " ++ str_of_int 2
         ++ ": zero-size array to reduction operation maximum which has no identity")%string
        (stdout (snd (evaluate_forecast (num := sample_numeric)
                        keep_initial_guess 0%nat sample_world))).
Proof.
  apply (evaluate_forecast_skips_short_wells (num := sample_numeric)
           keep_initial_guess sample_world 0%nat sample_table 2
           sample_records).
  - reflexivity.
  - vm_compute. do 14 right. left. reflexivity.
  - vm_compute. lia.
  - vm_compute. reflexivity.
Defined.

Lemma evaluate_forecast_scores_wells_independently_witness :
  In sample_record sample_records
  <-> In sample_record
        (match fst (evaluate_forecast (num := sample_numeric)
                      keep_initial_guess 0%nat
                      {| heap := [rows_of sample_table 1]; stdout := [] |}) with
         | inr recs => recs
         | inl _ => []
         end).
Proof.
  apply (evaluate_forecast_scores_wells_independently (num := sample_numeric)
           keep_initial_guess sample_world
           {| heap := [rows_of sample_table 1]; stdout := [] |}
           0%nat 0%nat sample_table (rows_of sample_table 1) 1).
  - reflexivity.
  - reflexivity.
  - vm_compute. reflexivity.
  - vm_compute. reflexivity.
  - vm_compute. reflexivity.
  - reflexivity.
Defined.

Lemma preprocess_data_keeps_whole_wells_witness :
  exists out : DataFrame spec_float,
    table_after (preprocess_data sample_choice 0%nat sample_service_world)
    = Some out
    /\ forall w, In w (map well_api out) ->
         Permutation (rows_of out w) (rows_of sample_history w)
         /\ (24 <= length (rows_of out w))%nat.
Proof.
  apply (preprocess_data_keeps_whole_wells sample_choice
           sample_service_world 0%nat sample_history).
  - reflexivity.
  - exact sample_choice_draws.
Defined.

Lemma preprocess_data_keeps_ten_wells_witness :
  length (unique (map well_api sample_prepared))
  = Nat.min 10 (length (valid_wells_of sample_history))
  /\ incl (unique (map well_api sample_prepared))
          (valid_wells_of sample_history).
Proof.
  apply (preprocess_data_keeps_ten_wells sample_choice
           sample_service_world 0%nat sample_history sample_prepared).
  - reflexivity.
  - exact sample_choice_draws.
  - vm_compute. reflexivity.
Defined.

Lemma preprocess_data_sorts_by_well_and_date_witness :
  StronglySorted well_date_le sample_prepared.
Proof.
  apply (preprocess_data_sorts_by_well_and_date sample_choice
           sample_service_world 0%nat sample_history sample_prepared).
  - reflexivity.
  - vm_compute. reflexivity.
Defined.

Lemma preprocess_data_returns_a_new_table_witness :
  (forall l0 df0, nth_error (heap sample_service_world) l0 = Some df0 ->
     nth_error
       (heap (snd (preprocess_data sample_choice 0%nat sample_service_world)))
       l0 = Some df0)
  /\ (exists l',
        fst (preprocess_data sample_choice 0%nat sample_service_world)
        = inr l'
        /\ nth_error (heap sample_service_world) l' = None)
  /\ incl sample_prepared sample_history.
Proof.
  apply (preprocess_data_returns_a_new_table sample_choice
           sample_service_world 0%nat sample_history sample_prepared).
  - reflexivity.
  - vm_compute. reflexivity.
Defined.

Lemma get_well_data_always_answers_witness :
  exists r : response spec_float,
    fst (get_well_data (num := sample_numeric) keep_initial_guess sample_sort
           0%nat "7" sample_service_world) = inr r
    /\ ((length (rows_named sample_history "7") < 24)%nat ->
        status r = 400
        /\ body r
           = ErrorBody
               ("Insufficient data for well " ++ "7" ++ ". Only "
                ++ str_of_int (Z.of_nat (length (rows_named sample_history "7")))
                ++ " records found.")%string)
    /\ ((24 <= length (rows_named sample_history "7"))%nat ->
        status r = 200
        \/ (status r = 500
            /\ exists e time production p0,
                 keep_initial_guess (arps_decline (num := sample_numeric))
                   time production p0 (arps_bounds (num := sample_numeric))
                 = inl e
                 /\ body r
                    = ErrorBody
                        ("Error processing data for well " ++ "7"
                         ++ ": " ++ exn_msg e)%string)).
Proof.
  apply (get_well_data_always_answers (num := sample_numeric)
           keep_initial_guess sample_sort sample_service_world 0%nat
           sample_history "7").
  - reflexivity.
  - exact sample_sort_sorts.
Defined.

Lemma get_well_data_answer_shape_witness :
  exists dates oil_production gas_production oil_forecast gas_forecast
         forecast_dates,
    body sample_well_data
    = WellDataBody dates oil_production gas_production
        oil_forecast gas_forecast forecast_dates
    /\ length dates = 24%nat
    /\ length oil_production = 24%nat
    /\ length gas_production = 24%nat
    /\ length oil_forecast = 12%nat
    /\ length gas_forecast = 12%nat
    /\ forecast_dates = skipn 12 dates
    /\ StronglySorted Z.le dates
    /\ (forall d, In d (map prod_date (rows_named sample_history "7")) ->
          In d dates \/ d <= nth 0 dates 0).
Proof.
  apply (get_well_data_answer_shape (num := sample_numeric)
           keep_initial_guess sample_sort sample_service_world 0%nat
           sample_history "7" sample_well_data).
  - reflexivity.
  - exact sample_sort_sorts.
  - vm_compute. reflexivity.
  - reflexivity.
Defined.

Lemma listed_wells_have_enough_data_witness :
  exists wells : list Z,
    fst (get_wells 0%nat sample_prepared_world)
    = inr (Response (WellsBody wells) 200)
    /\ forall w, In w wells ->
         exists r : response spec_float,
           fst (get_well_data (num := sample_numeric) keep_initial_guess
                  sample_sort 0%nat (str_of_int w) sample_prepared_world)
           = inr r
           /\ status r <> 400.
Proof.
  apply (listed_wells_have_enough_data (num := sample_numeric)
           keep_initial_guess sample_choice sample_sort
           sample_service_world sample_prepared_world 0%nat 0%nat
           sample_history sample_prepared).
  - reflexivity.
  - exact sample_choice_draws.
  - vm_compute. reflexivity.
  - reflexivity.
Defined.

Lemma update_forecast_always_answers_witness :
  (exists r : response spec_float,
     fst (update_forecast (num := sample_numeric) keep_initial_guess
            sample_date_range 0%nat "8" sample_unreadable_request
            sample_service_world) = inr r
     /\ status r = 500
     /\ body r
        = ErrorBody
            "415 Unsupported Media Type: Did not attempt to load JSON data because the request Content-Type was not 'application/json'.")
  /\ (exists r : response spec_float,
        fst (update_forecast (num := sample_numeric) keep_initial_guess
               sample_date_range 0%nat "8" sample_request_without_oil
               sample_service_world) = inr r
        /\ status r = 400
        /\ body r = ErrorBody "Insufficient data for this well")
  /\ (exists r : response spec_float,
        fst (update_forecast (num := sample_numeric) keep_initial_guess
               sample_date_range 0%nat "7" sample_request_without_oil
               sample_service_world) = inr r
        /\ status r = 500
        /\ body r = ErrorBody "'oil_adjustment'").
Proof.
  split; [|split].
  - destruct (update_forecast_always_answers (num := sample_numeric)
                keep_initial_guess sample_date_range sample_service_world
                0%nat sample_history "8" sample_unreadable_request eq_refl)
      as (r & Hr & H500 & _).
    exists r. split; [exact Hr|]. apply (H500 _ eq_refl).
  - destruct (update_forecast_always_answers (num := sample_numeric)
                keep_initial_guess sample_date_range sample_service_world
                0%nat sample_history "8" sample_request_without_oil eq_refl)
      as (r & Hr & _ & H400 & _).
    exists r. split; [exact Hr|]. apply (H400 _ eq_refl).
    vm_compute. lia.
  - destruct (update_forecast_always_answers (num := sample_numeric)
                keep_initial_guess sample_date_range sample_service_world
                0%nat sample_history "7" sample_request_without_oil eq_refl)
      as (r & Hr & _ & _ & Hkey).
    exists r. split; [exact Hr|]. eapply (Hkey _ _ eq_refl).
    + vm_compute. lia.
    + vm_compute. reflexivity.
    + reflexivity.
Defined.

Lemma update_forecast_answer_shape_witness :
  exists oil_forecast gas_forecast forecast_dates last_date,
    body sample_update = ForecastBody oil_forecast gas_forecast forecast_dates
    /\ length oil_forecast = 12%nat
    /\ length gas_forecast = 12%nat
    /\ (24 <= length (rows_named sample_history "7"))%nat
    /\ iloc_last (map prod_date (train_rows (rows_named sample_history "7")))
       = inr last_date
    /\ sample_date_range (last_date + 30 * ns_per_day) = inr forecast_dates.
Proof.
  apply (update_forecast_answer_shape (num := sample_numeric)
           keep_initial_guess sample_date_range sample_service_world 0%nat
           sample_history "7" sample_request sample_update).
  - reflexivity.
  - vm_compute. reflexivity.
  - reflexivity.
Defined.

Lemma update_forecast_zero_adjustment_witness :
  fst (update_forecast (num := real_numeric) keep_initial_guess
         sample_date_range 0%nat "7"
         (inr (Some [("oil_adjustment", 0%R); ("gas_adjustment", 0%R)]))
         {| heap := [real_history]; stdout := [] |})
  = inr (Response
           (ForecastBody (fst real_forecast) (snd real_forecast)
              (map (fun i => 330 * ns_per_day + 30 * ns_per_day
                             + Z.of_nat i * 30 * ns_per_day) (seq 0 12)))
           200).
Proof.
  apply (update_forecast_zero_adjustment keep_initial_guess sample_date_range
           {| heap := [real_history]; stdout := [] |} 0%nat real_history "7"
           [("oil_adjustment", 0%R); ("gas_adjustment", 0%R)]
           (fst real_forecast) (snd real_forecast) (330 * ns_per_day)).
  - reflexivity.
  - vm_compute. lia.
  - reflexivity.
  - reflexivity.
  - reflexivity.
  - reflexivity.
  - reflexivity.
Defined.

Lemma views_agree_on_24_records_witness :
  exists dates oil_production gas_production oil_forecast gas_forecast
         forecast_dates oil_percent gas_percent forecast_dates',
    body sample_well_data
    = WellDataBody dates oil_production gas_production
        oil_forecast gas_forecast forecast_dates
    /\ subscript (Some [("oil_adjustment", of_int (Numeric := sample_numeric) 10);
                        ("gas_adjustment", of_int (Numeric := sample_numeric) (-5))])
         "oil_adjustment" = inr oil_percent
    /\ subscript (Some [("oil_adjustment", of_int (Numeric := sample_numeric) 10);
                        ("gas_adjustment", of_int (Numeric := sample_numeric) (-5))])
         "gas_adjustment" = inr gas_percent
    /\ body sample_update
       = ForecastBody
           (map (fun x => fmul (Numeric := sample_numeric) x
                            (fadd (Numeric := sample_numeric)
                               (of_int (Numeric := sample_numeric) 1)
                               (fdiv (Numeric := sample_numeric) oil_percent
                                  (of_int (Numeric := sample_numeric) 100))))
                oil_forecast)
           (map (fun x => fmul (Numeric := sample_numeric) x
                            (fadd (Numeric := sample_numeric)
                               (of_int (Numeric := sample_numeric) 1)
                               (fdiv (Numeric := sample_numeric) gas_percent
                                  (of_int (Numeric := sample_numeric) 100))))
                gas_forecast)
           forecast_dates'.
Proof.
  apply (views_agree_on_24_records (num := sample_numeric) keep_initial_guess
           sample_sort sample_date_range sample_service_world 0%nat
           sample_history "7"
           (Some [("oil_adjustment", of_int (Numeric := sample_numeric) 10);
                  ("gas_adjustment", of_int (Numeric := sample_numeric) (-5))])
           sample_well_data sample_update).
  - reflexivity.
  - exact sample_sort_sorts.
  - vm_compute. reflexivity.
  - vm_compute. repeat (constructor; try reflexivity).
  - vm_compute. reflexivity.
  - vm_compute. reflexivity.
  - reflexivity.
Defined.

Lemma plot_data_after_evaluation_witness :
  exists points : list (plot_point spec_float),
    fst (plot_data (num := sample_numeric) keep_initial_guess 0%nat
           sample_records [] sample_world) = inr points
    /\ length points = (12 * length sample_records)%nat
    /\ map point_well points
       = flat_map (fun ev => repeat (ev_well_api ev) 12) sample_records.
Proof.
  apply (plot_data_after_evaluation (num := sample_numeric) keep_initial_guess
           sample_world sample_world 0%nat 0%nat sample_table sample_records).
  - reflexivity.
  - reflexivity.
  - vm_compute. reflexivity.
Defined.

Lemma views_leave_the_table_alone_witness :
  nth_error
    (heap (snd (get_well_data (num := sample_numeric) keep_initial_guess
                  sample_sort 0%nat "7" sample_service_world))) 0%nat
  = Some sample_history
  /\ nth_error
       (heap (snd (update_forecast (num := sample_numeric) keep_initial_guess
                     sample_date_range 0%nat "7" sample_request
                     sample_service_world))) 0%nat
     = Some sample_history
  /\ stdout (snd (update_forecast (num := sample_numeric) keep_initial_guess
                    sample_date_range 0%nat "7" sample_request
                    sample_service_world))
     = stdout sample_service_world.
Proof.
  apply (views_leave_the_table_alone (num := sample_numeric)
           keep_initial_guess sample_sort sample_date_range
           sample_service_world 0%nat sample_history "7" sample_request
           0%nat sample_history).
  - reflexivity.
  - reflexivity.
Defined.
